(** * liaotian: row-level-security policies and the settings workflow

    A shallow embedding of
    - [supabase/migrations/database_structure.sql]: the six relations, their
      foreign-key actions, the row-level-security (RLS) policies and the
      storage policies;
    - [src/components/Settings.tsx]: the handlers of the settings page, run
      against that schema.

    SQL expressions are evaluated in SQL's three-valued logic; a policy lets a
    row through only when its expression is TRUE. *)

From Stdlib Require Import String Ascii List Bool ZArith Lia.
Import ListNotations.
Open Scope string_scope.

(** ** SQL values and three-valued logic *)

Module Sql.

(** A SQL boolean: [Some true], [Some false] or NULL ([None]). *)
Definition tri := option bool.

Definition TRUE : tri := Some true.
Definition FALSE : tri := Some false.
Definition NULL {A : Type} : option A := None.

Definition and3 (a b : tri) : tri :=
  match a, b with
  | Some false, _ | _, Some false => Some false
  | Some true, Some true => Some true
  | _, _ => None
  end.

Definition or3 (a b : tri) : tri :=
  match a, b with
  | Some true, _ | _, Some true => Some true
  | Some false, Some false => Some false
  | _, _ => None
  end.

(** [a = b] and [a <> b] on nullable text or uuid columns. *)
Definition eq3 (a b : option string) : tri :=
  match a, b with
  | Some x, Some y => Some (String.eqb x y)
  | _, _ => None
  end.

Definition neq3 (a b : option string) : tri :=
  match a, b with
  | Some x, Some y => Some (negb (String.eqb x y))
  | _, _ => None
  end.

(** [a = b] on nullable boolean columns. *)
Definition eqb3 (a b : tri) : tri :=
  match a, b with
  | Some x, Some y => Some (Bool.eqb x y)
  | _, _ => None
  end.

Definition is_null {A : Type} (a : option A) : tri :=
  match a with None => Some true | Some _ => Some false end.

Definition is_not_null {A : Type} (a : option A) : tri :=
  match a with None => Some false | Some _ => Some true end.

(** A row passes a WHERE clause or a policy only when the expression is
    TRUE; FALSE and NULL both reject it. *)
Definition is_true (t : tri) : bool :=
  match t with Some true => true | _ => false end.

(** [SELECT ... FROM rows WHERE p]. *)
Definition where_ {A : Type} (p : A -> tri) (rows : list A) : list A :=
  filter (fun r => is_true (p r)) rows.

(** [EXISTS (subquery)]: never NULL. *)
Definition exists_ {A : Type} (rows : list A) : tri :=
  match rows with [] => Some false | _ :: _ => Some true end.

End Sql.
Import Sql.

Declare Scope sql_scope.
Delimit Scope sql_scope with sql.
Infix "AND" := and3 (at level 72, left associativity) : sql_scope.
Infix "OR" := or3 (at level 73, left associativity) : sql_scope.
Infix "==" := eq3 (at level 70, no associativity) : sql_scope.
Infix "=/=" := neq3 (at level 70, no associativity) : sql_scope.

(** ** Schema *)

(** A [uuid] is carried in its canonical text form, the form in which the
    client receives it and in which [id::text] prints it. *)
Definition uuid := string.
Definition text := string.
Definition timestamptz := Z.

(** [id::text]. *)
Definition uuid_to_text (u : uuid) : text := u.

(** One module per relation; a column without NOT NULL (and outside the
    primary key) is an [option]. *)

Module profiles.
Record row := {
  id : uuid;                          (* PRIMARY KEY REFERENCES auth.users ON DELETE CASCADE *)
  username : text;                    (* UNIQUE NOT NULL *)
  display_name : text;                (* NOT NULL *)
  bio : option text;
  avatar_url : option text;
  banner_url : option text;
  verified : option bool;
  created_at : option timestamptz;
  theme : option text;
  verification_request : option text;
  last_seen : option timestamptz
}.
End profiles.

Module posts.
Record row := {
  id : uuid;                          (* PRIMARY KEY *)
  user_id : uuid;                     (* NOT NULL REFERENCES profiles(id) ON DELETE CASCADE *)
  content : text;
  media_url : option text;
  media_type : option text;
  created_at : option timestamptz
}.
End posts.

Module follows.
Record row := {
  follower_id : uuid;                 (* NOT NULL REFERENCES profiles(id) ON DELETE CASCADE *)
  following_id : uuid;                (* NOT NULL REFERENCES profiles(id) ON DELETE CASCADE *)
  created_at : option timestamptz
}.
End follows.

Module messages.
Record row := {
  id : uuid;                          (* PRIMARY KEY *)
  sender_id : uuid;                   (* NOT NULL REFERENCES profiles(id) ON DELETE CASCADE *)
  recipient_id : uuid;                (* NOT NULL REFERENCES profiles(id) ON DELETE CASCADE *)
  content : text;
  media_url : option text;
  media_type : option text;
  read : option bool;
  created_at : option timestamptz;
  reply_to_id : option uuid;          (* REFERENCES messages(id) ON DELETE SET NULL *)
  group_id : option uuid              (* REFERENCES groups(id) ON DELETE CASCADE *)
}.
End messages.

Module groups.
Record row := {
  id : uuid;                          (* PRIMARY KEY *)
  name : text;
  creator_id : option uuid;           (* REFERENCES profiles(id) ON DELETE SET NULL *)
  created_at : option timestamptz;
  avatar_url : option text;
  banner_url : option text
}.
End groups.

Module group_members.
Record row := {
  group_id : uuid;                    (* REFERENCES groups(id) ON DELETE CASCADE *)
  user_id : uuid;                     (* REFERENCES profiles(id) ON DELETE CASCADE *)
  joined_at : option timestamptz;
  is_admin : option bool
  (* PRIMARY KEY (group_id, user_id) *)
}.
End group_members.

(** [storage.objects], as far as the storage policies read it. *)
Module storage_objects.
Record row := {
  bucket_id : text;
  name : text
}.
End storage_objects.

Record database := {
  auth_users : list uuid;               (* auth.users(id) *)
  db_profiles : list profiles.row;
  db_posts : list posts.row;
  db_follows : list follows.row;
  db_messages : list messages.row;
  db_groups : list groups.row;
  db_group_members : list group_members.row;
  db_storage_objects : list storage_objects.row
}.

(** ** Row-level security *)

Inductive role := anon | authenticated.

Definition role_eqb (r1 r2 : role) : bool :=
  match r1, r2 with
  | anon, anon | authenticated, authenticated => true
  | _, _ => false
  end.

(** The identity a request runs as: its database role and [auth.uid()],
    which is NULL without a session. *)
Record caller := {
  caller_role : role;
  auth_uid : option uuid
}.

(** An authenticated caller with identity [a]. *)
Definition signed_in (a : uuid) : caller :=
  {| caller_role := authenticated; auth_uid := Some a |}.

Inductive command := SELECT | INSERT | UPDATE | DELETE.

Definition command_eqb (c1 c2 : command) : bool :=
  match c1, c2 with
  | SELECT, SELECT | INSERT, INSERT | UPDATE, UPDATE | DELETE, DELETE => true
  | _, _ => false
  end.

(** The roles of a policy: [TO r], or every role when the clause is absent. *)
Inductive grantee := PUBLIC | TO (r : role).

Section Policy.
Variable R : Type.

Definition expr := caller -> database -> R -> tri.

Record policy := {
  pol_name : string;
  pol_cmd : command;
  pol_to : grantee;
  pol_using : option expr;
  pol_with_check : option expr
}.

Definition applies (p : policy) (cmd : command) (c : caller) : bool :=
  command_eqb (pol_cmd p) cmd &&
  match pol_to p with
  | PUBLIC => true
  | TO r => role_eqb r (caller_role c)
  end.

(** The USING expression of one policy on an existing row; an absent
    expression does not restrict. *)
Definition using_ok (p : policy) (c : caller) (db : database) (r : R) : bool :=
  match pol_using p with
  | Some e => is_true (e c db r)
  | None => true
  end.

(** The WITH CHECK expression on a proposed row; when absent the USING
    expression stands in for it. *)
Definition check_ok (p : policy) (c : caller) (db : database) (r : R) : bool :=
  match pol_with_check p with
  | Some e => is_true (e c db r)
  | None => using_ok p c db r
  end.

(** With RLS enabled, the permissive policies of a command are OR-ed, and a
    command without any applicable policy is denied. *)
Definition permits_row (ps : list policy) (cmd : command)
           (c : caller) (db : database) (r : R) : bool :=
  existsb (fun p => applies p cmd c && using_ok p c db r) ps.

Definition permits_new_row (ps : list policy) (cmd : command)
           (c : caller) (db : database) (r : R) : bool :=
  existsb (fun p => applies p cmd c && check_ok p c db r) ps.

(** The rows of a table a caller's SELECT (or a subquery inside a policy,
    which runs as the caller) can see. *)
Definition visible (ps : list policy) (c : caller) (db : database)
           (tbl : list R) : list R :=
  filter (permits_row ps SELECT c db) tbl.

(** An UPDATE of [old] into [new]: USING on the old row, WITH CHECK on the
    new one. *)
Definition permits_update (ps : list policy) (c : caller) (db : database)
           (old new : R) : bool :=
  permits_row ps UPDATE c db old && permits_new_row ps UPDATE c db new.

End Policy.

Arguments pol_name {R} _.
Arguments pol_cmd {R} _.
Arguments pol_to {R} _.
Arguments pol_using {R} _.
Arguments pol_with_check {R} _.
Arguments applies {R} _ _ _.
Arguments using_ok {R} _ _ _ _.
Arguments check_ok {R} _ _ _ _.
Arguments permits_row {R} _ _ _ _ _.
Arguments permits_new_row {R} _ _ _ _ _.
Arguments visible {R} _ _ _ _.
Arguments permits_update {R} _ _ _ _ _.

Local Open Scope sql_scope.

(** *** Policies for group_members: SELECT first, the base case *)

(** [CREATE POLICY "Members viewable by self" ON group_members
      FOR SELECT TO authenticated
      USING (group_members.user_id = auth.uid())] *)
Definition Members_viewable_by_self : policy group_members.row :=
  {| pol_name := "Members viewable by self";
     pol_cmd := SELECT;
     pol_to := TO authenticated;
     pol_using := Some (fun c _ gm =>
       Some (group_members.user_id gm) == auth_uid c);
     pol_with_check := None |}.

Definition group_members_select_policies : list (policy group_members.row) :=
  [Members_viewable_by_self].

(** [FROM group_members], as a caller's query or policy subquery reads it. *)
Definition from_group_members (c : caller) (db : database) : list group_members.row :=
  visible group_members_select_policies c db (db_group_members db).

(** *** Policies for groups: SELECT *)

(** [CREATE POLICY "Groups viewable by members" ON groups
      FOR SELECT TO authenticated
      USING (groups.creator_id = auth.uid()
             OR EXISTS (SELECT 1 FROM group_members
                        WHERE group_id = groups.id AND user_id = auth.uid()))] *)
Definition Groups_viewable_by_members : policy groups.row :=
  {| pol_name := "Groups viewable by members";
     pol_cmd := SELECT;
     pol_to := TO authenticated;
     pol_using := Some (fun c db g =>
       groups.creator_id g == auth_uid c
       OR exists_ (where_ (fun gm =>
            Some (group_members.group_id gm) == Some (groups.id g)
            AND Some (group_members.user_id gm) == auth_uid c)
          (from_group_members c db)));
     pol_with_check := None |}.

Definition groups_select_policies : list (policy groups.row) :=
  [Groups_viewable_by_members].

Definition from_groups (c : caller) (db : database) : list groups.row :=
  visible groups_select_policies c db (db_groups db).

(** *** Policies for messages *)

(** [CREATE POLICY "Users can view DMs" ON messages FOR SELECT TO authenticated
      USING ((auth.uid() = sender_id OR auth.uid() = recipient_id)
             AND group_id IS NULL)] *)
Definition Users_can_view_DMs : policy messages.row :=
  {| pol_name := "Users can view DMs";
     pol_cmd := SELECT;
     pol_to := TO authenticated;
     pol_using := Some (fun c _ m =>
       (auth_uid c == Some (messages.sender_id m)
        OR auth_uid c == Some (messages.recipient_id m))
       AND is_null (messages.group_id m));
     pol_with_check := None |}.

(** [CREATE POLICY "Users can view group messages" ON messages
      FOR SELECT TO authenticated
      USING (group_id IS NOT NULL
             AND EXISTS (SELECT 1 FROM group_members
                         WHERE group_id = messages.group_id
                           AND user_id = auth.uid()))] *)
Definition Users_can_view_group_messages : policy messages.row :=
  {| pol_name := "Users can view group messages";
     pol_cmd := SELECT;
     pol_to := TO authenticated;
     pol_using := Some (fun c db m =>
       is_not_null (messages.group_id m)
       AND exists_ (where_ (fun gm =>
             Some (group_members.group_id gm) == messages.group_id m
             AND Some (group_members.user_id gm) == auth_uid c)
           (from_group_members c db)));
     pol_with_check := None |}.

(** [CREATE POLICY "Users can send DMs" ON messages FOR INSERT TO authenticated
      WITH CHECK (auth.uid() = sender_id AND group_id IS NULL)] *)
Definition Users_can_send_DMs : policy messages.row :=
  {| pol_name := "Users can send DMs";
     pol_cmd := INSERT;
     pol_to := TO authenticated;
     pol_using := None;
     pol_with_check := Some (fun c _ m =>
       auth_uid c == Some (messages.sender_id m)
       AND is_null (messages.group_id m)) |}.

(** [CREATE POLICY "Users can send group messages" ON messages
      FOR INSERT TO authenticated
      WITH CHECK (group_id IS NOT NULL AND auth.uid() = sender_id
                  AND EXISTS (SELECT 1 FROM group_members
                              WHERE group_id = messages.group_id
                                AND user_id = auth.uid()))] *)
Definition Users_can_send_group_messages : policy messages.row :=
  {| pol_name := "Users can send group messages";
     pol_cmd := INSERT;
     pol_to := TO authenticated;
     pol_using := None;
     pol_with_check := Some (fun c db m =>
       is_not_null (messages.group_id m)
       AND auth_uid c == Some (messages.sender_id m)
       AND exists_ (where_ (fun gm =>
             Some (group_members.group_id gm) == messages.group_id m
             AND Some (group_members.user_id gm) == auth_uid c)
           (from_group_members c db))) |}.

(** [CREATE POLICY "Users can mark DMs as read" ON messages
      FOR UPDATE TO authenticated
      USING ((auth.uid() = recipient_id) AND group_id IS NULL)
      WITH CHECK (auth.uid() = recipient_id)] *)
Definition Users_can_mark_DMs_as_read : policy messages.row :=
  {| pol_name := "Users can mark DMs as read";
     pol_cmd := UPDATE;
     pol_to := TO authenticated;
     pol_using := Some (fun c _ m =>
       auth_uid c == Some (messages.recipient_id m)
       AND is_null (messages.group_id m));
     pol_with_check := Some (fun c _ m =>
       auth_uid c == Some (messages.recipient_id m)) |}.

(** Every policy the migration creates on [messages]. *)
Definition messages_policies : list (policy messages.row) :=
  [ Users_can_view_DMs;
    Users_can_view_group_messages;
    Users_can_send_DMs;
    Users_can_send_group_messages;
    Users_can_mark_DMs_as_read ].

(** [SELECT * FROM messages] issued by a caller. *)
Definition select_messages (c : caller) (db : database) : list messages.row :=
  visible messages_policies c db (db_messages db).


(** *** Policies for groups: writes *)

(** Shared by the UPDATE (USING and WITH CHECK) and DELETE policies of
    [groups]:
    [auth.uid() = creator_id
     OR EXISTS (SELECT 1 FROM group_members
                WHERE group_id = groups.id AND user_id = auth.uid()
                  AND is_admin = true)] *)
Definition groups_creator_or_admin : expr groups.row :=
  fun c db g =>
    auth_uid c == groups.creator_id g
    OR exists_ (where_ (fun gm =>
         Some (group_members.group_id gm) == Some (groups.id g)
         AND Some (group_members.user_id gm) == auth_uid c
         AND eqb3 (group_members.is_admin gm) TRUE)
       (from_group_members c db)).

(** [CREATE POLICY "Creators can create groups" ON groups FOR INSERT
      WITH CHECK (auth.uid() = creator_id)] *)
Definition Creators_can_create_groups : policy groups.row :=
  {| pol_name := "Creators can create groups";
     pol_cmd := INSERT;
     pol_to := PUBLIC;
     pol_using := None;
     pol_with_check := Some (fun c _ g => auth_uid c == groups.creator_id g) |}.

(** [CREATE POLICY "Admins and creators can update groups" ON groups
      FOR UPDATE USING (...) WITH CHECK (...)] *)
Definition Admins_and_creators_can_update_groups : policy groups.row :=
  {| pol_name := "Admins and creators can update groups";
     pol_cmd := UPDATE;
     pol_to := PUBLIC;
     pol_using := Some groups_creator_or_admin;
     pol_with_check := Some groups_creator_or_admin |}.

(** [CREATE POLICY "Admins and creators can delete groups" ON groups
      FOR DELETE USING (...)] *)
Definition Admins_and_creators_can_delete_groups : policy groups.row :=
  {| pol_name := "Admins and creators can delete groups";
     pol_cmd := DELETE;
     pol_to := PUBLIC;
     pol_using := Some groups_creator_or_admin;
     pol_with_check := None |}.

Definition groups_policies : list (policy groups.row) :=
  [ Groups_viewable_by_members;
    Creators_can_create_groups;
    Admins_and_creators_can_update_groups;
    Admins_and_creators_can_delete_groups ].

(** *** Policies for group_members: writes *)

(** [EXISTS (SELECT 1 FROM groups
             WHERE id = group_members.group_id AND creator_id = auth.uid())] *)
Definition is_group_creator : expr group_members.row :=
  fun c db row =>
    exists_ (where_ (fun g =>
        Some (groups.id g) == Some (group_members.group_id row)
        AND groups.creator_id g == auth_uid c)
      (from_groups c db)).

(** [EXISTS (SELECT 1 FROM group_members gm
             WHERE gm.group_id = group_members.group_id
               AND gm.user_id = auth.uid() AND gm.is_admin = true)] *)
Definition is_group_admin : expr group_members.row :=
  fun c db row =>
    exists_ (where_ (fun gm =>
        Some (group_members.group_id gm) == Some (group_members.group_id row)
        AND Some (group_members.user_id gm) == auth_uid c
        AND eqb3 (group_members.is_admin gm) TRUE)
      (from_group_members c db)).

(** [CREATE POLICY "Admins and creators can insert members" ON group_members
      FOR INSERT TO authenticated
      WITH CHECK (EXISTS (... groups ...) OR EXISTS (... group_members gm ...))] *)
Definition Admins_and_creators_can_insert_members : policy group_members.row :=
  {| pol_name := "Admins and creators can insert members";
     pol_cmd := INSERT;
     pol_to := TO authenticated;
     pol_using := None;
     pol_with_check := Some (fun c db row =>
       is_group_creator c db row OR is_group_admin c db row) |}.

(** [CREATE POLICY "Admins and creators can update member roles"
      ON group_members FOR UPDATE
      USING ((EXISTS (... groups ...) OR EXISTS (... group_members gm ...))
             AND auth.uid() <> user_id)
      WITH CHECK (true)] *)
Definition Admins_and_creators_can_update_member_roles : policy group_members.row :=
  {| pol_name := "Admins and creators can update member roles";
     pol_cmd := UPDATE;
     pol_to := PUBLIC;
     pol_using := Some (fun c db row =>
       (is_group_creator c db row OR is_group_admin c db row)
       AND auth_uid c =/= Some (group_members.user_id row));
     pol_with_check := Some (fun _ _ _ => TRUE) |}.

(** [CREATE POLICY "Admins, creators, and member can delete members"
      ON group_members FOR DELETE
      USING (auth.uid() = user_id OR EXISTS (... groups ...)
             OR EXISTS (... group_members gm ...))] *)
Definition Admins_creators_and_member_can_delete_members : policy group_members.row :=
  {| pol_name := "Admins, creators, and member can delete members";
     pol_cmd := DELETE;
     pol_to := PUBLIC;
     pol_using := Some (fun c db row =>
       auth_uid c == Some (group_members.user_id row)
       OR is_group_creator c db row
       OR is_group_admin c db row);
     pol_with_check := None |}.

(** Every policy on [group_members] once the migration has run (the earlier
    "Members viewable by members" is dropped and not recreated). *)
Definition group_members_policies : list (policy group_members.row) :=
  [ Members_viewable_by_self;
    Admins_and_creators_can_insert_members;
    Admins_and_creators_can_update_member_roles;
    Admins_creators_and_member_can_delete_members ].

(** [SELECT * FROM group_members] issued by a caller. *)
Definition select_group_members (c : caller) (db : database) : list group_members.row :=
  visible group_members_policies c db (db_group_members db).

(** The caller created the group of membership row [row]. *)
Definition created_group (db : database) (a : uuid) (row : group_members.row) : Prop :=
  exists g, In g (db_groups db) /\
            groups.id g = group_members.group_id row /\
            groups.creator_id g = Some a.

(** The caller holds an [is_admin = true] membership in the group of [row]. *)
Definition admin_of_group (db : database) (a : uuid) (row : group_members.row) : Prop :=
  exists gm, In gm (db_group_members db) /\
             group_members.group_id gm = group_members.group_id row /\
             group_members.user_id gm = a /\
             group_members.is_admin gm = Some true.

(** *** Row security per table *)

Inductive table :=
  | t_profiles | t_posts | t_follows | t_messages | t_groups | t_group_members.

(** [ALTER TABLE ... ENABLE ROW LEVEL SECURITY], issued for all six tables. *)
Definition rls_enabled (t : table) : bool :=
  match t with
  | t_profiles => true
  | t_posts => true
  | t_follows => true
  | t_messages => true
  | t_groups => true
  | t_group_members => true
  end.

(** Whether a caller's command may touch an existing row of table [t]: the
    policies decide once RLS is enabled; without RLS every row is open. *)
Definition row_allowed {R : Type} (t : table) (ps : list (policy R))
           (cmd : command) (c : caller) (db : database) (r : R) : bool :=
  if rls_enabled t then permits_row ps cmd c db r else true.

(** The policies of a table that are declared for one command. *)
Definition policies_for {R : Type} (cmd : command) (ps : list (policy R)) :
  list (policy R) :=
  filter (fun p => command_eqb (pol_cmd p) cmd) ps.

(** ** Storage *)

(** [string_to_array(s, sep)] on a non-empty string: the pieces between
    separators, empty pieces included. *)
Fixpoint split_on (sep : ascii) (s : string) : list string :=
  match s with
  | EmptyString => [EmptyString]
  | String ch rest =>
      if Ascii.eqb ch sep then EmptyString :: split_on sep rest
      else match split_on sep rest with
           | [] => [String ch EmptyString]
           | w :: ws => String ch w :: ws
           end
  end.

(** [string_to_array(s, sep)]; the empty string gives the empty array. *)
Definition string_to_array (s : string) (sep : ascii) : list string :=
  match s with
  | EmptyString => []
  | _ => split_on sep s
  end.

(** Modelled from the spec: [storage.foldername] belongs to the storage
    service and is not part of the migration.  The spec reads an object key
    as a path whose leading segments are folders ("namespaced by owner id as
    a folder prefix"): the function splits the key at ['/'] and returns every
    part but the last one, the file name. *)
Definition storage_foldername (name : text) : list text :=
  removelast (string_to_array name "/"%char).

(** [(arr)[1]]: SQL arrays count from 1, and a missing element is NULL. *)
Definition array_first {A : Type} (arr : list A) : option A := nth_error arr 0.

(** [(storage.foldername(name))[1]], the first path segment of a key. *)
Definition first_path_segment (name : text) : option text :=
  array_first (storage_foldername name).

(** A scalar subquery: NULL without a row, the value with one row; more than
    one row aborts the statement, which touches nothing, as with NULL. *)
Definition scalar {A : Type} (rows : list A) : option A :=
  match rows with
  | [r] => Some r
  | _ => None
  end.

(** [(SELECT id::text FROM auth.users WHERE id = auth.uid())] *)
Definition auth_user_id_text (c : caller) (db : database) : option text :=
  scalar (map uuid_to_text
            (where_ (fun u => Some u == auth_uid c) (auth_users db))).

(** [CREATE POLICY "Anyone can view media" ON storage.objects FOR SELECT
      USING (bucket_id = 'media')] *)
Definition Anyone_can_view_media : policy storage_objects.row :=
  {| pol_name := "Anyone can view media";
     pol_cmd := SELECT;
     pol_to := PUBLIC;
     pol_using := Some (fun _ _ o =>
       Some (storage_objects.bucket_id o) == Some "media");
     pol_with_check := None |}.

(** [CREATE POLICY "Users can upload" ON storage.objects
      FOR INSERT TO authenticated WITH CHECK (bucket_id = 'media')] *)
Definition Users_can_upload : policy storage_objects.row :=
  {| pol_name := "Users can upload";
     pol_cmd := INSERT;
     pol_to := TO authenticated;
     pol_using := None;
     pol_with_check := Some (fun _ _ o =>
       Some (storage_objects.bucket_id o) == Some "media") |}.

(** [CREATE POLICY "Users can delete own" ON storage.objects
      FOR DELETE TO authenticated
      USING (bucket_id = 'media'
             AND (storage.foldername(name))[1]
                 = (SELECT id::text FROM auth.users WHERE id = auth.uid()))] *)
Definition Users_can_delete_own : policy storage_objects.row :=
  {| pol_name := "Users can delete own";
     pol_cmd := DELETE;
     pol_to := TO authenticated;
     pol_using := Some (fun c db o =>
       Some (storage_objects.bucket_id o) == Some "media"
       AND first_path_segment (storage_objects.name o) == auth_user_id_text c db);
     pol_with_check := None |}.

Definition storage_objects_policies : list (policy storage_objects.row) :=
  [ Anyone_can_view_media; Users_can_upload; Users_can_delete_own ].

(** ** Foreign keys and deletion *)

Inductive fk_action := CASCADE | SET_NULL.

(** The ON DELETE action of every foreign key that references
    [profiles(id)] or [messages(id)]. *)
Definition posts_user_id_on_delete : fk_action := CASCADE.
Definition follows_follower_id_on_delete : fk_action := CASCADE.
Definition follows_following_id_on_delete : fk_action := CASCADE.
Definition messages_sender_id_on_delete : fk_action := CASCADE.
Definition messages_recipient_id_on_delete : fk_action := CASCADE.
Definition messages_reply_to_id_on_delete : fk_action := SET_NULL.
Definition groups_creator_id_on_delete : fk_action := SET_NULL.
Definition group_members_user_id_on_delete : fk_action := CASCADE.

(** Whether the key held by a referencing column is among the deleted keys. *)
Definition references (deleted : list uuid) (key : option uuid) : bool :=
  match key with
  | Some k => existsb (String.eqb k) deleted
  | None => false
  end.

(** What the deletion of the parent keys [deleted] does to the rows of a
    referencing table through one foreign key: [col] reads the referencing
    column and [set_null] writes NULL into it. *)
Definition on_delete {R : Type} (action : fk_action) (col : R -> option uuid)
           (set_null : R -> R) (deleted : list uuid) (rows : list R) : list R :=
  match action with
  | CASCADE => filter (fun r => negb (references deleted (col r))) rows
  | SET_NULL => map (fun r => if references deleted (col r) then set_null r else r) rows
  end.

(** The rows a CASCADE foreign key takes away, themselves deleted rows. *)
Definition cascaded {R : Type} (action : fk_action) (col : R -> option uuid)
           (deleted : list uuid) (rows : list R) : list R :=
  match action with
  | CASCADE => filter (fun r => references deleted (col r)) rows
  | SET_NULL => []
  end.

Definition groups_set_creator_null (g : groups.row) : groups.row :=
  {| groups.id := groups.id g;
     groups.name := groups.name g;
     groups.creator_id := None;
     groups.created_at := groups.created_at g;
     groups.avatar_url := groups.avatar_url g;
     groups.banner_url := groups.banner_url g |}.

Definition messages_set_reply_to_null (m : messages.row) : messages.row :=
  {| messages.id := messages.id m;
     messages.sender_id := messages.sender_id m;
     messages.recipient_id := messages.recipient_id m;
     messages.content := messages.content m;
     messages.media_url := messages.media_url m;
     messages.media_type := messages.media_type m;
     messages.read := messages.read m;
     messages.created_at := messages.created_at m;
     messages.reply_to_id := None;
     messages.group_id := messages.group_id m |}.

(** [DELETE FROM profiles WHERE id = pid], run with the rights to do so: the
    matching profile rows go, and every foreign key that references a deleted
    row fires its ON DELETE action.  Messages deleted by cascade are in turn
    referenced by [messages.reply_to_id].  No group row is deleted, so the
    foreign keys into [groups] stay idle. *)
Definition delete_profile (pid : uuid) (db : database) : database :=
  let gone := map profiles.id
                  (filter (fun p => String.eqb (profiles.id p) pid) (db_profiles db)) in
  let by_sender := fun m => Some (messages.sender_id m) in
  let by_recipient := fun m => Some (messages.recipient_id m) in
  let gone_messages :=
    map messages.id
        (cascaded messages_sender_id_on_delete by_sender gone (db_messages db)
         ++ cascaded messages_recipient_id_on_delete by_recipient gone (db_messages db)) in
  {| auth_users := auth_users db;
     db_profiles :=
       filter (fun p => negb (String.eqb (profiles.id p) pid)) (db_profiles db);
     db_posts :=
       on_delete posts_user_id_on_delete (fun r => Some (posts.user_id r))
                 (fun r => r) gone (db_posts db);
     db_follows :=
       on_delete follows_following_id_on_delete
                 (fun r => Some (follows.following_id r)) (fun r => r) gone
         (on_delete follows_follower_id_on_delete
                    (fun r => Some (follows.follower_id r)) (fun r => r) gone
                    (db_follows db));
     db_messages :=
       on_delete messages_reply_to_id_on_delete messages.reply_to_id
                 messages_set_reply_to_null gone_messages
         (on_delete messages_recipient_id_on_delete by_recipient (fun r => r) gone
            (on_delete messages_sender_id_on_delete by_sender (fun r => r) gone
                       (db_messages db)));
     db_groups :=
       on_delete groups_creator_id_on_delete groups.creator_id
                 groups_set_creator_null gone (db_groups db);
     db_group_members :=
       on_delete group_members_user_id_on_delete
                 (fun r => Some (group_members.user_id r)) (fun r => r) gone
                 (db_group_members db);
     db_storage_objects := db_storage_objects db |}.

(** *** Policies for profiles *)

(** [CREATE POLICY "Public profiles are viewable by everyone" ON profiles
      FOR SELECT USING (true)] *)
Definition Public_profiles_are_viewable_by_everyone : policy profiles.row :=
  {| pol_name := "Public profiles are viewable by everyone";
     pol_cmd := SELECT;
     pol_to := PUBLIC;
     pol_using := Some (fun _ _ _ => TRUE);
     pol_with_check := None |}.

(** [CREATE POLICY "Users can update own profile" ON profiles
      FOR UPDATE TO authenticated
      USING (auth.uid() = id) WITH CHECK (auth.uid() = id)] *)
Definition Users_can_update_own_profile : policy profiles.row :=
  {| pol_name := "Users can update own profile";
     pol_cmd := UPDATE;
     pol_to := TO authenticated;
     pol_using := Some (fun c _ p => auth_uid c == Some (profiles.id p));
     pol_with_check := Some (fun c _ p => auth_uid c == Some (profiles.id p)) |}.

(** [CREATE POLICY "Users can insert own profile" ON profiles
      FOR INSERT TO authenticated WITH CHECK (auth.uid() = id)] *)
Definition Users_can_insert_own_profile : policy profiles.row :=
  {| pol_name := "Users can insert own profile";
     pol_cmd := INSERT;
     pol_to := TO authenticated;
     pol_using := None;
     pol_with_check := Some (fun c _ p => auth_uid c == Some (profiles.id p)) |}.

Definition profiles_policies : list (policy profiles.row) :=
  [ Public_profiles_are_viewable_by_everyone;
    Users_can_update_own_profile;
    Users_can_insert_own_profile ].

(** ** The backend as the settings page reaches it *)

(** The column values an [update({...})] call carries. *)
Inductive patch :=
  | patch_theme (v : string)
  | patch_username (v : string)
  | patch_verification_request (v : string).

(** A row with the patched column overwritten; on the client the same
    function is the object spread [{ ...profile, column: v }]. *)
Definition apply_patch (pt : patch) (r : profiles.row) : profiles.row :=
  {| profiles.id := profiles.id r;
     profiles.username :=
       match pt with patch_username v => v | _ => profiles.username r end;
     profiles.display_name := profiles.display_name r;
     profiles.bio := profiles.bio r;
     profiles.avatar_url := profiles.avatar_url r;
     profiles.banner_url := profiles.banner_url r;
     profiles.verified := profiles.verified r;
     profiles.created_at := profiles.created_at r;
     profiles.theme :=
       match pt with patch_theme v => Some v | _ => profiles.theme r end;
     profiles.verification_request :=
       match pt with
       | patch_verification_request v => Some v
       | _ => profiles.verification_request r
       end;
     profiles.last_seen := profiles.last_seen r |}.

Definition with_profiles (rows : list profiles.row) (db : database) : database :=
  {| auth_users := auth_users db;
     db_profiles := rows;
     db_posts := db_posts db;
     db_follows := db_follows db;
     db_messages := db_messages db;
     db_groups := db_groups db;
     db_group_members := db_group_members db;
     db_storage_objects := db_storage_objects db |}.

(** [.maybeSingle()]: the row when the query yields one, [null] when it
    yields none; several rows are an error, and [data] is [null] then too. *)
Definition maybeSingle {A : Type} (rows : list A) : option A :=
  match rows with
  | [r] => Some r
  | _ => None
  end.

(** [.single()]: [data] is the row when the query yields exactly one. *)
Definition single {A : Type} (rows : list A) : option A :=
  match rows with
  | [r] => Some r
  | _ => None
  end.

(** [from('profiles').select('id').eq('username', v).maybeSingle()]: the
    [data] of the answer. *)
Definition profiles_select_id_by_username (c : caller) (v : string)
           (db : database) : option uuid :=
  maybeSingle
    (map profiles.id
       (where_ (fun r => Some (profiles.username r) == Some v)
               (visible profiles_policies c db (db_profiles db)))).

(** [from('profiles').select('*').eq('id', v).single()]: the [data]. *)
Definition profiles_select_by_id (c : caller) (v : uuid)
           (db : database) : option profiles.row :=
  single (where_ (fun r => Some (profiles.id r) == Some v)
                 (visible profiles_policies c db (db_profiles db))).

(** [username text UNIQUE]. *)
Fixpoint all_distinct (l : list string) : bool :=
  match l with
  | [] => true
  | x :: rest => negb (existsb (String.eqb x) rest) && all_distinct rest
  end.

Definition usernames_unique (rows : list profiles.row) : bool :=
  all_distinct (map profiles.username rows).

Inductive pg_error := unique_violation | row_security_violation.

(** The rows an UPDATE filtered on [id = v] reaches: those the caller can see
    and whose USING clause holds; the others are skipped without an error. *)
Definition update_reaches (c : caller) (v : uuid) (db : database)
           (r : profiles.row) : bool :=
  String.eqb (profiles.id r) v
  && permits_row profiles_policies SELECT c db r
  && permits_row profiles_policies UPDATE c db r.

(** [from('profiles').update(pt).eq('id', v)]: the database afterwards and
    the [error] of the answer.  A new row that fails WITH CHECK, or a table
    that would break UNIQUE(username), fails the statement, which then
    changes nothing. *)
Definition profiles_update_by_id (c : caller) (pt : patch) (v : uuid)
           (db : database) : database * option pg_error :=
  let rows' := map (fun r => if update_reaches c v db r then apply_patch pt r else r)
                   (db_profiles db) in
  if negb (forallb (fun r => negb (update_reaches c v db r)
                             || permits_new_row profiles_policies UPDATE c db
                                                (apply_patch pt r))
                   (db_profiles db))
  then (db, Some row_security_violation)
  else if negb (usernames_unique rows')
  then (db, Some unique_violation)
  else (with_profiles rows' db, None).

(** ** The settings page *)

Module Settings.

(** The signed-in user of the auth context. *)
Record User := { id : string }.

Inductive message_type := success | error.

Record Message := {
  type : message_type;
  text : string
}.

(** The requests the page sends to the backend. *)
Inductive request :=
  | select_id_eq_username (v : string)
  | update_eq_id (pt : patch) (v : string)
  | select_all_eq_id (v : string).

(** What a timer does when it fires. *)
Inductive callback := clear_message.

(** The page and what it talks to: the backend and the identity its requests
    run as, the log of requests sent, the auth context ([user], and the
    cached [profile] that [updateProfile] replaces), the [useState] cells the
    profile handlers use, and the timers armed by [setTimeout]. *)
Record state := {
  backend : database;
  session : caller;
  requests : list request;
  user : option User;
  profile : option profiles.row;
  newUsername : string;
  reason : string;
  showApply : bool;
  loading : bool;
  message : option Message;
  timers : list (callback * nat)
}.

Definition with_backend (db : database) (rq : request) (s : state) : state :=
  {| backend := db; session := session s; requests := requests s ++ [rq];
     user := user s; profile := profile s; newUsername := newUsername s;
     reason := reason s; showApply := showApply s; loading := loading s;
     message := message s; timers := timers s |}.

Definition with_profile (p : option profiles.row) (s : state) : state :=
  {| backend := backend s; session := session s; requests := requests s;
     user := user s; profile := p; newUsername := newUsername s;
     reason := reason s; showApply := showApply s; loading := loading s;
     message := message s; timers := timers s |}.

Definition with_newUsername (v : string) (s : state) : state :=
  {| backend := backend s; session := session s; requests := requests s;
     user := user s; profile := profile s; newUsername := v;
     reason := reason s; showApply := showApply s; loading := loading s;
     message := message s; timers := timers s |}.

Definition with_reason (v : string) (s : state) : state :=
  {| backend := backend s; session := session s; requests := requests s;
     user := user s; profile := profile s; newUsername := newUsername s;
     reason := v; showApply := showApply s; loading := loading s;
     message := message s; timers := timers s |}.

Definition with_showApply (v : bool) (s : state) : state :=
  {| backend := backend s; session := session s; requests := requests s;
     user := user s; profile := profile s; newUsername := newUsername s;
     reason := reason s; showApply := v; loading := loading s;
     message := message s; timers := timers s |}.

Definition with_loading (v : bool) (s : state) : state :=
  {| backend := backend s; session := session s; requests := requests s;
     user := user s; profile := profile s; newUsername := newUsername s;
     reason := reason s; showApply := showApply s; loading := v;
     message := message s; timers := timers s |}.

Definition with_message (v : option Message) (s : state) : state :=
  {| backend := backend s; session := session s; requests := requests s;
     user := user s; profile := profile s; newUsername := newUsername s;
     reason := reason s; showApply := showApply s; loading := loading s;
     message := v; timers := timers s |}.

Definition with_timer (t : callback * nat) (s : state) : state :=
  {| backend := backend s; session := session s; requests := requests s;
     user := user s; profile := profile s; newUsername := newUsername s;
     reason := reason s; showApply := showApply s; loading := loading s;
     message := message s; timers := timers s ++ [t] |}.

(** *** Handlers as state transformers with early return *)

Inductive step (A : Type) :=
  | Next (a : A)
  | Return.
Arguments Next {A} a.
Arguments Return {A}.

Definition M (A : Type) : Type := state -> step A * state.

Definition ret {A : Type} (a : A) : M A := fun s => (Next a, s).

Definition bind {A B : Type} (m : M A) (k : A -> M B) : M B :=
  fun s =>
    match m s with
    | (Next a, s') => k a s'
    | (Return, s') => (Return, s')
    end.

(** [return;] *)
Definition return_ {A : Type} : M A := fun s => (Return, s).

Definition read {A : Type} (f : state -> A) : M A := fun s => (Next (f s), s).

Definition write (f : state -> state) : M unit := fun s => (Next tt, f s).

(** The state a handler leaves behind. *)
Definition run (m : M unit) (s : state) : state := snd (m s).

Declare Scope handler_scope.
Delimit Scope handler_scope with handler.
Notation "x <- m ;; k" := (bind m (fun x => k))
  (at level 61, m at next level, right associativity) : handler_scope.
Notation "m ;; k" := (bind m (fun _ => k))
  (at level 61, right associativity) : handler_scope.
Local Open Scope handler_scope.

Definition setLoading (v : bool) : M unit := write (with_loading v).
Definition setMessage (v : option Message) : M unit := write (with_message v).
Definition setNewUsername (v : string) : M unit := write (with_newUsername v).
Definition setReason (v : string) : M unit := write (with_reason v).
Definition setShowApply (v : bool) : M unit := write (with_showApply v).
Definition updateProfile (p : profiles.row) : M unit := write (with_profile (Some p)).
Definition setTimeout (cb : callback) (ms : nat) : M unit := write (with_timer (cb, ms)).

(** The three backend calls: each sends one request as [session] and hands
    back the [data] or the [error] of the answer. *)
Definition supabase_select_id_eq_username (v : string) : M (option uuid) :=
  fun s =>
    (Next (profiles_select_id_by_username (session s) v (backend s)),
     with_backend (backend s) (select_id_eq_username v) s).

Definition supabase_update_eq_id (pt : patch) (v : string) : M (option pg_error) :=
  fun s =>
    let (db', err) := profiles_update_by_id (session s) pt v (backend s) in
    (Next err, with_backend db' (update_eq_id pt v) s).

Definition supabase_select_all_eq_id (v : string) : M (option profiles.row) :=
  fun s =>
    (Next (profiles_select_by_id (session s) v (backend s)),
     with_backend (backend s) (select_all_eq_id v) s).

(** [!x] on a string: only the empty string is falsy. *)
Definition falsy (x : string) : bool := String.eqb x "".

Section Handlers.

(** [String.prototype.toLowerCase] and [String.prototype.trim]. *)
Variable toLowerCase : string -> string.
Variable trim : string -> string.

Definition handleThemeChange (newTheme : string) : M unit :=
  user <- read user ;;
  profile <- read profile ;;
  match user, profile with
  | Some user, Some profile =>
      if falsy (id user) then return_ else
      setLoading true ;;
      err <- supabase_update_eq_id (patch_theme newTheme) (id user) ;;
      setLoading false ;;
      match err with
      | None =>
          updateProfile (apply_patch (patch_theme newTheme) profile) ;;
          setMessage (Some {| type := success; text := "Theme updated!" |})
      | Some _ =>
          setMessage (Some {| type := error; text := "Failed to update theme." |})
      end ;;
      setTimeout clear_message 3000
  | _, _ => return_
  end.

Definition handleUsernameChange : M unit :=
  user <- read user ;;
  profile <- read profile ;;
  newUsername <- read newUsername ;;
  match user, profile with
  | Some user, Some profile =>
      if falsy (id user)
         || String.eqb newUsername (profiles.username profile)
         || falsy (trim newUsername)
      then return_ else
      setLoading true ;;
      existing <- supabase_select_id_eq_username (toLowerCase newUsername) ;;
      match existing with
      | Some _ =>
          setMessage (Some {| type := error; text := "Username already taken." |}) ;;
          setLoading false ;;
          return_
      | None => ret tt
      end ;;
      err <- supabase_update_eq_id
                 (patch_username (toLowerCase newUsername)) (id user) ;;
      setLoading false ;;
      match err with
      | None =>
          updateProfile
            (apply_patch (patch_username (toLowerCase newUsername)) profile) ;;
          setMessage (Some {| type := success; text := "Username updated!" |}) ;;
          setNewUsername ""
      | Some _ =>
          setMessage (Some {| type := error; text := "Failed to update username." |})
      end ;;
      setTimeout clear_message 3000
  | _, _ => return_
  end.

Definition handleVerificationApply : M unit :=
  user <- read user ;;
  reason <- read reason ;;
  match user with
  | Some user =>
      if falsy (id user) || falsy (trim reason) then return_ else
      setLoading true ;;
      err <- supabase_update_eq_id (patch_verification_request reason) (id user) ;;
      setLoading false ;;
      match err with
      | None =>
          setMessage (Some {| type := success; text := "Verification request submitted!" |}) ;;
          setShowApply false ;;
          setReason "" ;;
          data <- supabase_select_all_eq_id (id user) ;;
          match data with
          | Some data => updateProfile data
          | None => ret tt
          end
      | Some _ =>
          setMessage (Some {| type := error; text := "Failed to submit request." |})
      end ;;
      setTimeout clear_message 3000
  | None => return_
  end.

(** The situation in which the guard of [handleUsernameChange] lets a
    submission pass: a signed-in user [u] with a cached profile [p] and a
    non-blank [newUsername] other than the cached username. *)
Definition submits (s : state) (u : User) (p : profiles.row) : Prop :=
  user s = Some u /\ id u <> "" /\ profile s = Some p /\
  newUsername s <> profiles.username p /\ trim (newUsername s) <> "".

End Handlers.

End Settings.

(** ** A small instance *)

Module Sample.

Definition alice : uuid := "a11ce000-0000-4000-8000-000000000001".
Definition bob : uuid := "b0b00000-0000-4000-8000-000000000002".
Definition carol : uuid := "ca401000-0000-4000-8000-000000000003".
Definition team : uuid := "7ea70000-0000-4000-8000-00000000000a".

Definition profile_of (i : uuid) (name display : text) : profiles.row :=
  {| profiles.id := i; profiles.username := name;
     profiles.display_name := display;
     profiles.bio := Some ""; profiles.avatar_url := Some "";
     profiles.banner_url := Some ""; profiles.verified := Some false;
     profiles.created_at := Some 0%Z; profiles.theme := Some "lt-classic";
     profiles.verification_request := Some ""; profiles.last_seen := None |}.

Definition alice_profile : profiles.row := profile_of alice "alice" "Alice".
Definition bob_profile : profiles.row := profile_of bob "bob" "Bob".
Definition carol_profile : profiles.row := profile_of carol "carol" "Carol".

Definition message_of (i from to : uuid) (reply group : option uuid) : messages.row :=
  {| messages.id := i; messages.sender_id := from; messages.recipient_id := to;
     messages.content := "hi"; messages.media_url := Some "";
     messages.media_type := Some "image"; messages.read := Some false;
     messages.created_at := Some 0%Z; messages.reply_to_id := reply;
     messages.group_id := group |}.

(** A direct message from alice to bob, a message from bob to carol that
    quotes it, and a group message alice sent to the team. *)
Definition dm : messages.row := message_of "m1" alice bob None None.
Definition dm_reply : messages.row := message_of "m2" bob carol (Some "m1") None.
Definition team_msg : messages.row := message_of "m3" alice alice None (Some team).

(** The direct message with other words put into alice's mouth. *)
Definition dm_edited : messages.row :=
  {| messages.id := "m1"; messages.sender_id := alice; messages.recipient_id := bob;
     messages.content := "I owe you"; messages.media_url := Some "";
     messages.media_type := Some "image"; messages.read := Some false;
     messages.created_at := Some 0%Z; messages.reply_to_id := None;
     messages.group_id := None |}.

Definition team_group : groups.row :=
  {| groups.id := team; groups.name := "team"; groups.creator_id := Some alice;
     groups.created_at := Some 0%Z; groups.avatar_url := Some "";
     groups.banner_url := Some "" |}.

Definition member_of (g u : uuid) (admin : bool) : group_members.row :=
  {| group_members.group_id := g; group_members.user_id := u;
     group_members.joined_at := Some 0%Z; group_members.is_admin := Some admin |}.

Definition alice_post : posts.row :=
  {| posts.id := "p1"; posts.user_id := alice; posts.content := "hello";
     posts.media_url := Some ""; posts.media_type := Some "image";
     posts.created_at := Some 0%Z |}.

Definition follow (a b : uuid) : follows.row :=
  {| follows.follower_id := a; follows.following_id := b;
     follows.created_at := Some 0%Z |}.

(** alice's picture, stored under her id as folder. *)
Definition alice_picture : storage_objects.row :=
  {| storage_objects.bucket_id := "media";
     storage_objects.name := "a11ce000-0000-4000-8000-000000000001/pic.png" |}.

(** alice created the team and administers it; bob is a plain member; carol
    is outside. *)
Definition db : database :=
  {| auth_users := [alice; bob; carol];
     db_profiles := [alice_profile; bob_profile; carol_profile];
     db_posts := [alice_post];
     db_follows := [follow alice bob; follow bob alice; follow bob carol];
     db_messages := [dm; dm_reply; team_msg];
     db_groups := [team_group];
     db_group_members := [member_of team alice true; member_of team bob false];
     db_storage_objects := [alice_picture] |}.

(** Lower case and trimming on ASCII letters and blanks. *)
Definition lower_ascii (ch : ascii) : ascii :=
  let n := nat_of_ascii ch in
  if Nat.leb 65 n && Nat.leb n 90 then ascii_of_nat (n + 32) else ch.

Fixpoint toLowerCase (x : string) : string :=
  match x with
  | EmptyString => EmptyString
  | String ch rest => String (lower_ascii ch) (toLowerCase rest)
  end.

Fixpoint trimStart (x : string) : string :=
  match x with
  | String " " rest => trimStart rest
  | _ => x
  end.

Fixpoint rev_string (x acc : string) : string :=
  match x with
  | EmptyString => acc
  | String ch rest => rev_string rest (String ch acc)
  end.

Definition trim (x : string) : string :=
  rev_string (trimStart (rev_string (trimStart x) "")) "".

(** The settings page, open in the session of user [i] who has typed
    [typed] into the username field. *)
Definition page (i : uuid) (cached : profiles.row) (typed : string) : Settings.state :=
  {| Settings.backend := db;
     Settings.session := signed_in i;
     Settings.requests := [];
     Settings.user := Some {| Settings.id := i |};
     Settings.profile := Some cached;
     Settings.newUsername := typed;
     Settings.reason := "";
     Settings.showApply := false;
     Settings.loading := false;
     Settings.message := None;
     Settings.timers := [] |}.

End Sample.

(** *** Policies for posts and follows *)

(** [CREATE POLICY "Posts are viewable by everyone" ON posts
      FOR SELECT USING (true)] *)
Definition Posts_are_viewable_by_everyone : policy posts.row :=
  {| pol_name := "Posts are viewable by everyone";
     pol_cmd := SELECT;
     pol_to := PUBLIC;
     pol_using := Some (fun _ _ _ => TRUE);
     pol_with_check := None |}.

(** [CREATE POLICY "Users can create own posts" ON posts
      FOR INSERT TO authenticated WITH CHECK (auth.uid() = user_id)] *)
Definition Users_can_create_own_posts : policy posts.row :=
  {| pol_name := "Users can create own posts";
     pol_cmd := INSERT;
     pol_to := TO authenticated;
     pol_using := None;
     pol_with_check := Some (fun c _ r => auth_uid c == Some (posts.user_id r)) |}.

(** [CREATE POLICY "Users can delete own posts" ON posts
      FOR DELETE TO authenticated USING (auth.uid() = user_id)] *)
Definition Users_can_delete_own_posts : policy posts.row :=
  {| pol_name := "Users can delete own posts";
     pol_cmd := DELETE;
     pol_to := TO authenticated;
     pol_using := Some (fun c _ r => auth_uid c == Some (posts.user_id r));
     pol_with_check := None |}.

Definition posts_policies : list (policy posts.row) :=
  [ Posts_are_viewable_by_everyone;
    Users_can_create_own_posts;
    Users_can_delete_own_posts ].

(** [CREATE POLICY "Follows are viewable by everyone" ON follows
      FOR SELECT USING (true)] *)
Definition Follows_are_viewable_by_everyone : policy follows.row :=
  {| pol_name := "Follows are viewable by everyone";
     pol_cmd := SELECT;
     pol_to := PUBLIC;
     pol_using := Some (fun _ _ _ => TRUE);
     pol_with_check := None |}.

(** [CREATE POLICY "Users can follow others" ON follows
      FOR INSERT TO authenticated WITH CHECK (auth.uid() = follower_id)] *)
Definition Users_can_follow_others : policy follows.row :=
  {| pol_name := "Users can follow others";
     pol_cmd := INSERT;
     pol_to := TO authenticated;
     pol_using := None;
     pol_with_check := Some (fun c _ r => auth_uid c == Some (follows.follower_id r)) |}.

(** [CREATE POLICY "Users can unfollow" ON follows
      FOR DELETE TO authenticated USING (auth.uid() = follower_id)] *)
Definition Users_can_unfollow : policy follows.row :=
  {| pol_name := "Users can unfollow";
     pol_cmd := DELETE;
     pol_to := TO authenticated;
     pol_using := Some (fun c _ r => auth_uid c == Some (follows.follower_id r));
     pol_with_check := None |}.

Definition follows_policies : list (policy follows.row) :=
  [ Follows_are_viewable_by_everyone;
    Users_can_follow_others;
    Users_can_unfollow ].

(** *** Callers and membership *)

(** A request without a session: [auth.uid()] is NULL, under either role. *)
Definition no_identity (r : role) : caller :=
  {| caller_role := r; auth_uid := None |}.

(** [group_members] holds a row for group [g] and user [a]. *)
Definition member_of_group (db : database) (g a : uuid) : Prop :=
  exists gm, In gm (db_group_members db) /\
             group_members.group_id gm = g /\
             group_members.user_id gm = a.

(** [group_members] holds an [is_admin = true] row for group [g] and user [a]. *)
Definition admin_in_group (db : database) (g a : uuid) : Prop :=
  exists gm, In gm (db_group_members db) /\
             group_members.group_id gm = g /\
             group_members.user_id gm = a /\
             group_members.is_admin gm = Some true.

(** *** Deleting a group *)

Definition messages_group_id_on_delete : fk_action := CASCADE.
Definition group_members_group_id_on_delete : fk_action := CASCADE.

(** [DELETE FROM groups WHERE id = gid], run with the rights to do so: the
    group's messages and membership rows go by CASCADE, and a surviving
    message that quoted a deleted one loses its [reply_to_id]. *)
Definition delete_group (gid : uuid) (db : database) : database :=
  let gone := map groups.id
                  (filter (fun g => String.eqb (groups.id g) gid) (db_groups db)) in
  let gone_messages :=
    map messages.id
        (cascaded messages_group_id_on_delete messages.group_id gone (db_messages db)) in
  {| auth_users := auth_users db;
     db_profiles := db_profiles db;
     db_posts := db_posts db;
     db_follows := db_follows db;
     db_messages :=
       on_delete messages_reply_to_id_on_delete messages.reply_to_id
                 messages_set_reply_to_null gone_messages
         (on_delete messages_group_id_on_delete messages.group_id (fun r => r) gone
                    (db_messages db));
     db_groups :=
       filter (fun g => negb (String.eqb (groups.id g) gid)) (db_groups db);
     db_group_members :=
       on_delete group_members_group_id_on_delete
                 (fun r => Some (group_members.group_id r)) (fun r => r) gone
                 (db_group_members db);
     db_storage_objects := db_storage_objects db |}.

(** *** Referential integrity *)

(** Every non-null key held by column [col] of [rows] is among [keys]. *)
Definition refs_in {R : Type} (col : R -> option uuid) (rows : list R)
           (keys : list uuid) : Prop :=
  forall r k, In r rows -> col r = Some k -> In k keys.

(** The REFERENCES clauses of the six tables, all at once. *)
Definition referential_integrity (db : database) : Prop :=
  refs_in (fun r => Some (profiles.id r)) (db_profiles db) (auth_users db)
  /\ refs_in (fun r => Some (posts.user_id r)) (db_posts db)
             (map profiles.id (db_profiles db))
  /\ refs_in (fun r => Some (follows.follower_id r)) (db_follows db)
             (map profiles.id (db_profiles db))
  /\ refs_in (fun r => Some (follows.following_id r)) (db_follows db)
             (map profiles.id (db_profiles db))
  /\ refs_in (fun r => Some (messages.sender_id r)) (db_messages db)
             (map profiles.id (db_profiles db))
  /\ refs_in (fun r => Some (messages.recipient_id r)) (db_messages db)
             (map profiles.id (db_profiles db))
  /\ refs_in messages.reply_to_id (db_messages db)
             (map messages.id (db_messages db))
  /\ refs_in messages.group_id (db_messages db)
             (map groups.id (db_groups db))
  /\ refs_in groups.creator_id (db_groups db)
             (map profiles.id (db_profiles db))
  /\ refs_in (fun r => Some (group_members.group_id r)) (db_group_members db)
             (map groups.id (db_groups db))
  /\ refs_in (fun r => Some (group_members.user_id r)) (db_group_members db)
             (map profiles.id (db_profiles db)).

(** *** Object keys *)

(** The string holds no ['/']; true of a uuid in text form. *)
Fixpoint slash_free (s : string) : bool :=
  match s with
  | EmptyString => true
  | String ch rest => negb (Ascii.eqb ch "/"%char) && slash_free rest
  end.

(** The key of file [file] in the folder of owner [a]. *)
Definition key_in_folder (a : uuid) (file : text) : text :=
  uuid_to_text a ++ String "/"%char file.

(** A patch that leaves the [username] column alone. *)
Definition keeps_username (pt : patch) : bool :=
  match pt with patch_username _ => false | _ => true end.

(** ** The whole settings page *)

Module Page.
Import Settings.

(** The argument of [supabase.auth.updateUser]. *)
Inductive attributes :=
  | attr_email (v : string)
  | attr_password (v : string).

(** The [error] of the identity service, with its [message]. *)
Record AuthError := { error_message : string }.

(** The page with its remaining [useState] cells and the log of calls to the
    identity service. *)
Record state := {
  core : Settings.state;
  newEmail : string;
  newPassword : string;
  confirmPassword : string;
  auth_requests : list attributes
}.

Definition with_core (c : Settings.state) (s : state) : state :=
  {| core := c; newEmail := newEmail s; newPassword := newPassword s;
     confirmPassword := confirmPassword s; auth_requests := auth_requests s |}.

Definition with_newEmail (v : string) (s : state) : state :=
  {| core := core s; newEmail := v; newPassword := newPassword s;
     confirmPassword := confirmPassword s; auth_requests := auth_requests s |}.

Definition with_newPassword (v : string) (s : state) : state :=
  {| core := core s; newEmail := newEmail s; newPassword := v;
     confirmPassword := confirmPassword s; auth_requests := auth_requests s |}.

Definition with_confirmPassword (v : string) (s : state) : state :=
  {| core := core s; newEmail := newEmail s; newPassword := newPassword s;
     confirmPassword := v; auth_requests := auth_requests s |}.

Definition with_auth_request (a : attributes) (s : state) : state :=
  {| core := core s; newEmail := newEmail s; newPassword := newPassword s;
     confirmPassword := confirmPassword s;
     auth_requests := auth_requests s ++ [a] |}.

Definition with_timers (ts : list (callback * nat)) (c : Settings.state) : Settings.state :=
  {| backend := backend c; session := session c; requests := requests c;
     user := user c; profile := profile c; newUsername := newUsername c;
     reason := reason c; showApply := showApply c; loading := loading c;
     message := message c; timers := ts |}.

(** Handlers over the whole page, with the same early return. *)
Definition M (A : Type) : Type := state -> step A * state.

Definition ret {A : Type} (a : A) : M A := fun s => (Next a, s).

Definition bind {A B : Type} (m : M A) (k : A -> M B) : M B :=
  fun s =>
    match m s with
    | (Next a, s') => k a s'
    | (Return, s') => (Return, s')
    end.

Definition return_ {A : Type} : M A := fun s => (Return, s).

Definition read {A : Type} (f : state -> A) : M A := fun s => (Next (f s), s).

Definition write (f : state -> state) : M unit := fun s => (Next tt, f s).

(** A handler of the profile part, run inside the page. *)
Definition lift {A : Type} (m : Settings.M A) : M A :=
  fun s => let (r, c) := m (core s) in (r, with_core c s).

Definition run (m : M unit) (s : state) : state := snd (m s).

Declare Scope page_scope.
Delimit Scope page_scope with page.
Notation "x <- m ;; k" := (bind m (fun x => k))
  (at level 61, m at next level, right associativity) : page_scope.
Notation "m ;; k" := (bind m (fun _ => k))
  (at level 61, right associativity) : page_scope.
Local Open Scope page_scope.

Definition setNewEmail (v : string) : M unit := write (with_newEmail v).
Definition setNewPassword (v : string) : M unit := write (with_newPassword v).
Definition setConfirmPassword (v : string) : M unit := write (with_confirmPassword v).

(** [error.message || fallback] *)
Definition message_or (e : AuthError) (fallback : string) : string :=
  if falsy (error_message e) then fallback else error_message e.

Section Handlers.

Variable toLowerCase : string -> string.
Variable trim : string -> string.

(** The identity service: what [supabase.auth.updateUser] answers to a
    caller, given the calls made so far. *)
Variable auth_service : list attributes -> caller -> attributes -> option AuthError.

Definition supabase_auth_updateUser (a : attributes) : M (option AuthError) :=
  fun s =>
    (Next (auth_service (auth_requests s) (session (core s)) a),
     with_auth_request a s).

Definition handleEmailChange : M unit :=
  user <- lift (Settings.read user) ;;
  newEmail <- read newEmail ;;
  match user with
  | Some user =>
      if falsy (id user) || falsy (trim newEmail) then return_ else
      lift (setLoading true) ;;
      err <- supabase_auth_updateUser (attr_email newEmail) ;;
      lift (setLoading false) ;;
      match err with
      | None =>
          lift (setMessage (Some {| type := success;
                 text := "Email updated! Check your inbox for confirmation." |})) ;;
          setNewEmail ""
      | Some e =>
          lift (setMessage (Some {| type := error;
                 text := message_or e "Failed to update email." |}))
      end ;;
      lift (setTimeout clear_message 3000)
  | None => return_
  end.

Definition handlePasswordChange : M unit :=
  user <- lift (Settings.read user) ;;
  newPassword <- read newPassword ;;
  confirmPassword <- read confirmPassword ;;
  match user with
  | Some user =>
      if falsy (id user)
         || negb (String.eqb newPassword confirmPassword)
         || Nat.ltb (String.length newPassword) 6
      then return_ else
      lift (setLoading true) ;;
      err <- supabase_auth_updateUser (attr_password newPassword) ;;
      lift (setLoading false) ;;
      match err with
      | None =>
          lift (setMessage (Some {| type := success; text := "Password updated!" |})) ;;
          setNewPassword "" ;;
          setConfirmPassword ""
      | Some e =>
          lift (setMessage (Some {| type := error;
                 text := message_or e "Failed to update password." |}))
      end ;;
      lift (setTimeout clear_message 3000)
  | None => return_
  end.

(** What the verification section shows for a profile. *)
Inductive verification_view :=
  | Verified
  | Pending (request : string)
  | ApplyForm.

Definition render_verification (p : profiles.row) : verification_view :=
  match profiles.verified p with
  | Some true => Verified
  | _ =>
      match profiles.verification_request p with
      | Some r => if falsy r then ApplyForm else Pending r
      | None => ApplyForm
      end
  end.

(** What the user, the theme picker or a timer can do to the page. *)
Inductive event :=
  | click_edit_username
  | type_username (v : string)
  | click_update_username
  | click_edit_email
  | type_email (v : string)
  | click_update_email
  | pick_theme (newTheme : string)
  | type_password (v : string)
  | type_confirm (v : string)
  | click_change_password
  | click_apply
  | type_reason (v : string)
  | click_submit
  | click_cancel
  | timer_fires.

(** Whether the control behind an event is on the page and live: nothing is
    rendered without a profile, the username and email forms are rendered
    only while their field is not empty, a disabled button does not click,
    and the application form belongs to the last branch of the verification
    section. *)
Definition enabled (s : state) (e : event) : bool :=
  match e with
  | timer_fires => match timers (core s) with [] => false | _ :: _ => true end
  | _ =>
      match profile (core s) with
      | None => false
      | Some p =>
          match e with
          | click_edit_username | click_edit_email => true
          | type_username _ => negb (falsy (newUsername (core s)))
          | click_update_username =>
              negb (falsy (newUsername (core s))) && negb (loading (core s))
          | type_email _ => negb (falsy (newEmail s))
          | click_update_email =>
              negb (falsy (newEmail s)) && negb (loading (core s))
          | pick_theme _ => true
          | type_password _ | type_confirm _ => true
          | click_change_password =>
              negb (loading (core s)
                    || negb (String.eqb (newPassword s) (confirmPassword s))
                    || Nat.ltb (String.length (newPassword s)) 6)
          | click_apply =>
              match render_verification p with ApplyForm => true | _ => false end
          | type_reason _ | click_cancel =>
              match render_verification p with
              | ApplyForm => showApply (core s)
              | _ => false
              end
          | click_submit =>
              match render_verification p with
              | ApplyForm =>
                  showApply (core s)
                  && negb (loading (core s) || falsy (trim (reason (core s))))
              | _ => false
              end
          | timer_fires => false
          end
      end
  end.

(** The handler attached to each control. *)
Definition handler (e : event) : M unit :=
  match e with
  | click_edit_username => lift (setNewUsername "")
  | type_username v => lift (setNewUsername v)
  | click_update_username => lift (handleUsernameChange toLowerCase trim)
  | click_edit_email => setNewEmail ""
  | type_email v => setNewEmail v
  | click_update_email => handleEmailChange
  | pick_theme t => lift (handleThemeChange t)
  | type_password v => setNewPassword v
  | type_confirm v => setConfirmPassword v
  | click_change_password => handlePasswordChange
  | click_apply => lift (setShowApply true)
  | type_reason v => lift (setReason v)
  | click_submit => lift (handleVerificationApply trim)
  | click_cancel => lift (setShowApply false) ;; lift (setReason "")
  | timer_fires =>
      lift (Settings.write (fun c => with_timers (tl (timers c)) c)) ;;
      lift (setMessage None)
  end.

Definition fire (e : event) (s : state) : state :=
  if enabled s e then run (handler e) s else s.

(** The page after a sequence of events. *)
Fixpoint play (es : list event) (s : state) : state :=
  match es with
  | [] => s
  | e :: rest => play rest (fire e s)
  end.

End Handlers.

(** The page as it is mounted: every [useState] cell at its initial value. *)
Definition mounted (db : database) (c : caller) (u : option User)
           (p : option profiles.row) : state :=
  {| core := {| backend := db; session := c; requests := [];
                user := u; profile := p; newUsername := "";
                reason := ""; showApply := false; loading := false;
                message := None; timers := [] |};
     newEmail := ""; newPassword := ""; confirmPassword := "";
     auth_requests := [] |}.

(** A request that reads or writes a username. *)
Definition username_request (rq : request) : bool :=
  match rq with
  | select_id_eq_username _ => true
  | update_eq_id (patch_username _) _ => true
  | _ => false
  end.

Definition email_request (a : attributes) : bool :=
  match a with attr_email _ => true | attr_password _ => false end.

End Page.

(** ** Further situations on the sample database *)

Module Scenario.

(** bob's settings page after his session has lapsed: the auth context still
    holds him and his profile, the requests run without an identity. *)
Definition signed_out_page (typed : string) : Settings.state :=
  {| Settings.backend := Sample.db;
     Settings.session := no_identity anon;
     Settings.requests := [];
     Settings.user := Some {| Settings.id := Sample.bob |};
     Settings.profile := Some Sample.bob_profile;
     Settings.newUsername := typed;
     Settings.reason := "";
     Settings.showApply := false;
     Settings.loading := false;
     Settings.message := None;
     Settings.timers := [] |}.

(** bob's page with a reason typed into the verification form and a cached
    profile that is out of date. *)
Definition applying_page (why : string) : Settings.state :=
  {| Settings.backend := Sample.db;
     Settings.session := signed_in Sample.bob;
     Settings.requests := [];
     Settings.user := Some {| Settings.id := Sample.bob |};
     Settings.profile := Some (Sample.profile_of Sample.bob "robert" "Old Bob");
     Settings.newUsername := "";
     Settings.reason := why;
     Settings.showApply := true;
     Settings.loading := false;
     Settings.message := None;
     Settings.timers := [] |}.

(** An identity service that accepts every call. *)
Definition accepting (_ : list Page.attributes) (_ : caller)
           (_ : Page.attributes) : option Page.AuthError := None.

(** An identity service that refuses every call without a message. *)
Definition refusing (_ : list Page.attributes) (_ : caller)
           (_ : Page.attributes) : option Page.AuthError :=
  Some {| Page.error_message := "" |}.

(** bob's page as mounted, with a password typed twice. *)
Definition password_page (pw confirm : string) : Page.state :=
  Page.with_confirmPassword confirm
    (Page.with_newPassword pw
       (Page.mounted Sample.db (signed_in Sample.bob)
                     (Some {| Settings.id := Sample.bob |})
                     (Some Sample.bob_profile))).

End Scenario.

(** * Properties *)

(** ** Three-valued logic *)

Lemma is_true_and3 (a b : tri) : is_true (a AND b) = is_true a && is_true b.
Proof. destruct a as [[|]|], b as [[|]|]; reflexivity. Qed.

Lemma is_true_or3 (a b : tri) : is_true (a OR b) = is_true a || is_true b.
Proof. destruct a as [[|]|], b as [[|]|]; reflexivity. Qed.

Lemma is_true_eq3 (x y : string) : is_true (Some x == Some y) = String.eqb x y.
Proof. simpl. destruct (String.eqb x y); reflexivity. Qed.

Lemma is_true_neq3 (x y : string) :
  is_true (Some x =/= Some y) = negb (String.eqb x y).
Proof. simpl. destruct (String.eqb x y); reflexivity. Qed.

Lemma is_true_eqb3_TRUE (b : option bool) :
  is_true (eqb3 b TRUE) = true <-> b = Some true.
Proof. destruct b as [[|]|]; simpl; split; congruence. Qed.

Lemma is_true_exists_where {A : Type} (p : A -> tri) (rows : list A) :
  is_true (exists_ (where_ p rows)) = true <->
  exists r, In r rows /\ is_true (p r) = true.
Proof.
  unfold where_. split.
  - destruct (filter _ rows) as [|r rs] eqn:E; simpl; [discriminate|].
    intros _. exists r.
    apply (proj1 (filter_In (fun r => is_true (p r)) r rows)).
    rewrite E. now left.
  - intros (r & Hin & Hp).
    assert (H : In r (filter (fun r => is_true (p r)) rows))
      by (apply filter_In; auto).
    destruct (filter _ rows); [destruct H | reflexivity].
Qed.

Create Rewrite HintDb sql3.
#[local] Hint Rewrite is_true_and3 is_true_or3 is_true_eq3 is_true_neq3 : sql3.

(** ** Self-only visibility of membership rows *)

Lemma Members_viewable_by_self_ok (a : uuid) (db : database) (gm : group_members.row) :
  using_ok Members_viewable_by_self (signed_in a) db gm = true <->
  group_members.user_id gm = a.
Proof.
  unfold using_ok; simpl.
  destruct (String.eqb_spec (group_members.user_id gm) a); split; congruence.
Qed.

Lemma from_group_members_In (a : uuid) (db : database) (gm : group_members.row) :
  In gm (from_group_members (signed_in a) db) <->
  In gm (db_group_members db) /\ group_members.user_id gm = a.
Proof.
  unfold from_group_members, visible. rewrite filter_In.
  unfold permits_row; simpl. rewrite orb_false_r.
  fold (using_ok Members_viewable_by_self (signed_in a) db gm).
  now rewrite Members_viewable_by_self_ok.
Qed.

Lemma is_member_subquery (a : uuid) (db : database) (g : option uuid) :
  is_true (exists_ (where_ (fun gm =>
      Some (group_members.group_id gm) == g
      AND Some (group_members.user_id gm) == auth_uid (signed_in a))
    (from_group_members (signed_in a) db))) = true <->
  exists gm, In gm (db_group_members db) /\
             g = Some (group_members.group_id gm) /\
             group_members.user_id gm = a.
Proof.
  rewrite is_true_exists_where. split.
  - intros (gm & Hin & Hp). apply from_group_members_In in Hin as [Hin Hu].
    exists gm. repeat split; trivial.
    rewrite is_true_and3 in Hp. apply andb_true_iff in Hp as [Hg _].
    destruct g as [g|]; [|discriminate].
    rewrite is_true_eq3 in Hg. apply String.eqb_eq in Hg. now subst.
  - intros (gm & Hin & -> & Hu). exists gm. split.
    + apply from_group_members_In. now split.
    + cbn [auth_uid signed_in]. autorewrite with sql3.
      subst a. now rewrite !String.eqb_refl.
Qed.

(** ** Visibility of messages *)

Lemma select_messages_In (c : caller) (db : database) (m : messages.row) :
  In m (select_messages c db) <->
  In m (db_messages db) /\
  (applies Users_can_view_DMs SELECT c
     && using_ok Users_can_view_DMs c db m
   || applies Users_can_view_group_messages SELECT c
     && using_ok Users_can_view_group_messages c db m) = true.
Proof.
  unfold select_messages, visible. rewrite filter_In.
  unfold permits_row. cbn [existsb messages_policies].
  assert (E : forall p : policy messages.row, pol_cmd p = INSERT \/ pol_cmd p = UPDATE ->
                        applies p SELECT c = false)
    by (intros p [H|H]; unfold applies; now rewrite H).
  rewrite (E Users_can_send_DMs), (E Users_can_send_group_messages),
    (E Users_can_mark_DMs_as_read) by (simpl; auto).
  cbn [andb orb]. now rewrite !orb_false_r.
Qed.

Lemma view_DMs_ok (a : uuid) (db : database) (m : messages.row) :
  using_ok Users_can_view_DMs (signed_in a) db m = true <->
  (a = messages.sender_id m \/ a = messages.recipient_id m) /\
  messages.group_id m = None.
Proof.
  unfold using_ok. cbn [pol_using Users_can_view_DMs auth_uid signed_in].
  autorewrite with sql3. rewrite andb_true_iff, orb_true_iff, !String.eqb_eq.
  destruct (messages.group_id m); simpl; intuition congruence.
Qed.

Lemma view_group_messages_ok (a : uuid) (db : database) (m : messages.row) :
  using_ok Users_can_view_group_messages (signed_in a) db m = true <->
  exists gm, In gm (db_group_members db) /\
             messages.group_id m = Some (group_members.group_id gm) /\
             group_members.user_id gm = a.
Proof.
  unfold using_ok. cbn [pol_using Users_can_view_group_messages].
  rewrite is_true_and3, andb_true_iff, is_member_subquery.
  split.
  - now intros [_ H].
  - intros (gm & Hin & Hg & Hu). split; [now rewrite Hg | eauto].
Qed.

Lemma view_group_messages_needs_group (c : caller) (db : database) (m : messages.row) :
  messages.group_id m = None ->
  using_ok Users_can_view_group_messages c db m = false.
Proof.
  intros H. unfold using_ok. cbn [pol_using Users_can_view_group_messages].
  rewrite is_true_and3, H. reflexivity.
Qed.

Lemma view_DMs_needs_no_group (c : caller) (db : database) (m : messages.row) (g : uuid) :
  messages.group_id m = Some g ->
  using_ok Users_can_view_DMs c db m = false.
Proof.
  intros H. unfold using_ok. cbn [pol_using Users_can_view_DMs].
  rewrite is_true_and3, H. apply andb_false_r.
Qed.

(** C1. A group message (non-null [group_id]) is returned to an authenticated
    caller exactly when [group_members] holds a row for that group and that
    caller; the sender plays no part, and the DM policy never lets such a row
    through. *)
Theorem group_message_visible_iff_member :
  forall (a g : uuid) (db : database) (m : messages.row),
    In m (db_messages db) ->
    messages.group_id m = Some g ->
    (In m (select_messages (signed_in a) db) <->
     exists gm, In gm (db_group_members db) /\
                group_members.group_id gm = g /\
                group_members.user_id gm = a)
    /\ using_ok Users_can_view_DMs (signed_in a) db m = false.
Proof.
  intros a g db m Hin Hg.
  pose proof (view_DMs_needs_no_group (signed_in a) db m g Hg) as HDM.
  split; [|exact HDM].
  rewrite select_messages_In, HDM, andb_false_r, orb_false_l.
  cbn [applies pol_cmd pol_to Users_can_view_group_messages command_eqb
       role_eqb caller_role signed_in andb].
  rewrite view_group_messages_ok, Hg. split.
  - intros [_ (gm & H1 & H2 & H3)]. exists gm. intuition congruence.
  - intros (gm & H1 & H2 & H3). split; [assumption|].
    exists gm. intuition congruence.
Qed.

(** C2. A direct message (null [group_id]) is returned to an authenticated
    caller exactly when the caller is its sender or its recipient; the
    group-message policy never lets such a row through for any caller, and no
    row at all passes both SELECT policies. *)
Theorem direct_message_visible_iff_party :
  forall (a : uuid) (c : caller) (db : database) (m m' : messages.row),
    In m (db_messages db) ->
    messages.group_id m = None ->
    (In m (select_messages (signed_in a) db) <->
     a = messages.sender_id m \/ a = messages.recipient_id m)
    /\ using_ok Users_can_view_group_messages c db m = false
    /\ (using_ok Users_can_view_DMs c db m'
        && using_ok Users_can_view_group_messages c db m') = false.
Proof.
  intros a c db m m' Hin Hg. split; [|split].
  - rewrite select_messages_In,
      (view_group_messages_needs_group (signed_in a) db m Hg),
      andb_false_r, orb_false_r.
    cbn [applies pol_cmd pol_to Users_can_view_DMs command_eqb
         role_eqb caller_role signed_in andb].
    rewrite view_DMs_ok. intuition.
  - now apply view_group_messages_needs_group.
  - destruct (messages.group_id m') as [g'|] eqn:E.
    + now rewrite (view_DMs_needs_no_group c db m' g' E).
    + rewrite (view_group_messages_needs_group c db m' E). apply andb_false_r.
Qed.

(** ** Visibility of membership rows *)

Lemma select_group_members_permits (c : caller) (db : database) (gm : group_members.row) :
  permits_row group_members_policies SELECT c db gm =
  applies Members_viewable_by_self SELECT c
  && using_ok Members_viewable_by_self c db gm.
Proof.
  unfold permits_row. cbn [existsb group_members_policies].
  unfold applies at 2 3 4. simpl. now rewrite !orb_false_r.
Qed.

(** The layered reading of [group_members] inside policies is the SELECT of
    the table under all its policies. *)
Lemma from_group_members_is_select (c : caller) (db : database) :
  from_group_members c db = select_group_members c db.
Proof.
  unfold from_group_members, select_group_members, visible.
  apply filter_ext. intros gm. rewrite select_group_members_permits.
  unfold permits_row. cbn [existsb group_members_select_policies].
  apply orb_false_r.
Qed.

Lemma from_groups_is_select (c : caller) (db : database) :
  from_groups c db = visible groups_policies c db (db_groups db).
Proof.
  unfold from_groups, visible. apply filter_ext. intros g.
  unfold permits_row. cbn [existsb groups_select_policies groups_policies].
  unfold applies at 2 3 4. simpl. now rewrite !orb_false_r.
Qed.

(** C3. What an authenticated caller [a] reads from [group_members] is the
    table filtered on [user_id = a]: no row of another identity comes back,
    whatever the rest of the database holds (so also when [a] created or
    administers the group), and the SELECT decision does not depend on the
    database state at all: the predicate reads no other table. *)
Theorem group_members_select_self_only :
  forall (a : uuid) (db db' : database) (c : caller) (gm : group_members.row),
    select_group_members (signed_in a) db
      = filter (fun r => String.eqb (group_members.user_id r) a)
               (db_group_members db)
    /\ Forall (fun r => group_members.user_id r = a)
              (select_group_members (signed_in a) db)
    /\ permits_row group_members_policies SELECT c db gm
       = permits_row group_members_policies SELECT c db' gm.
Proof.
  intros a db db' c gm.
  assert (E : select_group_members (signed_in a) db
              = filter (fun r => String.eqb (group_members.user_id r) a)
                       (db_group_members db)).
  { unfold select_group_members, visible. apply filter_ext. intros r.
    rewrite select_group_members_permits. unfold using_ok. simpl.
    destruct (String.eqb (group_members.user_id r) a); reflexivity. }
  split; [exact E|split].
  - rewrite E. apply Forall_forall. intros r Hr.
    apply filter_In in Hr as [_ Hr]. now apply String.eqb_eq.
  - now rewrite !select_group_members_permits.
Qed.

(** ** Updating membership rows *)

Lemma from_group_members_incl (c : caller) (db : database) (gm : group_members.row) :
  In gm (from_group_members c db) -> In gm (db_group_members db).
Proof. unfold from_group_members, visible. now intros H%filter_In. Qed.

Lemma from_groups_incl (c : caller) (db : database) (g : groups.row) :
  In g (from_groups c db) -> In g (db_groups db).
Proof. unfold from_groups, visible. now intros H%filter_In. Qed.

Lemma eq3_true (x y : option string) :
  is_true (x == y) = true <-> exists s, x = Some s /\ y = Some s.
Proof.
  destruct x as [x|], y as [y|]; simpl; split;
    try discriminate; try (intros (s & ? & ?); discriminate).
  - destruct (String.eqb_spec x y); [subst; eauto | discriminate].
  - intros (s & [= ->] & [= ->]). now rewrite String.eqb_refl.
Qed.

Lemma is_group_creator_sound (c : caller) (db : database) (row : group_members.row) :
  is_true (is_group_creator c db row) = true ->
  exists a, auth_uid c = Some a /\ created_group db a row.
Proof.
  unfold is_group_creator. rewrite is_true_exists_where.
  intros (g & Hin%from_groups_incl & Hp).
  rewrite is_true_and3, andb_true_iff, is_true_eq3, String.eqb_eq, eq3_true in Hp.
  destruct Hp as [Hid (a & Hc & Ha)].
  exists a. split; [assumption|]. exists g. auto.
Qed.

Lemma is_group_admin_sound (c : caller) (db : database) (row : group_members.row) :
  is_true (is_group_admin c db row) = true ->
  exists a, auth_uid c = Some a /\ admin_of_group db a row.
Proof.
  unfold is_group_admin. rewrite is_true_exists_where.
  intros (gm & Hin%from_group_members_incl & Hp).
  rewrite !is_true_and3, !andb_true_iff, is_true_eq3, String.eqb_eq,
    eq3_true, is_true_eqb3_TRUE in Hp.
  destruct Hp as [[Hg (a & [= Hu] & Ha)] Hadm].
  exists a. split; [assumption|]. exists gm. auto.
Qed.

Lemma is_group_creator_complete (a : uuid) (db : database) (row : group_members.row) :
  created_group db a row ->
  is_true (is_group_creator (signed_in a) db row) = true.
Proof.
  intros (g & Hin & Hid & Hc). unfold is_group_creator.
  apply is_true_exists_where. exists g. split.
  - unfold from_groups, visible. apply filter_In. split; [assumption|].
    unfold permits_row, using_ok. simpl.
    rewrite is_true_or3, Hc. simpl. now rewrite String.eqb_refl.
  - rewrite is_true_and3, is_true_eq3, Hid, String.eqb_refl, Hc.
    simpl. now rewrite String.eqb_refl.
Qed.

Lemma is_group_admin_complete (a : uuid) (db : database) (row : group_members.row) :
  admin_of_group db a row ->
  is_true (is_group_admin (signed_in a) db row) = true.
Proof.
  intros (gm & Hin & Hg & Hu & Hadm). unfold is_group_admin.
  apply is_true_exists_where. exists gm. split.
  - apply from_group_members_In. now split.
  - rewrite !is_true_and3, is_true_eq3, Hg, Hu, Hadm. simpl.
    now rewrite !String.eqb_refl.
Qed.

Lemma update_member_roles_permits (c : caller) (db : database) (row : group_members.row) :
  permits_row group_members_policies UPDATE c db row =
  using_ok Admins_and_creators_can_update_member_roles c db row.
Proof.
  unfold permits_row. cbn [existsb group_members_policies].
  unfold applies. simpl. now rewrite !orb_false_r.
Qed.

(** C4. An UPDATE of a membership row is refused to a caller whose identity
    is the row's own [user_id], whatever the caller's role and whatever the
    database holds; and an UPDATE that is let through comes from a caller
    other than the row's user who created the group or holds an
    [is_admin = true] membership in it. *)
Theorem member_role_update_guard :
  forall (r : role) (c : caller) (db : database) (old new : group_members.row),
    permits_update group_members_policies
      {| caller_role := r; auth_uid := Some (group_members.user_id old) |}
      db old new = false
    /\ (permits_update group_members_policies c db old new = true ->
        exists a, auth_uid c = Some a /\
                  a <> group_members.user_id old /\
                  (created_group db a old \/ admin_of_group db a old)).
Proof.
  intros r c db old new. unfold permits_update.
  rewrite !update_member_roles_permits. unfold using_ok.
  cbn [pol_using Admins_and_creators_can_update_member_roles auth_uid].
  split.
  - rewrite is_true_and3, is_true_neq3, String.eqb_refl. simpl.
    now rewrite andb_false_r.
  - rewrite is_true_and3, is_true_or3, !andb_true_iff, orb_true_iff.
    intros [[Hpriv Hself] _].
    assert (Ha : exists a, auth_uid c = Some a /\
                 (created_group db a old \/ admin_of_group db a old)).
    { destruct Hpriv as [H|H];
        [apply is_group_creator_sound in H | apply is_group_admin_sound in H];
        destruct H as (a & Hc & H); exists a; auto. }
    destruct Ha as (a & Hc & Ha). exists a. repeat split; trivial.
    rewrite Hc, is_true_neq3 in Hself.
    intros ->. now rewrite String.eqb_refl in Hself.
Qed.

(** For an authenticated caller the role-update policy lets an UPDATE through
    exactly when the caller is another user than the row's and created the
    group or administers it. *)
Lemma member_role_update_signed_in (a : uuid) (db : database) (old new : group_members.row) :
  permits_update group_members_policies (signed_in a) db old new = true <->
  a <> group_members.user_id old /\
  (created_group db a old \/ admin_of_group db a old).
Proof.
  unfold permits_update. rewrite update_member_roles_permits.
  assert (Hnew : permits_new_row group_members_policies UPDATE (signed_in a) db new = true)
    by (unfold permits_new_row, applies, check_ok; reflexivity).
  rewrite Hnew, andb_true_r. unfold using_ok.
  cbn [pol_using Admins_and_creators_can_update_member_roles].
  rewrite is_true_and3, is_true_or3, andb_true_iff, orb_true_iff.
  cbn [auth_uid signed_in]. rewrite is_true_neq3, negb_true_iff, String.eqb_neq.
  split.
  - intros [[H|H] Hne]; split; trivial.
    + apply is_group_creator_sound in H as (a' & [= <-] & H). now left.
    + apply is_group_admin_sound in H as (a' & [= <-] & H). now right.
  - intros [Hne [H|H]]; split; trivial.
    + left. now apply is_group_creator_complete.
    + right. now apply is_group_admin_complete.
Qed.

(** An UPDATE that filters on the row's columns also reads the row, so the
    SELECT policy applies to it besides the UPDATE policy; no membership row
    passes both for one caller. *)
Lemma member_role_update_filtered (a : uuid) (db : database) (row : group_members.row) :
  permits_row group_members_policies SELECT (signed_in a) db row
  && permits_row group_members_policies UPDATE (signed_in a) db row = false.
Proof.
  rewrite select_group_members_permits, update_member_roles_permits.
  unfold using_ok. cbn [pol_using Members_viewable_by_self
    Admins_and_creators_can_update_member_roles auth_uid signed_in].
  rewrite is_true_and3, is_true_neq3, is_true_eq3, (String.eqb_sym a).
  destruct (String.eqb (group_members.user_id row) a); simpl;
    [now rewrite !andb_false_r | reflexivity].
Qed.

(** ** Updating and deleting messages *)

Lemma mark_DMs_as_read_ok (a : uuid) (db : database) (m : messages.row) :
  using_ok Users_can_mark_DMs_as_read (signed_in a) db m = true <->
  a = messages.recipient_id m /\ messages.group_id m = None.
Proof.
  unfold using_ok. cbn [pol_using Users_can_mark_DMs_as_read auth_uid signed_in].
  rewrite is_true_and3, is_true_eq3, andb_true_iff, String.eqb_eq.
  destruct (messages.group_id m); simpl; intuition congruence.
Qed.

Lemma update_messages_permits (a : uuid) (db : database) (m : messages.row) :
  permits_row messages_policies UPDATE (signed_in a) db m
  = using_ok Users_can_mark_DMs_as_read (signed_in a) db m.
Proof.
  unfold permits_row. cbn [existsb messages_policies].
  unfold applies. simpl. now rewrite orb_false_r.
Qed.

Lemma update_messages_permits_new (a : uuid) (db : database) (m : messages.row) :
  permits_new_row messages_policies UPDATE (signed_in a) db m = true <->
  a = messages.recipient_id m.
Proof.
  unfold permits_new_row. cbn [existsb messages_policies].
  unfold applies, check_ok. simpl. rewrite orb_false_r.
  destruct (String.eqb_spec a (messages.recipient_id m)); split; congruence.
Qed.

(** C9, as amended. The one UPDATE policy on [messages] is "Users can mark
    DMs as read": an authenticated caller may update a row exactly when its
    [group_id] is null and the caller is its recipient, into any new row
    that keeps the caller as recipient (the policy does not say which
    columns may change); so a group message can be updated by no
    authenticated caller, into no new row; and with RLS enabled and no
    DELETE policy declared, no authenticated caller can delete any
    message. *)
Theorem messages_update_by_dm_recipient_no_delete :
  forall (a g : uuid) (db : database) (m new : messages.row),
    policies_for UPDATE messages_policies = [Users_can_mark_DMs_as_read]
    /\ (row_allowed t_messages messages_policies UPDATE (signed_in a) db m = true <->
        messages.group_id m = None /\ a = messages.recipient_id m)
    /\ (permits_update messages_policies (signed_in a) db m new = true <->
        messages.group_id m = None /\ a = messages.recipient_id m /\
        a = messages.recipient_id new)
    /\ (messages.group_id m = Some g ->
        row_allowed t_messages messages_policies UPDATE (signed_in a) db m = false
        /\ permits_update messages_policies (signed_in a) db m new = false)
    /\ rls_enabled t_messages = true
    /\ policies_for DELETE messages_policies = []
    /\ row_allowed t_messages messages_policies DELETE (signed_in a) db m = false.
Proof.
  intros a g db m new.
  assert (Hiff : row_allowed t_messages messages_policies UPDATE (signed_in a) db m = true <->
                 messages.group_id m = None /\ a = messages.recipient_id m).
  { unfold row_allowed. cbn [rls_enabled].
    rewrite update_messages_permits, mark_DMs_as_read_ok. tauto. }
  assert (Hupd : permits_update messages_policies (signed_in a) db m new = true <->
                 messages.group_id m = None /\ a = messages.recipient_id m /\
                 a = messages.recipient_id new).
  { unfold permits_update.
    rewrite andb_true_iff, update_messages_permits, mark_DMs_as_read_ok,
      update_messages_permits_new. tauto. }
  split; [reflexivity|]. split; [exact Hiff|]. split; [exact Hupd|]. split.
  - intros Hg. split; apply not_true_is_false.
    + intros H%Hiff. destruct H; congruence.
    + intros H%Hupd. destruct H; congruence.
  - repeat split; reflexivity.
Qed.

(** C9 as first stated fails. bob, the recipient of alice's direct message,
    can see the row and is let through when he updates it into a row with
    another [content] and the same [read] flag (a row he can see as well): a
    message is not immutable up to its read flag. *)
Lemma dm_recipient_can_rewrite_content :
  permits_update messages_policies (signed_in Sample.bob) Sample.db
                 Sample.dm Sample.dm_edited = true
  /\ permits_row messages_policies SELECT (signed_in Sample.bob) Sample.db
                 Sample.dm = true
  /\ permits_row messages_policies SELECT (signed_in Sample.bob) Sample.db
                 Sample.dm_edited = true
  /\ messages.read Sample.dm_edited = messages.read Sample.dm
  /\ messages.content Sample.dm_edited <> messages.content Sample.dm.
Proof.
  repeat split; try reflexivity. discriminate.
Qed.

(** ** Deleting a profile *)

Lemma existsb_eqb_In (k : string) (l : list string) :
  existsb (String.eqb k) l = true <-> In k l.
Proof.
  rewrite existsb_exists. split.
  - intros (x & Hin & ->%String.eqb_eq). assumption.
  - intros Hin. exists k. split; [assumption | apply String.eqb_refl].
Qed.

Lemma deleted_profile_keys (db : database) (p : profiles.row) (k : uuid) :
  In p (db_profiles db) ->
  references
    (map profiles.id
       (filter (fun q => String.eqb (profiles.id q) (profiles.id p)) (db_profiles db)))
    (Some k) = true <-> k = profiles.id p.
Proof.
  intros Hin. unfold references. rewrite existsb_eqb_In, in_map_iff. split.
  - intros (q & <- & Hq%filter_In). now apply String.eqb_eq.
  - intros ->. exists p. split; [reflexivity|].
    apply filter_In. split; [assumption | apply String.eqb_refl].
Qed.

Lemma on_delete_cascade_In {R : Type} (col : R -> option uuid) (set_null : R -> R)
      (deleted : list uuid) (rows : list R) (r : R) :
  In r (on_delete CASCADE col set_null deleted rows) <->
  In r rows /\ references deleted (col r) = false.
Proof. unfold on_delete. now rewrite filter_In, negb_true_iff. Qed.

Section DeleteProfile.
Variable db : database.
Variable p : profiles.row.
Hypothesis p_in_db : In p (db_profiles db).

Let pid := profiles.id p.
Let gone :=
  map profiles.id
      (filter (fun q => String.eqb (profiles.id q) pid) (db_profiles db)).

Lemma referencing (k : uuid) : references gone (Some k) = true <-> k = pid.
Proof. unfold gone, pid. now apply deleted_profile_keys. Qed.

Lemma not_referencing (k : uuid) : references gone (Some k) = false <-> k <> pid.
Proof. rewrite <- not_true_iff_false. now rewrite referencing. Qed.

Lemma delete_profile_posts (r : posts.row) :
  In r (db_posts (delete_profile pid db)) <->
  In r (db_posts db) /\ posts.user_id r <> pid.
Proof.
  cbn [delete_profile db_posts]. unfold posts_user_id_on_delete.
  rewrite on_delete_cascade_In. fold gone. now rewrite not_referencing.
Qed.

Lemma delete_profile_follows (r : follows.row) :
  In r (db_follows (delete_profile pid db)) <->
  In r (db_follows db) /\ follows.follower_id r <> pid /\ follows.following_id r <> pid.
Proof.
  cbn [delete_profile db_follows].
  unfold follows_follower_id_on_delete, follows_following_id_on_delete.
  rewrite !on_delete_cascade_In. fold gone. rewrite !not_referencing. tauto.
Qed.

Lemma delete_profile_group_members (r : group_members.row) :
  In r (db_group_members (delete_profile pid db)) <->
  In r (db_group_members db) /\ group_members.user_id r <> pid.
Proof.
  cbn [delete_profile db_group_members]. unfold group_members_user_id_on_delete.
  rewrite on_delete_cascade_In. fold gone. now rewrite not_referencing.
Qed.

Lemma delete_profile_messages :
  Forall (fun m => messages.sender_id m <> pid /\ messages.recipient_id m <> pid)
         (db_messages (delete_profile pid db)).
Proof.
  apply Forall_forall. intros m.
  cbn [delete_profile db_messages].
  unfold messages_reply_to_id_on_delete, messages_recipient_id_on_delete,
    messages_sender_id_on_delete.
  unfold on_delete at 1. rewrite in_map_iff.
  intros (m0 & <- & Hm0). rewrite !on_delete_cascade_In in Hm0.
  fold gone in Hm0. rewrite !not_referencing in Hm0.
  destruct (references _ (messages.reply_to_id m0)); simpl; tauto.
Qed.

Lemma delete_profile_groups :
  db_groups (delete_profile pid db) =
  map (fun g => match groups.creator_id g with
                | Some k => if String.eqb k pid then groups_set_creator_null g else g
                | None => g
                end) (db_groups db).
Proof.
  cbn [delete_profile db_groups]. unfold groups_creator_id_on_delete, on_delete.
  apply map_ext. intros g. fold gone.
  destruct (groups.creator_id g) as [k|]; [|reflexivity].
  destruct (String.eqb_spec k pid) as [->|Hne].
  - now rewrite (proj2 (referencing pid) eq_refl).
  - now rewrite (proj2 (not_referencing k) Hne).
Qed.

End DeleteProfile.

(** C7. Deleting an existing profile row leaves no post of that user, no
    follow edge with it at either end, no message it sent or received and no
    membership row of it, and keeps the rows that do not reference it; every
    group stays in place, and a group the profile created is kept with
    [creator_id] set to NULL. *)
Theorem delete_profile_cascades :
  forall (db : database) (p : profiles.row),
    In p (db_profiles db) ->
    (forall r, In r (db_posts (delete_profile (profiles.id p) db)) <->
               In r (db_posts db) /\ posts.user_id r <> profiles.id p)
    /\ (forall r, In r (db_follows (delete_profile (profiles.id p) db)) <->
                  In r (db_follows db) /\
                  follows.follower_id r <> profiles.id p /\
                  follows.following_id r <> profiles.id p)
    /\ Forall (fun m => messages.sender_id m <> profiles.id p /\
                        messages.recipient_id m <> profiles.id p)
              (db_messages (delete_profile (profiles.id p) db))
    /\ (forall r, In r (db_group_members (delete_profile (profiles.id p) db)) <->
                  In r (db_group_members db) /\
                  group_members.user_id r <> profiles.id p)
    /\ map groups.id (db_groups (delete_profile (profiles.id p) db))
       = map groups.id (db_groups db)
    /\ (forall g, In g (db_groups db) ->
                  groups.creator_id g = Some (profiles.id p) ->
                  In (groups_set_creator_null g)
                     (db_groups (delete_profile (profiles.id p) db)))
    /\ Forall (fun g => groups.creator_id g <> Some (profiles.id p))
              (db_groups (delete_profile (profiles.id p) db)).
Proof.
  intros db p Hin.
  pose proof (delete_profile_groups db p Hin) as Hg.
  repeat match goal with |- _ /\ _ => split end.
  - intros r. now apply delete_profile_posts.
  - intros r. now apply delete_profile_follows.
  - now apply delete_profile_messages.
  - intros r. now apply delete_profile_group_members.
  - rewrite Hg, map_map. apply map_ext. intros g.
    destruct (groups.creator_id g) as [k|]; [|reflexivity].
    destruct (String.eqb k (profiles.id p)); reflexivity.
  - intros g Hgin Hc. rewrite Hg. apply in_map_iff. exists g.
    split; [|assumption]. now rewrite Hc, String.eqb_refl.
  - rewrite Hg. apply Forall_forall. intros g' (g & <- & _)%in_map_iff.
    destruct (groups.creator_id g) as [k|] eqn:Ek; [|now rewrite Ek].
    destruct (String.eqb_spec k (profiles.id p)) as [->|Hne].
    + discriminate.
    + rewrite Ek. congruence.
Qed.

(** ** Deleting media objects *)

Lemma where_key_absent (a : uuid) (users : list uuid) :
  ~ In a users -> where_ (fun u => Some u == Some a) users = [].
Proof.
  unfold where_. induction users as [|u us IH]; [reflexivity|].
  intros Hnotin. simpl.
  destruct (String.eqb_spec u a) as [->|_].
  - exfalso. apply Hnotin. now left.
  - simpl. apply IH. intros H. apply Hnotin. now right.
Qed.

Lemma where_key_unique (a : uuid) (users : list uuid) :
  NoDup users -> In a users ->
  where_ (fun u => Some u == Some a) users = [a].
Proof.
  induction 1 as [|u us Hnotin Hnd IH]; [intros []|].
  intros [->|Hin]; unfold where_; simpl.
  - rewrite String.eqb_refl. simpl. f_equal. now apply where_key_absent.
  - destruct (String.eqb_spec u a) as [->|_]; [contradiction|].
    simpl. now apply IH.
Qed.

Lemma auth_user_id_text_signed_in (a : uuid) (db : database) :
  NoDup (auth_users db) -> In a (auth_users db) ->
  auth_user_id_text (signed_in a) db = Some (uuid_to_text a).
Proof.
  intros Hnd Hin. unfold auth_user_id_text. cbn [auth_uid signed_in].
  now rewrite where_key_unique.
Qed.

Lemma delete_own_permits (c : caller) (db : database) (o : storage_objects.row) :
  permits_row storage_objects_policies DELETE c db o =
  applies Users_can_delete_own DELETE c && using_ok Users_can_delete_own c db o.
Proof.
  unfold permits_row. cbn [existsb storage_objects_policies].
  unfold applies at 1 2. simpl. now rewrite orb_false_r.
Qed.

(** C8. For an object of the [media] bucket and an authenticated caller who
    is a user of [auth.users], DELETE is let through exactly when the first
    path segment of the object's key is the caller's identity in text form;
    so an object one identity may delete is refused to every other one. *)
Theorem media_delete_owner_prefix_only :
  forall (a b : uuid) (db : database) (o : storage_objects.row),
    NoDup (auth_users db) ->
    In a (auth_users db) ->
    In b (auth_users db) ->
    storage_objects.bucket_id o = "media" ->
    (permits_row storage_objects_policies DELETE (signed_in a) db o = true <->
     first_path_segment (storage_objects.name o) = Some (uuid_to_text a))
    /\ (first_path_segment (storage_objects.name o) = Some (uuid_to_text a) ->
        b <> a ->
        permits_row storage_objects_policies DELETE (signed_in b) db o = false).
Proof.
  intros a b db o Hnd Ha Hb Hbucket.
  assert (E : forall u, In u (auth_users db) ->
    permits_row storage_objects_policies DELETE (signed_in u) db o = true <->
    first_path_segment (storage_objects.name o) = Some (uuid_to_text u)).
  { intros u Hu. rewrite delete_own_permits.
    cbn [applies pol_cmd pol_to Users_can_delete_own command_eqb role_eqb
         caller_role signed_in andb].
    unfold using_ok. cbn [pol_using Users_can_delete_own].
    rewrite is_true_and3, Hbucket, auth_user_id_text_signed_in by assumption.
    cbn [is_true eq3 String.eqb Ascii.eqb Bool.eqb andb].
    rewrite eq3_true. split.
    - intros (s & -> & [= ->]). reflexivity.
    - intros ->. eauto. }
  split; [now apply E|].
  intros Hseg Hne. apply not_true_is_false. intros H%E; [|assumption].
  rewrite Hseg in H. injection H as H. now apply Hne.
Qed.

(** ** The username pre-check *)

Lemma profiles_visible_to_all (c : caller) (db : database) (rows : list profiles.row) :
  visible profiles_policies c db rows = rows.
Proof.
  unfold visible. induction rows as [|r rows IH]; [reflexivity|].
  simpl. now rewrite IH.
Qed.

Lemma where_username_absent (v : string) (rows : list profiles.row) :
  (forall r, In r rows -> profiles.username r <> v) ->
  where_ (fun r => Some (profiles.username r) == Some v) rows = [].
Proof.
  unfold where_. induction rows as [|r rows IH]; [reflexivity|].
  intros H. simpl.
  destruct (String.eqb_spec (profiles.username r) v) as [E|_].
  - exfalso. apply (H r); [now left | exact E].
  - simpl. apply IH. intros r' Hr'. apply H. now right.
Qed.

Lemma where_username_unique (v : string) (rows : list profiles.row) (r : profiles.row) :
  usernames_unique rows = true ->
  In r rows -> profiles.username r = v ->
  where_ (fun r => Some (profiles.username r) == Some v) rows = [r].
Proof.
  unfold usernames_unique. induction rows as [|q rows IH]; [intros _ []|].
  cbn [map all_distinct]. rewrite andb_true_iff, negb_true_iff.
  intros [Hq Hrest] [->|Hin] Hv; unfold where_; simpl.
  - rewrite Hv, String.eqb_refl. simpl. f_equal.
    apply where_username_absent. intros r' Hr' E.
    apply not_true_iff_false in Hq. apply Hq.
    apply existsb_eqb_In, in_map_iff. exists r'. split; congruence.
  - destruct (String.eqb_spec (profiles.username q) v) as [E|_].
    + exfalso. apply not_true_iff_false in Hq. apply Hq.
      apply existsb_eqb_In, in_map_iff. exists r. split; congruence.
    + simpl. now apply IH.
Qed.

Lemma precheck_finds (c : caller) (v : string) (db : database) (r : profiles.row) :
  usernames_unique (db_profiles db) = true ->
  In r (db_profiles db) -> profiles.username r = v ->
  profiles_select_id_by_username c v db = Some (profiles.id r).
Proof.
  intros Hu Hin Hv. unfold profiles_select_id_by_username.
  now rewrite profiles_visible_to_all, (where_username_unique v _ r).
Qed.

Lemma precheck_misses (c : caller) (v : string) (db : database) :
  (forall r, In r (db_profiles db) -> profiles.username r <> v) ->
  profiles_select_id_by_username c v db = None.
Proof.
  intros H. unfold profiles_select_id_by_username.
  now rewrite profiles_visible_to_all, where_username_absent.
Qed.

(** ** Changing the username *)

Import Settings.

Section UsernameChange.
Variable toLowerCase : string -> string.
Variable trim : string -> string.

Lemma guard_passes (s : state) (u : User) (p : profiles.row) :
  submits trim s u p ->
  falsy (id u) || String.eqb (newUsername s) (profiles.username p)
  || falsy (trim (newUsername s)) = false.
Proof.
  intros (_ & Hid & _ & Hne & Htrim). unfold falsy.
  now rewrite (proj2 (String.eqb_neq _ _) Hid), (proj2 (String.eqb_neq _ _) Hne),
    (proj2 (String.eqb_neq _ _) Htrim).
Qed.

Lemma handleUsernameChange_taken (s : state) (u : User) (p : profiles.row) (x : uuid) :
  submits trim s u p ->
  profiles_select_id_by_username (session s) (toLowerCase (newUsername s)) (backend s)
    = Some x ->
  run (handleUsernameChange toLowerCase trim) s =
  with_loading false
    (with_message (Some {| type := error; text := "Username already taken." |})
       (with_backend (backend s)
          (select_id_eq_username (toLowerCase (newUsername s)))
          (with_loading true s))).
Proof.
  intros Hs Hx. pose proof (guard_passes s u p Hs) as Hg.
  destruct Hs as (Hu & _ & Hp & _).
  unfold run, handleUsernameChange, bind, read. rewrite Hu, Hp, Hg.
  cbn -[profiles_select_id_by_username]. now rewrite Hx.
Qed.

Lemma handleUsernameChange_free (s : state) (u : User) (p : profiles.row) :
  submits trim s u p ->
  profiles_select_id_by_username (session s) (toLowerCase (newUsername s)) (backend s)
    = None ->
  snd (profiles_update_by_id (session s)
         (patch_username (toLowerCase (newUsername s))) (id u) (backend s)) = None ->
  run (handleUsernameChange toLowerCase trim) s =
  with_timer (clear_message, 3000)
    (with_newUsername ""
       (with_message (Some {| type := success; text := "Username updated!" |})
          (with_profile
             (Some (apply_patch (patch_username (toLowerCase (newUsername s))) p))
             (with_loading false
                (with_backend
                   (fst (profiles_update_by_id (session s)
                           (patch_username (toLowerCase (newUsername s)))
                           (id u) (backend s)))
                   (update_eq_id (patch_username (toLowerCase (newUsername s))) (id u))
                   (with_backend (backend s)
                      (select_id_eq_username (toLowerCase (newUsername s)))
                      (with_loading true s))))))).
Proof.
  intros Hs Hx Herr. pose proof (guard_passes s u p Hs) as Hg.
  destruct Hs as (Hu & _ & Hp & _).
  unfold run, handleUsernameChange, bind, read. rewrite Hu, Hp, Hg.
  cbn -[profiles_select_id_by_username profiles_update_by_id].
  rewrite Hx.
  cbn -[profiles_select_id_by_username profiles_update_by_id].
  unfold supabase_update_eq_id.
  cbn -[profiles_select_id_by_username profiles_update_by_id].
  destruct (profiles_update_by_id _ _ _ _) as [db' err]. simpl in Herr.
  subst err. reflexivity.
Qed.

End UsernameChange.

Lemma update_without_error (c : caller) (pt : patch) (v : uuid) (db : database) :
  snd (profiles_update_by_id c pt v db) = None ->
  fst (profiles_update_by_id c pt v db) =
  with_profiles
    (map (fun r => if update_reaches c v db r then apply_patch pt r else r)
         (db_profiles db)) db.
Proof.
  unfold profiles_update_by_id.
  destruct (negb (forallb _ _)); [discriminate|].
  destruct (negb (usernames_unique _)); [discriminate|]. reflexivity.
Qed.

Lemma update_reaches_own_row (a : uuid) (db : database) (r : profiles.row) :
  profiles.id r = a -> update_reaches (signed_in a) a db r = true.
Proof.
  intros <-. unfold update_reaches, permits_row, applies, using_ok. simpl.
  now rewrite !String.eqb_refl.
Qed.

(** C5. When some profile row already carries the lower-cased form of the
    submitted name (and the guard lets the submission pass), the handler
    sends the pre-check query and nothing else, sets the error message
    "Username already taken.", and leaves the backend, the cached profile,
    the input field and the timers as they were, with the loading flag
    down. *)
Theorem username_taken_rejected :
  forall (toLowerCase trim : string -> string) (s : state) (u : User)
         (p taken : profiles.row),
    submits trim s u p ->
    usernames_unique (db_profiles (backend s)) = true ->
    In taken (db_profiles (backend s)) ->
    profiles.username taken = toLowerCase (newUsername s) ->
    let s' := run (handleUsernameChange toLowerCase trim) s in
    message s' = Some {| type := error; text := "Username already taken." |}
    /\ requests s' =
       (requests s ++ [select_id_eq_username (toLowerCase (newUsername s))])%list
    /\ backend s' = backend s
    /\ profile s' = profile s
    /\ loading s' = false
    /\ newUsername s' = newUsername s
    /\ timers s' = timers s.
Proof.
  intros toLowerCase trim s u p taken Hs Huniq Hin Hname s'. subst s'.
  rewrite (handleUsernameChange_taken toLowerCase trim s u p (profiles.id taken) Hs)
    by now apply precheck_finds.
  repeat split.
Qed.

(** C6. When no profile row carries the lower-cased form of the submitted
    name and the UPDATE comes back without an error, the handler has sent
    the pre-check and then one UPDATE of [username] to exactly that
    lower-cased name, filtered on the user's id, and no further request (the
    profile is not read back); the rows the UPDATE reaches carry the new
    name, the caller's own row among them when the session is the user's;
    and the cached profile is the old cached profile with only [username]
    replaced. *)
Theorem username_change_persists_lowercase :
  forall (toLowerCase trim : string -> string) (s : state) (u : User)
         (p : profiles.row),
    submits trim s u p ->
    (forall r, In r (db_profiles (backend s)) ->
               profiles.username r <> toLowerCase (newUsername s)) ->
    snd (profiles_update_by_id (session s)
           (patch_username (toLowerCase (newUsername s))) (id u) (backend s))
      = None ->
    let name := toLowerCase (newUsername s) in
    let s' := run (handleUsernameChange toLowerCase trim) s in
    requests s' =
      (requests s ++ [select_id_eq_username name;
                      update_eq_id (patch_username name) (id u)])%list
    /\ db_profiles (backend s') =
       map (fun r => if update_reaches (session s) (id u) (backend s) r
                     then apply_patch (patch_username name) r else r)
           (db_profiles (backend s))
    /\ (session s = signed_in (id u) ->
        forall r, In r (db_profiles (backend s)) -> profiles.id r = id u ->
                  In (apply_patch (patch_username name) r)
                     (db_profiles (backend s')))
    /\ profile s' =
       Some {| profiles.id := profiles.id p;
               profiles.username := name;
               profiles.display_name := profiles.display_name p;
               profiles.bio := profiles.bio p;
               profiles.avatar_url := profiles.avatar_url p;
               profiles.banner_url := profiles.banner_url p;
               profiles.verified := profiles.verified p;
               profiles.created_at := profiles.created_at p;
               profiles.theme := profiles.theme p;
               profiles.verification_request := profiles.verification_request p;
               profiles.last_seen := profiles.last_seen p |}
    /\ message s' = Some {| type := success; text := "Username updated!" |}
    /\ loading s' = false
    /\ newUsername s' = "".
Proof.
  intros toLowerCase trim s u p Hs Hfree Hok name s'. subst s'.
  rewrite (handleUsernameChange_free toLowerCase trim s u p Hs)
    by (trivial; now apply precheck_misses).
  fold name in Hok |- *.
  assert (Hdb : db_profiles
                  (fst (profiles_update_by_id (session s) (patch_username name)
                          (id u) (backend s))) =
                map (fun r => if update_reaches (session s) (id u) (backend s) r
                              then apply_patch (patch_username name) r else r)
                    (db_profiles (backend s)))
    by now rewrite update_without_error.
  cbn [requests backend profile message loading newUsername
       with_timer with_newUsername with_message with_profile with_loading
       with_backend].
  split; [now rewrite <- app_assoc|].
  split; [exact Hdb|].
  split; [|repeat split].
  intros Hsession r Hin Hid. rewrite Hdb, Hsession. apply in_map_iff.
  exists r. split; [|assumption].
  now rewrite update_reaches_own_row.
Qed.

(** C10. A submitted name that differs from the cached username, stored in
    lower case, only by letter case passes the guard (a request is sent);
    the pre-check, which does not filter on the caller's id, returns the
    caller's own row; the handler sets "Username already taken." and sends
    no UPDATE, so backend and cached profile stay as they were. *)
Theorem username_case_change_rejected :
  forall (toLowerCase trim : string -> string) (s : state) (u : User)
         (p own : profiles.row),
    submits trim s u p ->
    toLowerCase (newUsername s) = profiles.username p ->
    usernames_unique (db_profiles (backend s)) = true ->
    In own (db_profiles (backend s)) ->
    profiles.id own = id u ->
    profiles.username own = profiles.username p ->
    let s' := run (handleUsernameChange toLowerCase trim) s in
    profiles_select_id_by_username (session s) (toLowerCase (newUsername s))
                                   (backend s) = Some (id u)
    /\ message s' = Some {| type := error; text := "Username already taken." |}
    /\ requests s' =
       (requests s ++ [select_id_eq_username (toLowerCase (newUsername s))])%list
    /\ backend s' = backend s
    /\ profile s' = profile s.
Proof.
  intros toLowerCase trim s u p own Hs Hcase Huniq Hin Hid Hname s'. subst s'.
  assert (Hpre : profiles_select_id_by_username (session s)
                   (toLowerCase (newUsername s)) (backend s) = Some (id u)).
  { rewrite <- Hid. apply precheck_finds; trivial. congruence. }
  rewrite (handleUsernameChange_taken toLowerCase trim s u p (id u) Hs Hpre).
  repeat split. exact Hpre.
Qed.

(** * The properties on the sample instance *)

(** bob, a plain member of the team, is shown alice's team message. *)
Lemma group_message_visible_iff_member_witness :
  In Sample.team_msg (db_messages Sample.db) /\
  messages.group_id Sample.team_msg = Some Sample.team /\
  ((In Sample.team_msg (select_messages (signed_in Sample.bob) Sample.db) <->
    exists gm, In gm (db_group_members Sample.db) /\
               group_members.group_id gm = Sample.team /\
               group_members.user_id gm = Sample.bob)
   /\ using_ok Users_can_view_DMs (signed_in Sample.bob) Sample.db Sample.team_msg
      = false).
Proof.
  assert (Hin : In Sample.team_msg (db_messages Sample.db))
    by (simpl; auto).
  split; [exact Hin|]. split; [reflexivity|].
  apply (group_message_visible_iff_member
           Sample.bob Sample.team Sample.db Sample.team_msg Hin).
  reflexivity.
Defined.

(** carol, neither sender nor recipient, is not shown the direct message. *)
Lemma direct_message_visible_iff_party_witness :
  In Sample.dm (db_messages Sample.db) /\
  messages.group_id Sample.dm = None /\
  ((In Sample.dm (select_messages (signed_in Sample.carol) Sample.db) <->
    Sample.carol = messages.sender_id Sample.dm \/
    Sample.carol = messages.recipient_id Sample.dm)
   /\ using_ok Users_can_view_group_messages (signed_in Sample.alice)
               Sample.db Sample.dm = false
   /\ (using_ok Users_can_view_DMs (signed_in Sample.alice) Sample.db Sample.team_msg
       && using_ok Users_can_view_group_messages (signed_in Sample.alice)
                   Sample.db Sample.team_msg) = false).
Proof.
  assert (Hin : In Sample.dm (db_messages Sample.db))
    by (simpl; auto).
  split; [exact Hin|]. split; [reflexivity|].
  apply (direct_message_visible_iff_party
           Sample.carol (signed_in Sample.alice) Sample.db
           Sample.dm Sample.team_msg Hin).
  reflexivity.
Defined.

(** alice, creator and admin of the team, may update bob's membership. *)
Lemma member_role_update_guard_witness :
  permits_update group_members_policies (signed_in Sample.alice) Sample.db
    (Sample.member_of Sample.team Sample.bob false)
    (Sample.member_of Sample.team Sample.bob true) = true /\
  exists a, auth_uid (signed_in Sample.alice) = Some a /\
            a <> group_members.user_id (Sample.member_of Sample.team Sample.bob false) /\
            (created_group Sample.db a (Sample.member_of Sample.team Sample.bob false)
             \/ admin_of_group Sample.db a
                               (Sample.member_of Sample.team Sample.bob false)).
Proof.
  assert (H : permits_update group_members_policies (signed_in Sample.alice)
                Sample.db (Sample.member_of Sample.team Sample.bob false)
                (Sample.member_of Sample.team Sample.bob true) = true)
    by reflexivity.
  split; [exact H|].
  exact (proj2 (member_role_update_guard authenticated (signed_in Sample.alice)
                  Sample.db (Sample.member_of Sample.team Sample.bob false)
                  (Sample.member_of Sample.team Sample.bob true)) H).
Defined.

(** Deleting alice's profile from the sample database. *)
Lemma delete_profile_cascades_witness :
  In Sample.alice_profile (db_profiles Sample.db) /\
  db_posts (delete_profile Sample.alice Sample.db) = [] /\
  db_groups (delete_profile Sample.alice Sample.db)
    = [groups_set_creator_null Sample.team_group] /\
  Forall (fun g => groups.creator_id g <> Some Sample.alice)
         (db_groups (delete_profile Sample.alice Sample.db)).
Proof.
  assert (Hin : In Sample.alice_profile (db_profiles Sample.db))
    by (simpl; auto).
  split; [exact Hin|]. split; [reflexivity|]. split; [reflexivity|].
  apply (delete_profile_cascades Sample.db Sample.alice_profile Hin).
Defined.

(** The folder segments of object keys. *)
Example first_path_segment_nested :
  first_path_segment "a11ce000-0000-4000-8000-000000000001/2024/pic.png"
  = Some "a11ce000-0000-4000-8000-000000000001".
Proof. reflexivity. Qed.

Example first_path_segment_bare :
  first_path_segment "a11ce000-0000-4000-8000-000000000001" = None.
Proof. reflexivity. Qed.

(** alice may delete the picture under her folder; bob may not. *)
Lemma media_delete_owner_prefix_only_witness :
  NoDup (auth_users Sample.db) /\
  storage_objects.bucket_id Sample.alice_picture = "media" /\
  first_path_segment (storage_objects.name Sample.alice_picture)
    = Some (uuid_to_text Sample.alice) /\
  permits_row storage_objects_policies DELETE (signed_in Sample.alice)
              Sample.db Sample.alice_picture = true /\
  permits_row storage_objects_policies DELETE (signed_in Sample.bob)
              Sample.db Sample.alice_picture = false.
Proof.
  assert (Hnd : NoDup (auth_users Sample.db)).
  { simpl. repeat constructor; simpl; intuition discriminate. }
  assert (Hseg : first_path_segment (storage_objects.name Sample.alice_picture)
                 = Some (uuid_to_text Sample.alice)) by reflexivity.
  assert (Hne : Sample.bob <> Sample.alice) by discriminate.
  destruct (media_delete_owner_prefix_only Sample.alice Sample.bob Sample.db
              Sample.alice_picture Hnd) as [Hiff Hother];
    [simpl; auto | simpl; auto | reflexivity |].
  split; [exact Hnd|]. split; [reflexivity|]. split; [exact Hseg|].
  split; [exact (proj2 Hiff Hseg) | exact (Hother Hseg Hne)].
Defined.

(** No one signed in can update or delete the team message. *)
Lemma messages_update_by_dm_recipient_no_delete_witness :
  messages.group_id Sample.team_msg = Some Sample.team /\
  row_allowed t_messages messages_policies UPDATE (signed_in Sample.alice)
              Sample.db Sample.team_msg = false /\
  permits_update messages_policies (signed_in Sample.alice) Sample.db
                 Sample.team_msg Sample.team_msg = false /\
  row_allowed t_messages messages_policies DELETE (signed_in Sample.alice)
              Sample.db Sample.team_msg = false.
Proof.
  destruct (messages_update_by_dm_recipient_no_delete Sample.alice Sample.team
              Sample.db Sample.team_msg Sample.team_msg)
    as (_ & _ & _ & Hgroup & _ & _ & Hdel).
  destruct (Hgroup eq_refl) as [Hupd Hnew].
  split; [reflexivity|]. split; [exact Hupd|]. split; [exact Hnew | exact Hdel].
Defined.

(** bob asks for the name "Alice", which alice holds as "alice". *)
Lemma username_taken_rejected_witness :
  submits Sample.trim (Sample.page Sample.bob Sample.bob_profile "Alice")
          {| id := Sample.bob |} Sample.bob_profile /\
  message (run (handleUsernameChange Sample.toLowerCase Sample.trim)
               (Sample.page Sample.bob Sample.bob_profile "Alice"))
    = Some {| type := error; text := "Username already taken." |} /\
  requests (run (handleUsernameChange Sample.toLowerCase Sample.trim)
                (Sample.page Sample.bob Sample.bob_profile "Alice"))
    = [select_id_eq_username "alice"] /\
  backend (run (handleUsernameChange Sample.toLowerCase Sample.trim)
               (Sample.page Sample.bob Sample.bob_profile "Alice"))
    = Sample.db.
Proof.
  assert (Hs : submits Sample.trim (Sample.page Sample.bob Sample.bob_profile "Alice")
                 {| id := Sample.bob |} Sample.bob_profile).
  { repeat split; try reflexivity; discriminate. }
  split; [exact Hs|].
  destruct (username_taken_rejected Sample.toLowerCase Sample.trim
              (Sample.page Sample.bob Sample.bob_profile "Alice")
              {| id := Sample.bob |} Sample.bob_profile Sample.alice_profile Hs)
    as (Hm & Hr & Hb & _); [reflexivity | simpl; auto | reflexivity |].
  split; [exact Hm|]. split; [exact Hr | exact Hb].
Defined.

(** bob asks for the free name "Bobby". *)
Lemma username_change_persists_lowercase_witness :
  submits Sample.trim (Sample.page Sample.bob Sample.bob_profile "Bobby")
          {| id := Sample.bob |} Sample.bob_profile /\
  requests (run (handleUsernameChange Sample.toLowerCase Sample.trim)
                (Sample.page Sample.bob Sample.bob_profile "Bobby"))
    = [select_id_eq_username "bobby";
       update_eq_id (patch_username "bobby") Sample.bob] /\
  In (Sample.profile_of Sample.bob "bobby" "Bob")
     (db_profiles
        (backend (run (handleUsernameChange Sample.toLowerCase Sample.trim)
                      (Sample.page Sample.bob Sample.bob_profile "Bobby")))) /\
  profile (run (handleUsernameChange Sample.toLowerCase Sample.trim)
               (Sample.page Sample.bob Sample.bob_profile "Bobby"))
    = Some (Sample.profile_of Sample.bob "bobby" "Bob").
Proof.
  assert (Hs : submits Sample.trim (Sample.page Sample.bob Sample.bob_profile "Bobby")
                 {| id := Sample.bob |} Sample.bob_profile).
  { repeat split; try reflexivity; discriminate. }
  split; [exact Hs|].
  destruct (username_change_persists_lowercase Sample.toLowerCase Sample.trim
              (Sample.page Sample.bob Sample.bob_profile "Bobby")
              {| id := Sample.bob |} Sample.bob_profile Hs)
    as (Hr & _ & Hown & Hp & _).
  - simpl. intros r [<-|[<-|[<-|[]]]]; discriminate.
  - reflexivity.
  - split; [exact Hr|]. split; [|exact Hp].
    apply (Hown eq_refl Sample.bob_profile); [simpl; auto | reflexivity].
Defined.

(** alice asks for "Alice" while she holds "alice". *)
Lemma username_case_change_rejected_witness :
  submits Sample.trim (Sample.page Sample.alice Sample.alice_profile "Alice")
          {| id := Sample.alice |} Sample.alice_profile /\
  Sample.toLowerCase "Alice" = profiles.username Sample.alice_profile /\
  message (run (handleUsernameChange Sample.toLowerCase Sample.trim)
               (Sample.page Sample.alice Sample.alice_profile "Alice"))
    = Some {| type := error; text := "Username already taken." |} /\
  backend (run (handleUsernameChange Sample.toLowerCase Sample.trim)
               (Sample.page Sample.alice Sample.alice_profile "Alice"))
    = Sample.db.
Proof.
  assert (Hs : submits Sample.trim
                 (Sample.page Sample.alice Sample.alice_profile "Alice")
                 {| id := Sample.alice |} Sample.alice_profile).
  { repeat split; try reflexivity; discriminate. }
  split; [exact Hs|]. split; [reflexivity|].
  destruct (username_case_change_rejected Sample.toLowerCase Sample.trim
              (Sample.page Sample.alice Sample.alice_profile "Alice")
              {| id := Sample.alice |} Sample.alice_profile Sample.alice_profile Hs)
    as (_ & Hm & _ & Hb & _);
    [reflexivity | reflexivity | simpl; auto | reflexivity | reflexivity |].
  split; [exact Hm | exact Hb].
Defined.

(** The verification request is the one profile mutation that reads the row
    back: bob's request is followed by a [select('*')] whose row replaces the
    cached profile. *)
Example verification_apply_reads_back :
  requests (run (handleVerificationApply Sample.trim)
                (with_reason "it is me" (Sample.page Sample.bob Sample.bob_profile "")))
    = [update_eq_id (patch_verification_request "it is me") Sample.bob;
       select_all_eq_id Sample.bob]
  /\ profile (run (handleVerificationApply Sample.trim)
                  (with_reason "it is me" (Sample.page Sample.bob Sample.bob_profile "")))
    = Some (apply_patch (patch_verification_request "it is me") Sample.bob_profile).
Proof. split; reflexivity. Qed.

(** * Further properties of the policies *)

(** Reduce the decision over a table's policy list to the USING and WITH
    CHECK tests of the policies declared for the command and role. *)
Ltac rls :=
  unfold permits_update, permits_row, permits_new_row;
  cbn [existsb messages_policies groups_policies group_members_policies
       profiles_policies posts_policies follows_policies storage_objects_policies];
  unfold applies;
  cbn [pol_cmd pol_to command_eqb role_eqb caller_role signed_in no_identity
       andb orb
       Users_can_view_DMs Users_can_view_group_messages Users_can_send_DMs
       Users_can_send_group_messages Users_can_mark_DMs_as_read
       Groups_viewable_by_members Creators_can_create_groups
       Admins_and_creators_can_update_groups Admins_and_creators_can_delete_groups
       Members_viewable_by_self Admins_and_creators_can_insert_members
       Admins_and_creators_can_update_member_roles
       Admins_creators_and_member_can_delete_members
       Public_profiles_are_viewable_by_everyone Users_can_update_own_profile
       Users_can_insert_own_profile
       Posts_are_viewable_by_everyone Users_can_create_own_posts
       Users_can_delete_own_posts
       Follows_are_viewable_by_everyone Users_can_follow_others Users_can_unfollow
       Anyone_can_view_media Users_can_upload Users_can_delete_own];
  rewrite ?orb_false_r, ?andb_true_r.

(** Open one USING or WITH CHECK test into its SQL expression. *)
Ltac open_policy :=
  unfold using_ok, check_ok;
  cbn [pol_using pol_with_check auth_uid signed_in no_identity
       Users_can_view_DMs Users_can_view_group_messages Users_can_send_DMs
       Users_can_send_group_messages Users_can_mark_DMs_as_read
       Groups_viewable_by_members Creators_can_create_groups
       Admins_and_creators_can_update_groups Admins_and_creators_can_delete_groups
       Members_viewable_by_self Admins_and_creators_can_insert_members
       Admins_and_creators_can_update_member_roles
       Admins_creators_and_member_can_delete_members
       Public_profiles_are_viewable_by_everyone Users_can_update_own_profile
       Users_can_insert_own_profile
       Posts_are_viewable_by_everyone Users_can_create_own_posts
       Users_can_delete_own_posts
       Follows_are_viewable_by_everyone Users_can_follow_others Users_can_unfollow
       Anyone_can_view_media Users_can_upload Users_can_delete_own].

Lemma is_true_own (a x : uuid) : is_true (Some a == Some x) = true <-> x = a.
Proof. rewrite is_true_eq3, String.eqb_eq. split; congruence. Qed.

Lemma member_subquery_iff (a g : uuid) (db : database) :
  is_true (exists_ (where_ (fun gm =>
      Some (group_members.group_id gm) == Some g
      AND Some (group_members.user_id gm) == Some a)
    (from_group_members (signed_in a) db))) = true <->
  member_of_group db g a.
Proof.
  change (Some a) with (auth_uid (signed_in a)).
  rewrite is_member_subquery. unfold member_of_group.
  split; intros (gm & H1 & H2 & H3); exists gm; intuition congruence.
Qed.

Lemma admin_subquery_iff (a g : uuid) (db : database) :
  is_true (exists_ (where_ (fun gm =>
      Some (group_members.group_id gm) == Some g
      AND Some (group_members.user_id gm) == Some a
      AND eqb3 (group_members.is_admin gm) TRUE)
    (from_group_members (signed_in a) db))) = true <->
  admin_in_group db g a.
Proof.
  rewrite is_true_exists_where. unfold admin_in_group. split.
  - intros (gm & Hin%from_group_members_incl & Hp).
    rewrite !is_true_and3, !andb_true_iff, !is_true_eq3, !String.eqb_eq,
      is_true_eqb3_TRUE in Hp.
    destruct Hp as [[Hg Hu] Hadm]. exists gm. auto.
  - intros (gm & Hin & Hg & Hu & Hadm). exists gm. split.
    + apply from_group_members_In. now split.
    + rewrite !is_true_and3, !is_true_eq3, Hg, Hu, Hadm. simpl.
      now rewrite !String.eqb_refl.
Qed.

(** ** Who sees a group *)

(** X1. An authenticated caller is shown a group exactly when the caller
    created it or holds a membership row in it; the creator needs no
    membership row. *)
Theorem group_visible_iff_creator_or_member :
  forall (a : uuid) (db : database) (g : groups.row),
    In g (db_groups db) ->
    (In g (visible groups_policies (signed_in a) db (db_groups db)) <->
     groups.creator_id g = Some a \/ member_of_group db (groups.id g) a).
Proof.
  intros a db g Hin. unfold visible. rewrite filter_In. rls. open_policy.
  rewrite is_true_or3, orb_true_iff, member_subquery_iff, eq3_true. split.
  - intros [_ [(s & H1 & [= <-])|H]]; auto.
  - intros [H|H]; split; eauto.
Qed.

Lemma group_visible_iff_creator_or_member_witness :
  In Sample.team_group (db_groups Sample.db) /\
  (In Sample.team_group
      (visible groups_policies (signed_in Sample.carol) Sample.db
               (db_groups Sample.db)) <->
   groups.creator_id Sample.team_group = Some Sample.carol \/
   member_of_group Sample.db (groups.id Sample.team_group) Sample.carol).
Proof.
  assert (Hin : In Sample.team_group (db_groups Sample.db)) by (simpl; auto).
  split; [exact Hin|].
  exact (group_visible_iff_creator_or_member Sample.carol Sample.db
           Sample.team_group Hin).
Defined.

(** ** Sending messages *)

Lemma send_DMs_ok (a : uuid) (db : database) (m : messages.row) :
  check_ok Users_can_send_DMs (signed_in a) db m = true <->
  messages.sender_id m = a /\ messages.group_id m = None.
Proof.
  open_policy. rewrite is_true_and3, andb_true_iff, is_true_own.
  destruct (messages.group_id m); simpl; intuition congruence.
Qed.

Lemma send_group_messages_ok (a : uuid) (db : database) (m : messages.row) :
  check_ok Users_can_send_group_messages (signed_in a) db m = true <->
  messages.sender_id m = a /\
  exists g, messages.group_id m = Some g /\ member_of_group db g a.
Proof.
  open_policy. rewrite !is_true_and3, !andb_true_iff, is_true_own.
  destruct (messages.group_id m) as [g|] eqn:Eg.
  - rewrite member_subquery_iff. simpl. split.
    + intros [[_ Hs] Hm]. eauto.
    + intros [Hs (g' & [= <-] & Hm)]. auto.
  - simpl. split; [intros [[H _] _]; discriminate|].
    intros [_ (g & H & _)]. discriminate.
Qed.

(** X2. An authenticated caller may insert a message exactly when the row
    names the caller as sender and either has no group or names a group the
    caller is a member of: nobody can send in another user's name, and
    nobody can post into a group from outside. *)
Theorem message_insert_iff_own_sender :
  forall (a : uuid) (db : database) (m : messages.row),
    permits_new_row messages_policies INSERT (signed_in a) db m = true <->
    messages.sender_id m = a /\
    (messages.group_id m = None \/
     exists g, messages.group_id m = Some g /\ member_of_group db g a).
Proof.
  intros a db m. rls.
  rewrite orb_true_iff, send_DMs_ok, send_group_messages_ok. tauto.
Qed.

(** X3. Whatever message an authenticated caller may insert, the same caller
    may read back: the SELECT policies let through every row the INSERT
    policies accept. *)
Theorem sendable_message_is_readable :
  forall (a : uuid) (db : database) (m : messages.row),
    permits_new_row messages_policies INSERT (signed_in a) db m = true ->
    permits_row messages_policies SELECT (signed_in a) db m = true.
Proof.
  intros a db m. rls.
  rewrite !orb_true_iff, send_DMs_ok, send_group_messages_ok,
    view_DMs_ok, view_group_messages_ok.
  intros [[Hs Hg]|[Hs (g & Hg & gm & Hin & Hgm & Hu)]].
  - left. auto.
  - right. exists gm. intuition congruence.
Qed.

Lemma sendable_message_is_readable_witness :
  permits_new_row messages_policies INSERT (signed_in Sample.alice)
                  Sample.db Sample.team_msg = true /\
  permits_row messages_policies SELECT (signed_in Sample.alice)
              Sample.db Sample.team_msg = true.
Proof.
  assert (H : permits_new_row messages_policies INSERT (signed_in Sample.alice)
                Sample.db Sample.team_msg = true) by reflexivity.
  split; [exact H|].
  exact (sendable_message_is_readable Sample.alice Sample.db Sample.team_msg H).
Defined.

(** ** Managing members *)

Lemma creator_subquery_iff (a : uuid) (db : database) (row : group_members.row) :
  is_true (is_group_creator (signed_in a) db row) = true <-> created_group db a row.
Proof.
  split.
  - intros H. apply is_group_creator_sound in H as (a' & [= <-] & H). exact H.
  - apply is_group_creator_complete.
Qed.

Lemma admin_row_subquery_iff (a : uuid) (db : database) (row : group_members.row) :
  is_true (is_group_admin (signed_in a) db row) = true <-> admin_of_group db a row.
Proof.
  split.
  - intros H. apply is_group_admin_sound in H as (a' & [= <-] & H). exact H.
  - apply is_group_admin_complete.
Qed.

(** X4. An authenticated caller may insert a membership row exactly when the
    caller created the row's group or administers it, whoever the row is
    for: the creator of a fresh group can add the first members, and nobody
    can join a group on their own. *)
Theorem member_insert_iff_creator_or_admin :
  forall (a : uuid) (db : database) (row : group_members.row),
    permits_new_row group_members_policies INSERT (signed_in a) db row = true <->
    created_group db a row \/ admin_of_group db a row.
Proof.
  intros a db row. rls. open_policy.
  now rewrite is_true_or3, orb_true_iff, creator_subquery_iff, admin_row_subquery_iff.
Qed.

(** X5. An authenticated caller may delete a membership row exactly when it
    is the caller's own row, or the caller created the group or administers
    it: a member can always leave, though the same member cannot update the
    row. *)
Theorem member_delete_iff_self_creator_or_admin :
  forall (a : uuid) (db : database) (row : group_members.row),
    (permits_row group_members_policies DELETE (signed_in a) db row = true <->
     group_members.user_id row = a \/ created_group db a row \/ admin_of_group db a row)
    /\ (group_members.user_id row = a ->
        permits_row group_members_policies DELETE (signed_in a) db row = true
        /\ permits_row group_members_policies UPDATE (signed_in a) db row = false).
Proof.
  intros a db row.
  assert (Hdel : permits_row group_members_policies DELETE (signed_in a) db row = true <->
                 group_members.user_id row = a \/ created_group db a row
                 \/ admin_of_group db a row).
  { rls. open_policy.
    rewrite !is_true_or3, !orb_true_iff, creator_subquery_iff,
      admin_row_subquery_iff, is_true_own. tauto. }
  split; [exact Hdel|]. intros Hself. split; [apply Hdel; auto|].
  rls. open_policy. rewrite is_true_and3, is_true_neq3, Hself, String.eqb_refl.
  apply andb_false_r.
Qed.

Lemma member_delete_iff_self_creator_or_admin_witness :
  group_members.user_id (Sample.member_of Sample.team Sample.bob false) = Sample.bob /\
  permits_row group_members_policies DELETE (signed_in Sample.bob) Sample.db
              (Sample.member_of Sample.team Sample.bob false) = true /\
  permits_row group_members_policies UPDATE (signed_in Sample.bob) Sample.db
              (Sample.member_of Sample.team Sample.bob false) = false.
Proof.
  split; [reflexivity|].
  exact (proj2 (member_delete_iff_self_creator_or_admin Sample.bob Sample.db
                  (Sample.member_of Sample.team Sample.bob false)) eq_refl).
Defined.

(** ** Managing groups *)

Lemma groups_creator_or_admin_iff (a : uuid) (db : database) (g : groups.row) :
  is_true (groups_creator_or_admin (signed_in a) db g) = true <->
  groups.creator_id g = Some a \/ admin_in_group db (groups.id g) a.
Proof.
  unfold groups_creator_or_admin.
  cbn [auth_uid signed_in].
  rewrite is_true_or3, orb_true_iff, admin_subquery_iff, eq3_true. split.
  - intros [(s & [= <-] & H)|H]; auto.
  - intros [H|H]; eauto.
Qed.

(** X6. An authenticated caller may create a group only with the caller as
    its creator, and may update or delete a group exactly when the caller
    is its creator or administers it; an update cannot hand the group to a
    row the caller neither created nor administers. *)
Theorem group_writes_iff_creator_or_admin :
  forall (a : uuid) (db : database) (g new : groups.row),
    (permits_new_row groups_policies INSERT (signed_in a) db g = true <->
     groups.creator_id g = Some a)
    /\ (permits_row groups_policies DELETE (signed_in a) db g = true <->
        groups.creator_id g = Some a \/ admin_in_group db (groups.id g) a)
    /\ (permits_update groups_policies (signed_in a) db g new = true <->
        (groups.creator_id g = Some a \/ admin_in_group db (groups.id g) a) /\
        (groups.creator_id new = Some a \/ admin_in_group db (groups.id new) a)).
Proof.
  intros a db g new. split; [|split].
  - rls. open_policy. rewrite eq3_true. split.
    + intros (s & [= <-] & H). exact H.
    + eauto.
  - rls. open_policy. apply groups_creator_or_admin_iff.
  - rls. open_policy.
    now rewrite andb_true_iff, !groups_creator_or_admin_iff.
Qed.

(** ** Requests without an identity *)

Lemma filter_none {A : Type} (f : A -> bool) (l : list A) :
  (forall x, f x = false) -> filter f l = [].
Proof.
  intros H. induction l as [|x l IH]; [reflexivity|].
  simpl. now rewrite H.
Qed.

Lemma from_group_members_no_identity (r : role) (db : database) :
  from_group_members (no_identity r) db = [].
Proof.
  unfold from_group_members, visible. apply filter_none. intros gm.
  unfold permits_row, using_ok. simpl. now rewrite andb_false_r.
Qed.

Lemma from_groups_no_identity (r : role) (db : database) :
  from_groups (no_identity r) db = [].
Proof.
  unfold from_groups, visible. apply filter_none. intros g.
  unfold permits_row, using_ok.
  cbn [existsb groups_select_policies pol_using Groups_viewable_by_members].
  rewrite from_group_members_no_identity.
  cbn [auth_uid no_identity]. destruct (groups.creator_id g); simpl;
    now rewrite andb_false_r.
Qed.

(** X7. A request whose [auth.uid()] is NULL, under either role, reads no
    message, group or membership row and can write nothing to messages,
    groups, memberships, profiles, posts or follows, although several of
    these policies are declared without [TO authenticated]; and the [anon]
    role can neither upload nor delete media. *)
Theorem no_identity_no_access :
  forall (r : role) (db : database) (m : messages.row) (g : groups.row)
         (gm : group_members.row) (p : profiles.row) (po : posts.row)
         (f : follows.row) (o : storage_objects.row),
    (permits_row messages_policies SELECT (no_identity r) db m = false
     /\ permits_new_row messages_policies INSERT (no_identity r) db m = false
     /\ permits_row messages_policies UPDATE (no_identity r) db m = false
     /\ permits_row messages_policies DELETE (no_identity r) db m = false)
    /\ (permits_row groups_policies SELECT (no_identity r) db g = false
        /\ permits_new_row groups_policies INSERT (no_identity r) db g = false
        /\ permits_row groups_policies UPDATE (no_identity r) db g = false
        /\ permits_row groups_policies DELETE (no_identity r) db g = false)
    /\ (permits_row group_members_policies SELECT (no_identity r) db gm = false
        /\ permits_new_row group_members_policies INSERT (no_identity r) db gm = false
        /\ permits_row group_members_policies UPDATE (no_identity r) db gm = false
        /\ permits_row group_members_policies DELETE (no_identity r) db gm = false)
    /\ (permits_new_row profiles_policies INSERT (no_identity r) db p = false
        /\ permits_row profiles_policies UPDATE (no_identity r) db p = false
        /\ permits_row profiles_policies DELETE (no_identity r) db p = false)
    /\ (permits_new_row posts_policies INSERT (no_identity r) db po = false
        /\ permits_row posts_policies UPDATE (no_identity r) db po = false
        /\ permits_row posts_policies DELETE (no_identity r) db po = false)
    /\ (permits_new_row follows_policies INSERT (no_identity r) db f = false
        /\ permits_row follows_policies UPDATE (no_identity r) db f = false
        /\ permits_row follows_policies DELETE (no_identity r) db f = false)
    /\ (permits_new_row storage_objects_policies INSERT (no_identity anon) db o = false
        /\ permits_row storage_objects_policies DELETE (no_identity anon) db o = false).
Proof.
  intros r db m g gm p po f o.
  assert (Hand : forall b, b && false = false) by apply andb_false_r.
  repeat split; rls; open_policy;
    unfold groups_creator_or_admin, is_group_creator, is_group_admin;
    rewrite ?from_group_members_no_identity, ?from_groups_no_identity;
    cbn [auth_uid no_identity where_ filter exists_ eq3 neq3 and3 or3 is_true];
    rewrite ?Hand; try reflexivity.
  all: destruct r, (messages.group_id m), (groups.creator_id g); reflexivity.
Qed.

(** ** Profiles, posts and follows *)

(** X8. An authenticated caller may update a profile row exactly when the
    row is the caller's own before and after the change, whatever happens
    to its other columns, and may insert only a row under the caller's id;
    no caller at all may delete a profile row, and every caller may read
    every profile. *)
Theorem profile_writes_own_only :
  forall (a : uuid) (c : caller) (db : database) (old new : profiles.row),
    (permits_update profiles_policies (signed_in a) db old new = true <->
     profiles.id old = a /\ profiles.id new = a)
    /\ (permits_new_row profiles_policies INSERT (signed_in a) db new = true <->
        profiles.id new = a)
    /\ permits_row profiles_policies DELETE c db old = false
    /\ permits_row profiles_policies SELECT c db old = true.
Proof.
  intros a c db old new.
  split; [|split; [|split]]; rls; open_policy;
    rewrite ?andb_true_iff, ?is_true_own; tauto || reflexivity.
Qed.

(** X9. Posts and follow edges are written under the caller's own id only:
    an authenticated caller may insert or delete a post exactly when its
    [user_id] is the caller, and a follow edge exactly when its
    [follower_id] is the caller (so the followed user cannot remove a
    follower); no caller may update either kind of row, into whatever new
    row; and every caller may read them. *)
Theorem posts_and_follows_own_only :
  forall (a : uuid) (c : caller) (db : database)
         (po po' : posts.row) (f f' : follows.row),
    ((permits_new_row posts_policies INSERT (signed_in a) db po = true <->
      posts.user_id po = a)
     /\ (permits_row posts_policies DELETE (signed_in a) db po = true <->
         posts.user_id po = a)
     /\ permits_update posts_policies c db po po' = false
     /\ permits_row posts_policies SELECT c db po = true)
    /\ ((permits_new_row follows_policies INSERT (signed_in a) db f = true <->
         follows.follower_id f = a)
        /\ (permits_row follows_policies DELETE (signed_in a) db f = true <->
            follows.follower_id f = a)
        /\ permits_update follows_policies c db f f' = false
        /\ permits_row follows_policies SELECT c db f = true).
Proof.
  intros a c db po po' f f'.
  split; (split; [|split; [|split]]); rls; open_policy;
    rewrite ?is_true_own; tauto || reflexivity.
Qed.

(** ** Uploading media *)

Lemma split_on_not_nil (sep : ascii) (s : string) : split_on sep s <> [].
Proof.
  destruct s as [|ch rest]; simpl; [discriminate|].
  destruct (Ascii.eqb ch sep); [discriminate|].
  destruct (split_on sep rest); discriminate.
Qed.

Lemma split_on_first (a rest : string) :
  slash_free a = true ->
  split_on "/" (a ++ String "/" rest) = a :: split_on "/" rest.
Proof.
  induction a as [|ch a IH]; intros Hfree.
  - reflexivity.
  - cbn [slash_free] in Hfree. apply andb_true_iff in Hfree as [Hch Ha].
    apply negb_true_iff in Hch.
    cbn [append split_on]. now rewrite Hch, (IH Ha).
Qed.

Lemma first_path_segment_in_folder (a : uuid) (file : string) :
  slash_free (uuid_to_text a) = true ->
  first_path_segment (key_in_folder a file) = Some (uuid_to_text a).
Proof.
  intros Hfree. unfold first_path_segment, storage_foldername, key_in_folder.
  assert (E : string_to_array (uuid_to_text a ++ String "/" file) "/"
              = uuid_to_text a :: split_on "/" file).
  { rewrite <- (split_on_first _ _ Hfree). unfold string_to_array.
    now destruct (uuid_to_text a). }
  rewrite E. pose proof (split_on_not_nil "/" file) as Hne.
  cbn [removelast]. destruct (split_on "/" file); [contradiction | reflexivity].
Qed.

(** X10. Upload and delete are not symmetric: any authenticated user may
    upload an object under any key of the [media] bucket, another user's
    folder included, while an object in the folder of user [a] can be
    deleted by [a] and by no other user, the uploader included. *)
Theorem upload_anywhere_delete_own_folder :
  forall (a b : uuid) (db : database) (file : string),
    NoDup (auth_users db) ->
    In a (auth_users db) ->
    In b (auth_users db) ->
    a <> b ->
    slash_free (uuid_to_text a) = true ->
    permits_new_row storage_objects_policies INSERT (signed_in b) db
      {| storage_objects.bucket_id := "media";
         storage_objects.name := key_in_folder a file |} = true
    /\ permits_row storage_objects_policies DELETE (signed_in b) db
         {| storage_objects.bucket_id := "media";
            storage_objects.name := key_in_folder a file |} = false
    /\ permits_row storage_objects_policies DELETE (signed_in a) db
         {| storage_objects.bucket_id := "media";
            storage_objects.name := key_in_folder a file |} = true.
Proof.
  intros a b db file Hnd Ha Hb Hne Hfree. split; [reflexivity|].
  split; rewrite delete_own_permits; rls; open_policy;
    cbn [storage_objects.bucket_id storage_objects.name];
    rewrite is_true_and3, first_path_segment_in_folder,
      auth_user_id_text_signed_in by assumption;
    unfold uuid_to_text; rewrite !is_true_eq3.
  - apply andb_false_intro2, String.eqb_neq. exact Hne.
  - now rewrite !String.eqb_refl.
Qed.

Lemma upload_anywhere_delete_own_folder_witness :
  NoDup (auth_users Sample.db) /\ Sample.alice <> Sample.bob /\
  permits_new_row storage_objects_policies INSERT (signed_in Sample.bob) Sample.db
    {| storage_objects.bucket_id := "media";
       storage_objects.name := key_in_folder Sample.alice "fake.png" |} = true
  /\ permits_row storage_objects_policies DELETE (signed_in Sample.bob) Sample.db
       {| storage_objects.bucket_id := "media";
          storage_objects.name := key_in_folder Sample.alice "fake.png" |} = false
  /\ permits_row storage_objects_policies DELETE (signed_in Sample.alice) Sample.db
       {| storage_objects.bucket_id := "media";
          storage_objects.name := key_in_folder Sample.alice "fake.png" |} = true.
Proof.
  assert (Hnd : NoDup (auth_users Sample.db)).
  { simpl. repeat constructor; simpl; intuition discriminate. }
  assert (Hne : Sample.alice <> Sample.bob) by discriminate.
  split; [exact Hnd|]. split; [exact Hne|].
  apply (upload_anywhere_delete_own_folder Sample.alice Sample.bob Sample.db
           "fake.png" Hnd); [simpl; auto | simpl; auto | exact Hne | reflexivity].
Defined.

(** ** Deletion keeps the references valid *)

Lemma on_delete_set_null_In {R : Type} (col : R -> option uuid) (set_null : R -> R)
      (deleted : list uuid) (rows : list R) (r' : R) :
  In r' (on_delete SET_NULL col set_null deleted rows) <->
  exists r, In r rows /\
            r' = if references deleted (col r) then set_null r else r.
Proof.
  unfold on_delete. rewrite in_map_iff.
  split; intros (r & H1 & H2); exists r; auto.
Qed.

Lemma references_In (deleted : list uuid) (k : uuid) :
  references deleted (Some k) = true <-> In k deleted.
Proof. apply existsb_eqb_In. Qed.

Lemma references_not_In (deleted : list uuid) (k : uuid) :
  references deleted (Some k) = false <-> ~ In k deleted.
Proof. rewrite <- not_true_iff_false. now rewrite references_In. Qed.

(** A key of [keys] that is not among the deleted ones, i.e. other than
    [x], is still a key once the rows keyed [x] are gone. *)
Lemma surviving_key {R : Type} (key : R -> uuid) (rows : list R) (x k : uuid) :
  In k (map key rows) ->
  ~ In k (map key (filter (fun r => String.eqb (key r) x) rows)) ->
  In k (map key (filter (fun r => negb (String.eqb (key r) x)) rows)).
Proof.
  rewrite !in_map_iff. intros (r & Hk & Hin) Hgone.
  exists r. split; [exact Hk|]. apply filter_In. split; [exact Hin|].
  apply negb_true_iff, not_true_iff_false. intros Hx.
  apply Hgone. exists r. split; [exact Hk|]. now apply filter_In.
Qed.

(** What a message of the database after [on_delete] of its reply column
    was before. *)
Lemma reply_nulled_inv (deleted : list uuid) (rows : list messages.row)
      (m' : messages.row) :
  In m' (on_delete messages_reply_to_id_on_delete messages.reply_to_id
                   messages_set_reply_to_null deleted rows) ->
  exists m, In m rows /\
            messages.id m' = messages.id m /\
            messages.sender_id m' = messages.sender_id m /\
            messages.recipient_id m' = messages.recipient_id m /\
            messages.group_id m' = messages.group_id m /\
            (forall k, messages.reply_to_id m' = Some k ->
                       messages.reply_to_id m = Some k /\ ~ In k deleted).
Proof.
  unfold messages_reply_to_id_on_delete. rewrite on_delete_set_null_In.
  intros (m & Hin & ->). exists m. split; [exact Hin|].
  destruct (references deleted (messages.reply_to_id m)) eqn:E;
    (do 4 (split; [reflexivity|])); intros k Hk; [discriminate|].
  split; [exact Hk|]. rewrite Hk in E. now apply references_not_In.
Qed.

Lemma reply_nulled_keeps_ids (deleted : list uuid) (rows : list messages.row) :
  map messages.id
      (on_delete messages_reply_to_id_on_delete messages.reply_to_id
                 messages_set_reply_to_null deleted rows)
  = map messages.id rows.
Proof.
  unfold messages_reply_to_id_on_delete, on_delete. rewrite map_map.
  apply map_ext. intros m.
  now destruct (references deleted (messages.reply_to_id m)).
Qed.

Lemma creator_nulled_keeps_ids (deleted : list uuid) (rows : list groups.row) :
  map groups.id
      (on_delete groups_creator_id_on_delete groups.creator_id
                 groups_set_creator_null deleted rows)
  = map groups.id rows.
Proof.
  unfold groups_creator_id_on_delete, on_delete. rewrite map_map.
  apply map_ext. intros g.
  now destruct (references deleted (groups.creator_id g)).
Qed.

Section DeleteProfileIntegrity.
Variable pid : uuid.
Variable db : database.
Hypothesis sound : referential_integrity db.

Let gone :=
  map profiles.id
      (filter (fun p => String.eqb (profiles.id p) pid) (db_profiles db)).
Let kept :=
  map profiles.id
      (filter (fun p => negb (String.eqb (profiles.id p) pid)) (db_profiles db)).

Lemma kept_key (k : uuid) :
  In k (map profiles.id (db_profiles db)) ->
  references gone (Some k) = false -> In k kept.
Proof.
  intros Hin Href. apply surviving_key; [exact Hin|].
  now apply references_not_In.
Qed.

Lemma delete_profile_message_inv (m' : messages.row) :
  In m' (db_messages (delete_profile pid db)) ->
  exists m, In m (db_messages db) /\
            references gone (Some (messages.sender_id m)) = false /\
            references gone (Some (messages.recipient_id m)) = false /\
            messages.id m' = messages.id m /\
            messages.sender_id m' = messages.sender_id m /\
            messages.recipient_id m' = messages.recipient_id m /\
            messages.group_id m' = messages.group_id m /\
            (forall k, messages.reply_to_id m' = Some k ->
               messages.reply_to_id m = Some k /\
               forall m0, In m0 (db_messages db) -> messages.id m0 = k ->
                 references gone (Some (messages.sender_id m0)) = false /\
                 references gone (Some (messages.recipient_id m0)) = false).
Proof.
  cbn [delete_profile db_messages]. fold gone.
  intros (m & Hin & Hid & Hs & Hr & Hg & Hreply)%reply_nulled_inv.
  unfold messages_recipient_id_on_delete, messages_sender_id_on_delete in Hin.
  rewrite !on_delete_cascade_In in Hin. destruct Hin as [[Hin Hsnd] Hrcp].
  exists m. repeat split; trivial.
  - now apply Hreply.
  - destruct (Hreply k H) as [_ Hk].
    apply not_true_iff_false. intros Hgone. apply Hk.
    apply in_map_iff. exists m0. split; [assumption|].
    apply in_or_app. left.
    unfold messages_sender_id_on_delete, cascaded. now apply filter_In.
  - destruct (Hreply k H) as [_ Hk].
    apply not_true_iff_false. intros Hgone. apply Hk.
    apply in_map_iff. exists m0. split; [assumption|].
    apply in_or_app. right.
    unfold messages_recipient_id_on_delete, cascaded. now apply filter_In.
Qed.

Lemma delete_profile_message_kept (m : messages.row) :
  In m (db_messages db) ->
  references gone (Some (messages.sender_id m)) = false ->
  references gone (Some (messages.recipient_id m)) = false ->
  In (messages.id m) (map messages.id (db_messages (delete_profile pid db))).
Proof.
  intros Hin Hs Hr. cbn [delete_profile db_messages]. fold gone.
  rewrite reply_nulled_keeps_ids. apply in_map.
  unfold messages_recipient_id_on_delete, messages_sender_id_on_delete.
  rewrite !on_delete_cascade_In. auto.
Qed.

Lemma delete_profile_keeps_integrity : referential_integrity (delete_profile pid db).
Proof.
  destruct sound as (Hprof & Hposts & Hfol1 & Hfol2 & Hsnd & Hrcp & Hreply
                     & Hmgrp & Hcreator & Hgmg & Hgmu).
  unfold referential_integrity, refs_in.
  cbn [delete_profile auth_users db_profiles db_posts db_follows db_groups
       db_group_members].
  fold gone. fold kept.
  unfold posts_user_id_on_delete, follows_following_id_on_delete,
    follows_follower_id_on_delete, group_members_user_id_on_delete.
  rewrite creator_nulled_keeps_ids.
  repeat match goal with |- _ /\ _ => split end.
  - intros r k [Hin _]%filter_In Hk. now apply (Hprof r k).
  - intros r k [Hin Href]%on_delete_cascade_In [= <-].
    apply kept_key; [now apply (Hposts r)|exact Href].
  - intros r k [[Hin Href1]%on_delete_cascade_In Href2]%on_delete_cascade_In [= <-].
    apply kept_key; [now apply (Hfol1 r)|exact Href1].
  - intros r k [[Hin Href1]%on_delete_cascade_In Href2]%on_delete_cascade_In [= <-].
    apply kept_key; [now apply (Hfol2 r)|exact Href2].
  - intros m' k (m & Hin & Hs & Hr & _ & Es & _)%delete_profile_message_inv [= <-].
    rewrite Es. apply kept_key; [now apply (Hsnd m)|exact Hs].
  - intros m' k (m & Hin & Hs & Hr & _ & _ & Er & _)%delete_profile_message_inv [= <-].
    rewrite Er. apply kept_key; [now apply (Hrcp m)|exact Hr].
  - intros m' k (m & Hin & _ & _ & _ & _ & _ & _ & Hrep)%delete_profile_message_inv Hk.
    destruct (Hrep k Hk) as [Hk0 Hkept].
    apply (Hreply m k Hin) in Hk0 as Hin0.
    apply in_map_iff in Hin0 as (m0 & Hid0 & Hin0).
    destruct (Hkept m0 Hin0 Hid0) as [Hs0 Hr0].
    rewrite <- Hid0. now apply delete_profile_message_kept.
  - intros m' k (m & Hin & _ & _ & _ & _ & _ & Eg & _)%delete_profile_message_inv Hk.
    rewrite Eg in Hk. now apply (Hmgrp m).
  - unfold groups_creator_id_on_delete.
    intros g' k (g & Hin & ->)%on_delete_set_null_In Hk.
    destruct (references gone (groups.creator_id g)) eqn:E; [discriminate|].
    rewrite Hk in E. apply kept_key; [now apply (Hcreator g)|exact E].
  - intros r k [Hin _]%on_delete_cascade_In Hk. now apply (Hgmg r).
  - intros r k [Hin Href]%on_delete_cascade_In [= <-].
    apply kept_key; [now apply (Hgmu r)|exact Href].
Qed.

End DeleteProfileIntegrity.

(** X11. Deleting a profile keeps the database referentially sound: when
    every foreign key of the six tables points at an existing row before,
    the same holds after the cascade; no post, follow, message, membership
    or group is left pointing at the deleted profile, and no message quotes
    a message that went with it. *)
Theorem delete_profile_preserves_integrity :
  forall (pid : uuid) (db : database),
    referential_integrity db ->
    referential_integrity (delete_profile pid db).
Proof. intros pid db H. now apply delete_profile_keeps_integrity. Qed.

Lemma sample_db_integrity : referential_integrity Sample.db.
Proof.
  unfold referential_integrity, refs_in. simpl.
  repeat match goal with |- _ /\ _ => split end;
    intros r k Hin Hk;
    repeat match goal with
           | H : _ \/ _ |- _ => destruct H as [H|H]
           | H : False |- _ => destruct H
           end;
    subst r; simpl in Hk; try discriminate;
    injection Hk as <-; simpl; auto 6.
Qed.

Lemma delete_profile_preserves_integrity_witness :
  referential_integrity Sample.db /\
  referential_integrity (delete_profile Sample.alice Sample.db).
Proof.
  split; [exact sample_db_integrity|].
  exact (delete_profile_preserves_integrity Sample.alice Sample.db
           sample_db_integrity).
Defined.

(** ** Deleting a group *)

Section DeleteGroup.
Variable gid : uuid.
Variable db : database.

Let gone :=
  map groups.id (filter (fun g => String.eqb (groups.id g) gid) (db_groups db)).

Lemma delete_group_message_inv (m' : messages.row) :
  In m' (db_messages (delete_group gid db)) ->
  exists m, In m (db_messages db) /\
            references gone (messages.group_id m) = false /\
            messages.id m' = messages.id m /\
            messages.sender_id m' = messages.sender_id m /\
            messages.recipient_id m' = messages.recipient_id m /\
            messages.group_id m' = messages.group_id m /\
            (forall k, messages.reply_to_id m' = Some k ->
               messages.reply_to_id m = Some k /\
               forall m0, In m0 (db_messages db) -> messages.id m0 = k ->
                          references gone (messages.group_id m0) = false).
Proof.
  cbn [delete_group db_messages]. fold gone.
  intros (m & Hin & Hid & Hs & Hr & Hg & Hreply)%reply_nulled_inv.
  unfold messages_group_id_on_delete in Hin.
  rewrite on_delete_cascade_In in Hin. destruct Hin as [Hin Hgrp].
  exists m. do 6 (split; [assumption|]).
  intros k Hk. destruct (Hreply k Hk) as [Hk0 Hkept]. split; [exact Hk0|].
  intros m0 Hin0 Hid0. apply not_true_iff_false. intros Hgone. apply Hkept.
  apply in_map_iff. exists m0. split; [assumption|].
  unfold messages_group_id_on_delete, cascaded. now apply filter_In.
Qed.

Lemma delete_group_message_kept (m : messages.row) :
  In m (db_messages db) ->
  references gone (messages.group_id m) = false ->
  In (messages.id m) (map messages.id (db_messages (delete_group gid db))).
Proof.
  intros Hin Hg. cbn [delete_group db_messages]. fold gone.
  rewrite reply_nulled_keeps_ids. apply in_map.
  unfold messages_group_id_on_delete. now rewrite on_delete_cascade_In.
Qed.

Lemma gone_group (k : uuid) : In k gone -> k = gid.
Proof.
  unfold gone. intros (g & <- & Hg%filter_In)%in_map_iff.
  now apply String.eqb_eq.
Qed.

End DeleteGroup.

(** X12. Deleting an existing group removes the group, every message sent
    to it and every membership row of it; every direct message stays,
    at most with its [reply_to_id] set to NULL, and so does every membership
    row of another group; profiles, posts and follows are not touched. *)
Theorem delete_group_cascades :
  forall (db : database) (g : groups.row),
    In g (db_groups db) ->
    Forall (fun m => messages.group_id m <> Some (groups.id g))
           (db_messages (delete_group (groups.id g) db))
    /\ (forall m, In m (db_messages db) -> messages.group_id m = None ->
                  In m (db_messages (delete_group (groups.id g) db)) \/
                  In (messages_set_reply_to_null m)
                     (db_messages (delete_group (groups.id g) db)))
    /\ (forall r, In r (db_group_members (delete_group (groups.id g) db)) <->
                  In r (db_group_members db) /\
                  group_members.group_id r <> groups.id g)
    /\ (forall g', In g' (db_groups (delete_group (groups.id g) db)) <->
                   In g' (db_groups db) /\ groups.id g' <> groups.id g)
    /\ db_profiles (delete_group (groups.id g) db) = db_profiles db
    /\ db_posts (delete_group (groups.id g) db) = db_posts db
    /\ db_follows (delete_group (groups.id g) db) = db_follows db.
Proof.
  intros db g Hin.
  assert (Hgone : forall k,
    references (map groups.id
                  (filter (fun g' => String.eqb (groups.id g') (groups.id g))
                          (db_groups db))) (Some k) = true <-> k = groups.id g).
  { intros k. rewrite references_In. split; [apply gone_group|].
    intros ->. apply in_map. apply filter_In. split; [exact Hin|].
    apply String.eqb_refl. }
  split; [|split; [|split; [|split; [|repeat split]]]].
  - apply Forall_forall. intros m' (m & _ & Hg & _ & _ & _ & Eg & _)%delete_group_message_inv.
    rewrite Eg. intros E. rewrite E in Hg.
    apply not_true_iff_false in Hg. apply Hg. now apply Hgone.
  - intros m Hm Hnone. cbn [delete_group db_messages].
    unfold messages_reply_to_id_on_delete, messages_group_id_on_delete.
    assert (Hkept : In m (on_delete CASCADE messages.group_id (fun r => r)
                            (map groups.id
                               (filter (fun g' => String.eqb (groups.id g') (groups.id g))
                                       (db_groups db)))
                            (db_messages db)))
      by (apply on_delete_cascade_In; split; [exact Hm | now rewrite Hnone]).
    match goal with
    | |- In m (on_delete SET_NULL _ _ ?d ?rows) \/ _ =>
        destruct (references d (messages.reply_to_id m)) eqn:E;
        [right|left]; apply on_delete_set_null_In; exists m;
        (split; [exact Hkept | now rewrite E])
    end.
  - intros r. cbn [delete_group db_group_members].
    unfold group_members_group_id_on_delete.
    rewrite on_delete_cascade_In, <- not_true_iff_false, Hgone. tauto.
  - intros g'. cbn [delete_group db_groups].
    rewrite filter_In, negb_true_iff, String.eqb_neq. tauto.
Qed.

Lemma delete_group_cascades_witness :
  In Sample.team_group (db_groups Sample.db) /\
  db_messages (delete_group Sample.team Sample.db) = [Sample.dm; Sample.dm_reply] /\
  db_group_members (delete_group Sample.team Sample.db) = [] /\
  Forall (fun m => messages.group_id m <> Some Sample.team)
         (db_messages (delete_group Sample.team Sample.db)).
Proof.
  assert (Hin : In Sample.team_group (db_groups Sample.db)) by (simpl; auto).
  split; [exact Hin|]. split; [reflexivity|]. split; [reflexivity|].
  apply (delete_group_cascades Sample.db Sample.team_group Hin).
Defined.

(** X13. Deleting a group keeps the database referentially sound: no message
    or membership row is left pointing at the deleted group, and no
    surviving message quotes a message that went with it. *)
Theorem delete_group_preserves_integrity :
  forall (gid : uuid) (db : database),
    referential_integrity db ->
    referential_integrity (delete_group gid db).
Proof.
  intros gid db (Hprof & Hposts & Hfol1 & Hfol2 & Hsnd & Hrcp & Hreply
                 & Hmgrp & Hcreator & Hgmg & Hgmu).
  unfold referential_integrity, refs_in.
  cbn [delete_group auth_users db_profiles db_posts db_follows db_groups
       db_group_members].
  unfold group_members_group_id_on_delete.
  repeat match goal with |- _ /\ _ => split end; trivial.
  - intros m' k (m & Hin & _ & _ & Es & _)%delete_group_message_inv [= <-].
    rewrite Es. now apply (Hsnd m).
  - intros m' k (m & Hin & _ & _ & _ & Er & _)%delete_group_message_inv [= <-].
    rewrite Er. now apply (Hrcp m).
  - intros m' k (m & Hin & _ & _ & _ & _ & _ & Hrep)%delete_group_message_inv Hk.
    destruct (Hrep k Hk) as [Hk0 Hkept].
    apply (Hreply m k Hin) in Hk0 as Hin0.
    apply in_map_iff in Hin0 as (m0 & Hid0 & Hin0).
    rewrite <- Hid0. apply delete_group_message_kept; [exact Hin0|].
    now apply (Hkept m0).
  - intros m' k (m & Hin & Hg & _ & _ & _ & Eg & _)%delete_group_message_inv Hk.
    rewrite Eg in Hk. rewrite Hk in Hg.
    apply surviving_key; [now apply (Hmgrp m)|].
    now apply references_not_In.
  - intros g k [Hin _]%filter_In Hk. now apply (Hcreator g).
  - intros r k [Hin Href]%on_delete_cascade_In [= <-].
    apply surviving_key; [now apply (Hgmg r)|].
    now apply references_not_In.
  - intros r k [Hin _]%on_delete_cascade_In Hk. now apply (Hgmu r).
Qed.

Lemma delete_group_preserves_integrity_witness :
  referential_integrity Sample.db /\
  referential_integrity (delete_group Sample.team Sample.db).
Proof.
  split; [exact sample_db_integrity|].
  exact (delete_group_preserves_integrity Sample.team Sample.db
           sample_db_integrity).
Defined.

(** ** A group whose creator is gone *)

Lemma groups_creator_or_admin_sound (c : caller) (db : database) (g : groups.row) :
  is_true (groups_creator_or_admin c db g) = true ->
  exists a, auth_uid c = Some a /\
            (groups.creator_id g = Some a \/ admin_in_group db (groups.id g) a).
Proof.
  unfold groups_creator_or_admin.
  rewrite is_true_or3, orb_true_iff, eq3_true, is_true_exists_where.
  intros [(a & Hc & Hg)|(gm & Hin%from_group_members_incl & Hp)].
  - exists a. auto.
  - rewrite !is_true_and3, !andb_true_iff, is_true_eq3, String.eqb_eq,
      eq3_true, is_true_eqb3_TRUE in Hp.
    destruct Hp as [[Hg (a & [= Hu] & Ha)] Hadm].
    exists a. split; [assumption|]. right. exists gm. auto.
Qed.

Lemma key_determines_row {R : Type} (key : R -> uuid) (rows : list R) (x y : R) :
  NoDup (map key rows) -> In x rows -> In y rows -> key x = key y -> x = y.
Proof.
  induction rows as [|r rows IH]; [intros _ []|].
  cbn [map]. intros Hnd Hx Hy Hk. inversion Hnd as [|? ? Hnotin Hnd']; subst.
  destruct Hx as [->|Hx], Hy as [->|Hy]; trivial.
  - exfalso. apply Hnotin. rewrite Hk. now apply in_map.
  - exfalso. apply Hnotin. rewrite <- Hk. now apply in_map.
  - now apply IH.
Qed.

(** X14. Deleting the profile that created a group can leave the group
    without anyone to manage it: when the creator was its only admin, then
    after the cascade (creator set to NULL, the creator's membership gone)
    the group is still there, and no caller whatsoever may update or delete
    it, add a member to it or change a member's role. *)
Theorem group_orphaned_by_creator_deletion :
  forall (db : database) (p : profiles.row) (g new : groups.row)
         (c : caller) (row new_row : group_members.row),
    In p (db_profiles db) ->
    In g (db_groups db) ->
    NoDup (map groups.id (db_groups db)) ->
    groups.creator_id g = Some (profiles.id p) ->
    (forall gm, In gm (db_group_members db) ->
                group_members.group_id gm = groups.id g ->
                group_members.is_admin gm = Some true ->
                group_members.user_id gm = profiles.id p) ->
    group_members.group_id row = groups.id g ->
    In (groups_set_creator_null g) (db_groups (delete_profile (profiles.id p) db))
    /\ permits_update groups_policies c (delete_profile (profiles.id p) db)
                      (groups_set_creator_null g) new = false
    /\ permits_row groups_policies DELETE c (delete_profile (profiles.id p) db)
                   (groups_set_creator_null g) = false
    /\ permits_new_row group_members_policies INSERT c
                       (delete_profile (profiles.id p) db) row = false
    /\ permits_update group_members_policies c
                      (delete_profile (profiles.id p) db) row new_row = false.
Proof.
  intros db p g new c row new_row Hp Hg Hnd Hcreator Hadmins Hrow.
  pose proof (delete_profile_groups db p Hp) as Hgroups.
  assert (Hstill : In (groups_set_creator_null g)
                      (db_groups (delete_profile (profiles.id p) db))).
  { rewrite Hgroups. apply in_map_iff. exists g. split; [|exact Hg].
    now rewrite Hcreator, String.eqb_refl. }
  assert (Hno_admin : forall a k, k = groups.id g ->
            ~ admin_in_group (delete_profile (profiles.id p) db) k a).
  { intros a k -> (gm & Hin & Hgm & Hu & Hadm).
    apply (delete_profile_group_members db p Hp) in Hin as [Hin Hne].
    apply Hne. now apply Hadmins. }
  assert (Hno_creator : forall a,
            ~ created_group (delete_profile (profiles.id p) db) a row).
  { intros a (g2 & Hin2 & Hid2 & Hc2).
    rewrite Hgroups in Hin2. apply in_map_iff in Hin2 as (g0 & <- & Hin0).
    assert (g0 = g).
    { apply (key_determines_row groups.id (db_groups db)); trivial.
      rewrite <- Hrow, <- Hid2.
      destruct (groups.creator_id g0) as [k|]; [|reflexivity].
      now destruct (String.eqb k (profiles.id p)). }
    subst g0. rewrite Hcreator, String.eqb_refl in Hc2. discriminate. }
  assert (Hgroup : is_true (groups_creator_or_admin c
                     (delete_profile (profiles.id p) db)
                     (groups_set_creator_null g)) = false).
  { apply not_true_iff_false.
    intros (a & _ & [H|H])%groups_creator_or_admin_sound; [discriminate|].
    now apply (Hno_admin a (groups.id g)). }
  assert (Hmember : is_true (is_group_creator c (delete_profile (profiles.id p) db) row
                             OR is_group_admin c (delete_profile (profiles.id p) db) row)
                    = false).
  { rewrite is_true_or3. apply orb_false_iff. split; apply not_true_iff_false.
    - intros (a & _ & H)%is_group_creator_sound. now apply (Hno_creator a).
    - intros (a & _ & (gm & H1 & H2 & H3 & H4))%is_group_admin_sound.
      apply (Hno_admin a (groups.id g) eq_refl). exists gm.
      repeat split; trivial. congruence. }
  split; [exact Hstill|].
  split; [|split; [|split]]; rls; open_policy;
    rewrite ?is_true_and3, ?Hgroup, ?Hmember, ?andb_false_r; reflexivity.
Qed.

Lemma group_orphaned_by_creator_deletion_witness :
  In Sample.alice_profile (db_profiles Sample.db) /\
  groups.creator_id Sample.team_group = Some Sample.alice /\
  In (groups_set_creator_null Sample.team_group)
     (db_groups (delete_profile Sample.alice Sample.db)) /\
  permits_row groups_policies DELETE (signed_in Sample.bob)
              (delete_profile Sample.alice Sample.db)
              (groups_set_creator_null Sample.team_group) = false /\
  permits_new_row group_members_policies INSERT (signed_in Sample.bob)
                  (delete_profile Sample.alice Sample.db)
                  (Sample.member_of Sample.team Sample.carol false) = false.
Proof.
  assert (Hp : In Sample.alice_profile (db_profiles Sample.db)) by (simpl; auto).
  split; [exact Hp|]. split; [reflexivity|].
  destruct (group_orphaned_by_creator_deletion Sample.db Sample.alice_profile
              Sample.team_group Sample.team_group (signed_in Sample.bob)
              (Sample.member_of Sample.team Sample.carol false)
              (Sample.member_of Sample.team Sample.carol true) Hp)
    as (H1 & _ & H3 & H4 & _).
  - simpl; auto.
  - simpl. repeat constructor. simpl. tauto.
  - reflexivity.
  - simpl. intros gm [<-|[<-|[]]] _ Hadm; [reflexivity | discriminate].
  - reflexivity.
  - split; [exact H1|]. split; [exact H3 | exact H4].
Defined.

(** * Further properties of the settings page *)

(** ** What an UPDATE of a profile does *)

Lemma update_check_passes (c : caller) (pt : patch) (v : uuid) (db : database)
      (r : profiles.row) :
  update_reaches c v db r = true ->
  permits_new_row profiles_policies UPDATE c db (apply_patch pt r) = true.
Proof.
  unfold update_reaches. rewrite !andb_true_iff. intros [_ H]. revert H.
  rls. open_policy. cbn [profiles.id apply_patch]. trivial.
Qed.

Lemma update_succeeds (c : caller) (pt : patch) (v : uuid) (db : database) :
  usernames_unique
    (map (fun r => if update_reaches c v db r then apply_patch pt r else r)
         (db_profiles db)) = true ->
  profiles_update_by_id c pt v db =
  (with_profiles
     (map (fun r => if update_reaches c v db r then apply_patch pt r else r)
          (db_profiles db)) db, None).
Proof.
  intros Hu. unfold profiles_update_by_id.
  replace (forallb _ (db_profiles db)) with true.
  - cbn [negb]. now rewrite Hu.
  - symmetry. apply forallb_forall. intros r _.
    destruct (update_reaches c v db r) eqn:E; [|reflexivity].
    cbn [negb orb]. now apply (update_check_passes c pt v).
Qed.

Lemma update_reaches_id (c : caller) (v : uuid) (db : database) (r : profiles.row) :
  update_reaches c v db r = true -> profiles.id r = v /\ auth_uid c = Some v.
Proof.
  unfold update_reaches. rewrite !andb_true_iff. intros [[Hid _] H].
  apply String.eqb_eq in Hid. split; [exact Hid|]. revert H.
  rls. open_policy. rewrite andb_true_iff, eq3_true.
  intros [_ (s & Hc & [= E])]. now rewrite Hc, <- E, Hid.
Qed.

Lemma patched_usernames (reach : profiles.row -> bool) (pt : patch)
      (rows : list profiles.row) :
  keeps_username pt = true ->
  map profiles.username (map (fun r => if reach r then apply_patch pt r else r) rows)
  = map profiles.username rows.
Proof.
  intros Hk. rewrite map_map. apply map_ext. intros r.
  destruct (reach r); [|reflexivity]. now destruct pt.
Qed.

Lemma unreached_rows (reach : profiles.row -> bool) (pt : patch)
      (rows : list profiles.row) :
  (forall r, In r rows -> reach r = false) ->
  map (fun r => if reach r then apply_patch pt r else r) rows = rows.
Proof.
  intros H. induction rows as [|r rows IH]; [reflexivity|].
  cbn [map]. rewrite (H r) by now left. f_equal.
  apply IH. intros r' Hr'. apply H. now right.
Qed.


Lemma filter_none_in {A : Type} (f : A -> bool) (l : list A) :
  (forall x, In x l -> f x = false) -> filter f l = [].
Proof.
  induction l as [|x l IH]; [reflexivity|]. intros H.
  cbn [filter]. rewrite (H x) by now left.
  apply IH. intros y Hy. apply H. now right.
Qed.

Lemma where_key_row {R : Type} (key : R -> uuid) (rows : list R) (r : R) :
  NoDup (map key rows) -> In r rows ->
  where_ (fun x => Some (key x) == Some (key r)) rows = [r].
Proof.
  unfold where_. induction rows as [|q rows IH]; [intros _ []|].
  cbn [map]. intros Hnd Hin. inversion Hnd as [|? ? Hnotin Hnd']; subst.
  cbn [filter]. rewrite is_true_eq3.
  destruct Hin as [->|Hin].
  - rewrite String.eqb_refl. f_equal. apply filter_none_in. intros x Hx.
    rewrite is_true_eq3. apply String.eqb_neq. intros E.
    apply Hnotin. rewrite <- E. now apply in_map.
  - destruct (String.eqb_spec (key q) (key r)) as [E|_].
    + exfalso. apply Hnotin. rewrite E. now apply in_map.
    + now apply IH.
Qed.

Lemma patched_ids (reach : profiles.row -> bool) (pt : patch)
      (rows : list profiles.row) :
  map profiles.id (map (fun r => if reach r then apply_patch pt r else r) rows)
  = map profiles.id rows.
Proof.
  rewrite map_map. apply map_ext. intros r. now destruct (reach r).
Qed.

(** ** Guards *)

(** X15. Each profile handler returns at once, sending nothing and changing
    nothing on the page, when its guard does not hold: the username handler
    unless a signed-in user with a cached profile submits a non-blank name
    other than the cached one, the theme handler without a user or a cached
    profile, the verification handler without a user or with a blank
    reason. *)
Theorem guarded_handlers_are_silent :
  forall (toLowerCase trim : string -> string) (newTheme : string) (s : state),
    ((forall u p, ~ submits trim s u p) ->
     run (handleUsernameChange toLowerCase trim) s = s)
    /\ (user s = None \/ profile s = None \/
        (exists u, user s = Some u /\ id u = "") ->
        run (handleThemeChange newTheme) s = s)
    /\ (user s = None \/ (exists u, user s = Some u /\ id u = "") \/
        trim (reason s) = "" ->
        run (handleVerificationApply trim) s = s).
Proof.
  intros toLowerCase trim newTheme s. split; [|split].
  - intros Hno. unfold run, handleUsernameChange, bind, read.
    destruct (user s) as [u|] eqn:Eu; [|reflexivity].
    destruct (profile s) as [p|] eqn:Ep; [|reflexivity].
    destruct (falsy (id u) || String.eqb (newUsername s) (profiles.username p)
              || falsy (trim (newUsername s))) eqn:G; [reflexivity|].
    exfalso. apply (Hno u p).
    apply orb_false_iff in G as [G Gt]. apply orb_false_iff in G as [Gi Gn].
    unfold falsy in Gi, Gt.
    repeat split; trivial; now apply String.eqb_neq.
  - unfold run, handleThemeChange, bind, read.
    intros [->|[Hp|(u & -> & Hid)]]; [reflexivity| |].
    + rewrite Hp. now destruct (user s).
    + destruct (profile s); [|reflexivity]. unfold falsy. now rewrite Hid.
  - unfold run, handleVerificationApply, bind, read.
    intros [->|[(u & -> & Hid)|Ht]]; [reflexivity| |].
    + unfold falsy. now rewrite Hid.
    + destruct (user s); [|reflexivity]. unfold falsy at 2.
      now rewrite Ht, orb_true_r.
Qed.

Lemma guarded_handlers_are_silent_witness :
  (forall u p, ~ submits Sample.trim
                 (Sample.page Sample.bob Sample.bob_profile "   ") u p) /\
  run (handleUsernameChange Sample.toLowerCase Sample.trim)
      (Sample.page Sample.bob Sample.bob_profile "   ")
  = Sample.page Sample.bob Sample.bob_profile "   ".
Proof.
  assert (H : forall u p, ~ submits Sample.trim
                (Sample.page Sample.bob Sample.bob_profile "   ") u p).
  { intros u p (_ & _ & _ & _ & Ht). now apply Ht. }
  split; [exact H|].
  exact (proj1 (guarded_handlers_are_silent Sample.toLowerCase Sample.trim
                  "lt-dark" (Sample.page Sample.bob Sample.bob_profile "   ")) H).
Defined.

(** ** The username change as a whole *)




(** X17. The handler trusts an UPDATE that reports no error: when the
    requests do not run as the user of the page (another or no session), the
    UPDATE reaches no row and still comes back without an error, so the
    page shows "Username updated!" and caches the new name while no row of
    the backend carries it. *)
Theorem username_change_unreached_reports_success :
  forall (toLowerCase trim : string -> string) (s : state) (u : User)
         (p : profiles.row),
    submits trim s u p ->
    auth_uid (session s) <> Some (id u) ->
    usernames_unique (db_profiles (backend s)) = true ->
    (forall r, In r (db_profiles (backend s)) ->
               profiles.username r <> toLowerCase (newUsername s)) ->
    let s' := run (handleUsernameChange toLowerCase trim) s in
    message s' = Some {| type := success; text := "Username updated!" |}
    /\ (exists p', profile s' = Some p' /\
                   profiles.username p' = toLowerCase (newUsername s))
    /\ db_profiles (backend s') = db_profiles (backend s)
    /\ (forall r, In r (db_profiles (backend s')) ->
                  profiles.username r <> toLowerCase (newUsername s)).
Proof.
  intros toLowerCase trim s u p Hs Hsession Huniq Hfree s'. subst s'.
  assert (Hrows : map (fun r => if update_reaches (session s) (id u) (backend s) r
                                then apply_patch
                                       (patch_username (toLowerCase (newUsername s))) r
                                else r)
                      (db_profiles (backend s)) = db_profiles (backend s)).
  { apply unreached_rows. intros r _. apply not_true_iff_false.
    intros [_ H]%update_reaches_id. now apply Hsession. }
  pose proof (update_succeeds (session s)
                (patch_username (toLowerCase (newUsername s))) (id u) (backend s))
    as Hup.
  rewrite Hrows in Hup. specialize (Hup Huniq).
  rewrite (handleUsernameChange_free toLowerCase trim s u p Hs)
    by (try apply precheck_misses; trivial; now rewrite Hup).
  rewrite Hup.
  cbn [fst message backend profile with_timer with_newUsername with_message
       with_profile with_loading with_backend db_profiles with_profiles].
  repeat split; trivial. eexists. split; reflexivity.
Qed.

Lemma username_change_unreached_reports_success_witness :
  submits Sample.trim (Scenario.signed_out_page "Bobby")
          {| id := Sample.bob |} Sample.bob_profile /\
  auth_uid (session (Scenario.signed_out_page "Bobby")) <> Some Sample.bob /\
  message (run (handleUsernameChange Sample.toLowerCase Sample.trim)
               (Scenario.signed_out_page "Bobby"))
    = Some {| type := success; text := "Username updated!" |} /\
  db_profiles (backend (run (handleUsernameChange Sample.toLowerCase Sample.trim)
                            (Scenario.signed_out_page "Bobby")))
    = db_profiles Sample.db.
Proof.
  assert (Hs : submits Sample.trim (Scenario.signed_out_page "Bobby")
                 {| id := Sample.bob |} Sample.bob_profile).
  { repeat split; try reflexivity; discriminate. }
  assert (Hc : auth_uid (session (Scenario.signed_out_page "Bobby")) <> Some Sample.bob)
    by discriminate.
  split; [exact Hs|]. split; [exact Hc|].
  destruct (username_change_unreached_reports_success Sample.toLowerCase Sample.trim
              (Scenario.signed_out_page "Bobby") {| id := Sample.bob |}
              Sample.bob_profile Hs Hc) as (Hm & _ & Hdb & _).
  - reflexivity.
  - simpl. intros r [<-|[<-|[<-|[]]]]; discriminate.
  - split; [exact Hm | exact Hdb].
Defined.

(** ** Theme and verification *)

Lemma other_patch_succeeds (c : caller) (pt : patch) (v : string) (db : database) :
  keeps_username pt = true ->
  usernames_unique (db_profiles db) = true ->
  profiles_update_by_id c pt v db =
  (with_profiles
     (map (fun r => if update_reaches c v db r then apply_patch pt r else r)
          (db_profiles db)) db, None).
Proof.
  intros Hk Hu. apply update_succeeds.
  unfold usernames_unique. now rewrite patched_usernames.
Qed.

Lemma handleThemeChange_runs (newTheme : string) (s : state) (u : User)
      (p : profiles.row) (db' : database) :
  user s = Some u -> id u <> "" -> profile s = Some p ->
  profiles_update_by_id (session s) (patch_theme newTheme) (id u) (backend s)
    = (db', None) ->
  run (handleThemeChange newTheme) s =
  with_timer (clear_message, 3000)
    (with_message (Some {| type := success; text := "Theme updated!" |})
       (with_profile (Some (apply_patch (patch_theme newTheme) p))
          (with_loading false
             (with_backend db' (update_eq_id (patch_theme newTheme) (id u))
                (with_loading true s))))).
Proof.
  intros Hu Hid Hp Hup.
  unfold run, handleThemeChange, bind, read. rewrite Hu, Hp.
  unfold falsy. rewrite (proj2 (String.eqb_neq _ _) Hid).
  unfold supabase_update_eq_id, setLoading, write.
  cbn [session backend with_loading]. now rewrite Hup.
Qed.

(** X18. A theme change by a signed-in user with a cached profile sends one
    UPDATE of [theme] and nothing else, cannot fail on a table with distinct
    usernames, leaves every username and every other user's row as it was,
    and patches the cached profile in its [theme] only; under the user's own
    session the user's row carries the new theme. *)
Theorem theme_change_updates_theme_only :
  forall (newTheme : string) (s : state) (u : User) (p : profiles.row),
    user s = Some u -> id u <> "" -> profile s = Some p ->
    usernames_unique (db_profiles (backend s)) = true ->
    let s' := run (handleThemeChange newTheme) s in
    message s' = Some {| type := success; text := "Theme updated!" |}
    /\ requests s' = (requests s ++ [update_eq_id (patch_theme newTheme) (id u)])%list
    /\ profile s' = Some (apply_patch (patch_theme newTheme) p)
    /\ map profiles.username (db_profiles (backend s'))
       = map profiles.username (db_profiles (backend s))
    /\ (forall r, In r (db_profiles (backend s)) -> profiles.id r <> id u ->
                  In r (db_profiles (backend s')))
    /\ (session s = signed_in (id u) ->
        forall r, In r (db_profiles (backend s)) -> profiles.id r = id u ->
                  In (apply_patch (patch_theme newTheme) r)
                     (db_profiles (backend s')))
    /\ loading s' = false
    /\ newUsername s' = newUsername s.
Proof.
  intros newTheme s u p Hu Hid Hp Huniq s'. subst s'.
  rewrite (handleThemeChange_runs newTheme s u p _ Hu Hid Hp
             (other_patch_succeeds (session s) (patch_theme newTheme) (id u)
                                   (backend s) eq_refl Huniq)).
  cbn [message requests profile backend loading newUsername with_timer
       with_message with_profile with_loading with_backend db_profiles
       with_profiles].
  split; [reflexivity|]. split; [reflexivity|]. split; [reflexivity|].
  split; [now apply patched_usernames|]. split; [|split; [|split; reflexivity]].
  - intros r Hin Hne. apply in_map_iff. exists r. split; [|exact Hin].
    destruct (update_reaches _ _ _ r) eqn:E; [|reflexivity].
    now apply update_reaches_id in E as [E _].
  - intros Hsession r Hin Hr. apply in_map_iff. exists r. split; [|exact Hin].
    now rewrite Hsession, update_reaches_own_row.
Qed.

Lemma theme_change_updates_theme_only_witness :
  id {| id := Sample.bob |} <> "" /\
  usernames_unique (db_profiles Sample.db) = true /\
  message (run (handleThemeChange "lt-dark")
               (Sample.page Sample.bob Sample.bob_profile ""))
    = Some {| type := success; text := "Theme updated!" |} /\
  profile (run (handleThemeChange "lt-dark")
               (Sample.page Sample.bob Sample.bob_profile ""))
    = Some (apply_patch (patch_theme "lt-dark") Sample.bob_profile).
Proof.
  assert (Hid : id {| id := Sample.bob |} <> "") by discriminate.
  split; [exact Hid|]. split; [reflexivity|].
  destruct (theme_change_updates_theme_only "lt-dark"
              (Sample.page Sample.bob Sample.bob_profile "")
              {| id := Sample.bob |} Sample.bob_profile eq_refl Hid eq_refl eq_refl)
    as (Hm & _ & Hp & _).
  split; [exact Hm | exact Hp].
Defined.

Lemma handleVerificationApply_runs (trim : string -> string) (s : state) (u : User)
      (db' : database) :
  user s = Some u -> id u <> "" -> trim (reason s) <> "" ->
  profiles_update_by_id (session s) (patch_verification_request (reason s))
                        (id u) (backend s) = (db', None) ->
  run (handleVerificationApply trim) s =
  with_timer (clear_message, 3000)
    ((match profiles_select_by_id (session s) (id u) db' with
      | Some data => with_profile (Some data)
      | None => fun c => c
      end)
       (with_backend db' (select_all_eq_id (id u))
          (with_reason ""
             (with_showApply false
                (with_message
                   (Some {| type := success;
                            text := "Verification request submitted!" |})
                   (with_loading false
                      (with_backend db'
                         (update_eq_id (patch_verification_request (reason s)) (id u))
                         (with_loading true s)))))))).
Proof.
  intros Hu Hid Ht Hup.
  unfold run, handleVerificationApply, bind, read. rewrite Hu.
  unfold falsy. rewrite (proj2 (String.eqb_neq _ _) Hid),
    (proj2 (String.eqb_neq _ _) Ht).
  unfold supabase_update_eq_id, supabase_select_all_eq_id, setLoading,
    setMessage, setShowApply, setReason, write.
  cbn [orb session backend with_loading with_message with_showApply
       with_reason with_backend].
  rewrite Hup.
  cbn [session backend with_loading with_message with_showApply
       with_reason with_backend].
  now destruct (profiles_select_by_id (session s) (id u) db').
Qed.

(** X19. A verification request with a non-blank reason, sent under the
    user's own session on a table that meets its constraints, writes the
    reason into the user's row and then replaces the cached profile by that
    row as the backend holds it, whatever the cache held before; the form is
    closed and emptied, and unless the profile is already verified the page
    then shows the request as pending. *)
Theorem verification_apply_reads_back_row :
  forall (trim : string -> string) (s : state) (u : User) (r : profiles.row),
    user s = Some u -> id u <> "" -> trim (reason s) <> "" ->
    session s = signed_in (id u) ->
    usernames_unique (db_profiles (backend s)) = true ->
    NoDup (map profiles.id (db_profiles (backend s))) ->
    In r (db_profiles (backend s)) ->
    profiles.id r = id u ->
    let s' := run (handleVerificationApply trim) s in
    profile s' = Some (apply_patch (patch_verification_request (reason s)) r)
    /\ In (apply_patch (patch_verification_request (reason s)) r)
          (db_profiles (backend s'))
    /\ requests s' =
       (requests s ++ [update_eq_id (patch_verification_request (reason s)) (id u);
                       select_all_eq_id (id u)])%list
    /\ message s' = Some {| type := success;
                            text := "Verification request submitted!" |}
    /\ reason s' = "" /\ showApply s' = false /\ loading s' = false
    /\ (trim "" = "" -> profiles.verified r <> Some true ->
        forall p', profile s' = Some p' ->
                   Page.render_verification p' = Page.Pending (reason s)).
Proof.
  intros trim s u r Hu Hid Ht Hsession Huniq Hnd Hin Hr s'. subst s'.
  set (pt := patch_verification_request (reason s)).
  set (rows' := map (fun r => if update_reaches (session s) (id u) (backend s) r
                              then apply_patch pt r else r)
                    (db_profiles (backend s))).
  assert (Hup : profiles_update_by_id (session s) pt (id u) (backend s)
                = (with_profiles rows' (backend s), None))
    by now apply other_patch_succeeds.
  assert (Hin' : In (apply_patch pt r) rows').
  { apply in_map_iff. exists r. split; [|exact Hin].
    now rewrite Hsession, update_reaches_own_row. }
  assert (Hsel : profiles_select_by_id (session s) (id u)
                   (with_profiles rows' (backend s)) = Some (apply_patch pt r)).
  { unfold profiles_select_by_id. rewrite profiles_visible_to_all.
    cbn [db_profiles with_profiles].
    replace (id u) with (profiles.id (apply_patch pt r)) by exact Hr.
    rewrite (where_key_row profiles.id rows' (apply_patch pt r)); trivial.
    unfold rows'. now rewrite patched_ids. }
  rewrite (handleVerificationApply_runs trim s u _ Hu Hid Ht Hup), Hsel.
  cbn [message requests profile backend loading reason showApply with_timer
       with_message with_profile with_loading with_backend with_reason
       with_showApply db_profiles with_profiles].
  split; [reflexivity|]. split; [exact Hin'|].
  split; [now rewrite <- app_assoc|].
  do 4 (split; [reflexivity|]).
  intros Hblank Hver p' [= <-]. unfold Page.render_verification.
  cbn [apply_patch profiles.verified profiles.verification_request pt].
  assert (Hreason : falsy (reason s) = false).
  { apply String.eqb_neq. intros E. apply Ht. now rewrite E. }
  rewrite Hreason. destruct (profiles.verified r) as [[|]|]; congruence.
Qed.

Lemma verification_apply_reads_back_row_witness :
  Sample.trim (reason (Scenario.applying_page "it is me")) <> "" /\
  profile (run (handleVerificationApply Sample.trim)
               (Scenario.applying_page "it is me"))
    = Some (apply_patch (patch_verification_request "it is me") Sample.bob_profile) /\
  Page.render_verification
    (apply_patch (patch_verification_request "it is me") Sample.bob_profile)
    = Page.Pending "it is me".
Proof.
  assert (Ht : Sample.trim (reason (Scenario.applying_page "it is me")) <> "")
    by discriminate.
  split; [exact Ht|].
  destruct (verification_apply_reads_back_row Sample.trim
              (Scenario.applying_page "it is me") {| id := Sample.bob |}
              Sample.bob_profile eq_refl) as (Hp & _ & _ & _ & _ & _ & _ & Hview);
    [discriminate | exact Ht | reflexivity | reflexivity | | simpl; auto
     | reflexivity |].
  - simpl. repeat constructor; simpl; intuition discriminate.
  - split; [exact Hp|]. apply Hview; [reflexivity | discriminate | exact Hp].
Defined.

(** ** The page as a whole *)

Lemma run_lift (m : Settings.M unit) (s : Page.state) :
  Page.run (Page.lift m) s = Page.with_core (run m (Page.core s)) s.
Proof. unfold Page.run, Page.lift, run. now destruct (m (Page.core s)). Qed.

Lemma update_keeps_usernames (c : caller) (pt : patch) (v : string) (db : database) :
  keeps_username pt = true ->
  map profiles.username (db_profiles (fst (profiles_update_by_id c pt v db)))
  = map profiles.username (db_profiles db).
Proof.
  intros Hk. unfold profiles_update_by_id.
  destruct (negb (forallb _ _)); [reflexivity|].
  destruct (negb (usernames_unique _)); [reflexivity|].
  cbn [fst db_profiles with_profiles]. now apply patched_usernames.
Qed.

(** What a handler of the profile part leaves alone when it is not the
    username handler. *)
Lemma handleThemeChange_keeps (newTheme : string) (s : state) :
  newUsername (run (handleThemeChange newTheme) s) = newUsername s
  /\ existsb Page.username_request (requests (run (handleThemeChange newTheme) s))
     = existsb Page.username_request (requests s)
  /\ map profiles.username (db_profiles (backend (run (handleThemeChange newTheme) s)))
     = map profiles.username (db_profiles (backend s)).
Proof.
  unfold run, handleThemeChange, bind, read.
  destruct (user s) as [u|]; [|now repeat split].
  destruct (profile s) as [p|]; [|now repeat split].
  destruct (falsy (id u)); [now repeat split|].
  unfold supabase_update_eq_id, setLoading, write.
  cbn [session backend with_loading].
  pose proof (update_keeps_usernames (session s) (patch_theme newTheme) (id u)
                (backend s) eq_refl) as Hk.
  destruct (profiles_update_by_id _ _ _ _) as [db' [e|]]; cbn [fst] in Hk;
    cbn [snd newUsername requests backend with_timer with_message with_profile
         with_loading with_backend setMessage setTimeout updateProfile write];
    (split; [reflexivity|]); (split; [|exact Hk]);
    rewrite existsb_app; cbn [existsb Page.username_request];
    now rewrite !orb_false_r.
Qed.

Lemma handleVerificationApply_keeps (trim : string -> string) (s : state) :
  newUsername (run (handleVerificationApply trim) s) = newUsername s
  /\ existsb Page.username_request (requests (run (handleVerificationApply trim) s))
     = existsb Page.username_request (requests s)
  /\ map profiles.username (db_profiles (backend (run (handleVerificationApply trim) s)))
     = map profiles.username (db_profiles (backend s)).
Proof.
  unfold run, handleVerificationApply, bind, read.
  destruct (user s) as [u|]; [|now repeat split].
  destruct (falsy (id u) || falsy (trim (reason s))); [now repeat split|].
  unfold supabase_update_eq_id, supabase_select_all_eq_id, setLoading, write.
  cbn [session backend with_loading].
  pose proof (update_keeps_usernames (session s)
                (patch_verification_request (reason s)) (id u)
                (backend s) eq_refl) as Hk.
  destruct (profiles_update_by_id _ _ _ _) as [db' [e|]]; cbn [fst] in Hk; simpl;
    [|destruct (profiles_select_by_id (session s) (id u) db'); simpl];
    (split; [reflexivity|]); (split; [|exact Hk]);
    rewrite ?existsb_app; simpl; now rewrite ?orb_false_r.
Qed.

Lemma handlePasswordChange_core
      (auth_service : list Page.attributes -> caller -> Page.attributes
                      -> option Page.AuthError) (s : Page.state) :
  newUsername (Page.core (Page.run (Page.handlePasswordChange auth_service) s))
    = newUsername (Page.core s)
  /\ requests (Page.core (Page.run (Page.handlePasswordChange auth_service) s))
     = requests (Page.core s)
  /\ backend (Page.core (Page.run (Page.handlePasswordChange auth_service) s))
     = backend (Page.core s)
  /\ profile (Page.core (Page.run (Page.handlePasswordChange auth_service) s))
     = profile (Page.core s)
  /\ Page.newEmail (Page.run (Page.handlePasswordChange auth_service) s)
     = Page.newEmail s
  /\ existsb Page.email_request
       (Page.auth_requests (Page.run (Page.handlePasswordChange auth_service) s))
     = existsb Page.email_request (Page.auth_requests s).
Proof.
  unfold Page.run, Page.handlePasswordChange, Page.bind, Page.read, Page.lift,
    Settings.read.
  cbn [fst snd Page.core Page.with_core].
  destruct (user (Page.core s)) as [u|]; [|now repeat split].
  match goal with |- context [if ?b then _ else _] => destruct b end;
    [now repeat split|].
  unfold Page.supabase_auth_updateUser, setLoading, setMessage, setTimeout, write.
  simpl. destruct (auth_service _ _ _) as [e|]; simpl;
    repeat split; try reflexivity;
    rewrite existsb_app; simpl; now rewrite ?orb_false_r.
Qed.

Section PageInvariant.
Variable toLowerCase : string -> string.
Variable trim : string -> string.
Variable auth_service :
  list Page.attributes -> caller -> Page.attributes -> option Page.AuthError.

(** Both forms closed, and no username or email request sent so far. *)
Let closed (s : Page.state) : Prop :=
  newUsername (Page.core s) = ""
  /\ Page.newEmail s = ""
  /\ existsb Page.username_request (requests (Page.core s)) = false
  /\ existsb Page.email_request (Page.auth_requests s) = false.

Lemma fire_keeps_closed (e : Page.event) (s : Page.state) :
  closed s ->
  closed (Page.fire toLowerCase trim auth_service e s)
  /\ map profiles.username
         (db_profiles (backend (Page.core (Page.fire toLowerCase trim auth_service e s))))
     = map profiles.username (db_profiles (backend (Page.core s))).
Proof.
  intros (Hn & He & Hr & Ha). unfold Page.fire.
  destruct (Page.enabled trim s e) eqn:En; [|now repeat split].
  destruct e; cbn [Page.handler];
    try (unfold Page.enabled in En; rewrite ?Hn, ?He in En;
         destruct (profile (Page.core s)); discriminate);
    try (rewrite run_lift);
    try (unfold closed; cbn; now repeat split).
  - (* pick_theme *)
    destruct (handleThemeChange_keeps newTheme (Page.core s)) as (H1 & H2 & H3).
    unfold closed. cbn [Page.core Page.with_core Page.newEmail Page.auth_requests].
    rewrite H1, H2. now repeat split.
  - (* click_change_password *)
    destruct (handlePasswordChange_core auth_service s) as (H1 & H2 & H3 & _ & H5 & H6).
    unfold closed. rewrite H1, H2, H3, H5, H6. now repeat split.
  - (* click_submit *)
    destruct (handleVerificationApply_keeps trim (Page.core s)) as (H1 & H2 & H3).
    unfold closed. cbn [Page.core Page.with_core Page.newEmail Page.auth_requests].
    rewrite H1, H2. now repeat split.
Qed.

Lemma play_keeps_closed (es : list Page.event) (s : Page.state) :
  closed s ->
  closed (Page.play toLowerCase trim auth_service es s)
  /\ map profiles.username
         (db_profiles (backend (Page.core (Page.play toLowerCase trim auth_service es s))))
     = map profiles.username (db_profiles (backend (Page.core s))).
Proof.
  revert s. induction es as [|e es IH]; intros s Hs; [now split|].
  cbn [Page.play]. destruct (fire_keeps_closed e s Hs) as [Hs' Hnames].
  destruct (IH _ Hs') as [Hfinal Hnames']. split; [exact Hfinal|].
  now rewrite Hnames'.
Qed.

End PageInvariant.

(** X20. The username and email forms cannot be opened from the page: both
    fields start empty, "Edit" sets its field to the empty string, and the
    input and its button are rendered only while the field is not empty.  So
    after any sequence of clicks, keystrokes, theme picks and timers on the
    mounted page both fields are still empty, no username pre-check or
    rename and no email change has been sent, and every username in the
    backend is what it was. *)
Theorem username_and_email_forms_never_open :
  forall (toLowerCase trim : string -> string)
         (auth_service : list Page.attributes -> caller -> Page.attributes
                         -> option Page.AuthError)
         (es : list Page.event) (db : database) (c : caller)
         (u : option User) (p : option profiles.row),
    newUsername (Page.core (Page.play toLowerCase trim auth_service es
                                      (Page.mounted db c u p))) = ""
    /\ Page.newEmail (Page.play toLowerCase trim auth_service es
                                (Page.mounted db c u p)) = ""
    /\ existsb Page.username_request
         (requests (Page.core (Page.play toLowerCase trim auth_service es
                                         (Page.mounted db c u p)))) = false
    /\ existsb Page.email_request
         (Page.auth_requests (Page.play toLowerCase trim auth_service es
                                        (Page.mounted db c u p))) = false
    /\ map profiles.username
         (db_profiles (backend (Page.core (Page.play toLowerCase trim auth_service es
                                                     (Page.mounted db c u p)))))
       = map profiles.username (db_profiles db).
Proof.
  intros toLowerCase trim auth_service es db c u p.
  destruct (play_keeps_closed toLowerCase trim auth_service es
              (Page.mounted db c u p)) as [(H1 & H2 & H3 & H4) H5];
    [now repeat split|].
  repeat split; assumption.
Qed.

(** X21. A click on "Change Password" that the page lets through (button
    enabled, user signed in) makes exactly one call to the identity service,
    carrying the typed password, which is at least 6 characters long and
    equal to its confirmation; the backend tables, the request log and the
    cached profile are not touched.  When the service accepts, both fields
    are emptied and the message is "Password updated!"; when it refuses, the
    fields are kept and the message is the service's own, or "Failed to
    update password." if that is empty. *)
Theorem password_change_sends_typed_password :
  forall (toLowerCase trim : string -> string)
         (auth_service : list Page.attributes -> caller -> Page.attributes
                         -> option Page.AuthError)
         (s : Page.state) (u : User),
    user (Page.core s) = Some u -> id u <> "" ->
    Page.enabled trim s Page.click_change_password = true ->
    Page.auth_requests
      (Page.fire toLowerCase trim auth_service Page.click_change_password s)
      = (Page.auth_requests s ++ [Page.attr_password (Page.newPassword s)])%list
    /\ 6 <= String.length (Page.newPassword s)
    /\ Page.newPassword s = Page.confirmPassword s
    /\ backend (Page.core (Page.fire toLowerCase trim auth_service
                                     Page.click_change_password s))
       = backend (Page.core s)
    /\ requests (Page.core (Page.fire toLowerCase trim auth_service
                                      Page.click_change_password s))
       = requests (Page.core s)
    /\ profile (Page.core (Page.fire toLowerCase trim auth_service
                                     Page.click_change_password s))
       = profile (Page.core s)
    /\ loading (Page.core (Page.fire toLowerCase trim auth_service
                                     Page.click_change_password s)) = false
    /\ match auth_service (Page.auth_requests s) (session (Page.core s))
                          (Page.attr_password (Page.newPassword s)) with
       | None =>
           message (Page.core (Page.fire toLowerCase trim auth_service
                                         Page.click_change_password s))
             = Some {| type := success; text := "Password updated!" |}
           /\ Page.newPassword (Page.fire toLowerCase trim auth_service
                                          Page.click_change_password s) = ""
           /\ Page.confirmPassword (Page.fire toLowerCase trim auth_service
                                              Page.click_change_password s) = ""
       | Some e =>
           message (Page.core (Page.fire toLowerCase trim auth_service
                                         Page.click_change_password s))
             = Some {| type := error;
                       text := if String.eqb (Page.error_message e) ""
                               then "Failed to update password."
                               else Page.error_message e |}
           /\ Page.newPassword (Page.fire toLowerCase trim auth_service
                                          Page.click_change_password s)
              = Page.newPassword s
           /\ Page.confirmPassword (Page.fire toLowerCase trim auth_service
                                              Page.click_change_password s)
              = Page.confirmPassword s
       end.
Proof.
  intros toLowerCase trim auth_service s u Hu Hid Hen.
  unfold Page.fire. rewrite Hen.
  destruct s as [c ne np cp ar].
  cbn [Page.core Page.newPassword Page.confirmPassword Page.auth_requests] in *.
  unfold Page.enabled in Hen.
  cbn [Page.core Page.newPassword Page.confirmPassword] in Hen.
  destruct (profile c) as [p|] eqn:Ep; [|discriminate].
  apply negb_true_iff in Hen.
  apply orb_false_iff in Hen as [Hen Hlen].
  apply orb_false_iff in Hen as [Hload Heq].
  apply negb_false_iff in Heq.
  cbn [Page.handler].
  unfold Page.run, Page.handlePasswordChange, Page.bind, Page.read, Page.lift,
    Settings.read.
  cbn [fst snd Page.core Page.with_core Page.newPassword Page.confirmPassword].
  rewrite Hu.
  assert (Hf : falsy (id u) = false) by (apply String.eqb_neq; exact Hid).
  rewrite Hf, Heq, Hlen. cbn [negb orb].
  unfold Page.supabase_auth_updateUser, setLoading, setMessage, setTimeout, write.
  simpl.
  apply String.eqb_eq in Heq. apply Nat.ltb_ge in Hlen.
  destruct (auth_service ar (session c) (Page.attr_password np)) as [e|]; simpl;
    repeat split; trivial.
Qed.

Lemma password_change_sends_typed_password_witness :
  Page.enabled Sample.trim (Scenario.password_page "s3cret!" "s3cret!")
               Page.click_change_password = true /\
  Page.auth_requests
    (Page.fire Sample.toLowerCase Sample.trim Scenario.refusing
               Page.click_change_password
               (Scenario.password_page "s3cret!" "s3cret!"))
    = [Page.attr_password "s3cret!"] /\
  message (Page.core
             (Page.fire Sample.toLowerCase Sample.trim Scenario.refusing
                        Page.click_change_password
                        (Scenario.password_page "s3cret!" "s3cret!")))
    = Some {| type := error; text := "Failed to update password." |}.
Proof.
  assert (Hid : id {| id := Sample.bob |} <> "") by discriminate.
  split; [reflexivity|].
  destruct (password_change_sends_typed_password Sample.toLowerCase Sample.trim
              Scenario.refusing (Scenario.password_page "s3cret!" "s3cret!")
              {| id := Sample.bob |} eq_refl Hid eq_refl)
    as (Hreq & _ & _ & _ & _ & _ & _ & Hmsg).
  split; [exact Hreq|]. exact (proj1 Hmsg).
Defined.
